(** * MensaMate: the menu-table interpreter of [mensa_email.py]

    A shallow embedding of the parsing core of the HWR Mensa bot
    ([MensaParser] and the constants and records it uses) and the
    properties of its specification.

    Python values are modelled as follows.
    - [str] is a list of Unicode code points ([N]); the literals of this
      file are written with [utf8], which decodes the bytes of a Rocq
      string. The patterns and the literals of the program hold the
      characters of its source, one by one.
    - [set] is stdpp's [gset], the legend [dict] is a [gmap]; the two
      dictionaries keyed by weekday, which the code iterates in
      insertion order, are association lists.
    - an exception is the [Raise] case of [result].
    - the [float] price is the exact rational it denotes.

    The mail settings of [Config] and the mail body of [EmailNotifier]
    are embedded as well. The download, the SMTP connection and the
    clock are not: the day of the week and the formatting of a price are
    parameters of the mail body. *)

From Stdlib Require Import String Ascii QArith.
From stdpp Require Import gmap list.

Local Open Scope N_scope.
Local Open Scope list_scope.

Abbreviation str := (list N).

(** ** String literals *)

(** UTF-8 decoding of a well-formed byte sequence. *)
Fixpoint utf8_decode (bs : list N) : str :=
  match bs with
  | [] => []
  | b :: bs1 =>
    if b <? 0x80 then b :: utf8_decode bs1
    else match bs1 with
    | [] => [b]
    | b1 :: bs2 =>
      if b <? 0xE0 then
        ((b - 0xC0) * 64 + (b1 - 0x80)) :: utf8_decode bs2
      else match bs2 with
      | [] => [b]
      | b2 :: bs3 =>
        if b <? 0xF0 then
          ((b - 0xE0) * 4096 + (b1 - 0x80) * 64 + (b2 - 0x80))
            :: utf8_decode bs3
        else match bs3 with
        | [] => [b]
        | b3 :: bs4 =>
          ((b - 0xF0) * 262144 + (b1 - 0x80) * 4096
           + (b2 - 0x80) * 64 + (b3 - 0x80)) :: utf8_decode bs4
        end
      end
    end
  end.

Definition utf8 (s : string) : str :=
  utf8_decode (map N_of_ascii (list_ascii_of_string s)).

(** ** Exceptions *)

Inductive exn := IndexError | KeyError | ValueError.

Inductive result (A : Type) :=
| Ok (a : A)
| Raise (e : exn).
Arguments Ok {A} a.
Arguments Raise {A} e.

#[export] Instance result_ret : MRet result := fun _ a => Ok a.

#[export] Instance result_bind : MBind result := fun _ _ f r =>
  match r with
  | Ok a => f a
  | Raise e => Raise e
  end.

(** A [for] loop whose body may raise. *)
Fixpoint for_each {A S} (body : S -> A -> result S) (xs : list A) (st : S)
  : result S :=
  match xs with
  | [] => Ok st
  | x :: xs' => st' ← body st x; for_each body xs' st'
  end.

(** ** Built-in string operations *)

Module Py.

(** [str.isspace] of one character, which is also the class [\s] of [re]
    and what [strip()] and [split()] remove. *)
Definition isspace (c : N) : bool :=
  ((0x09 <=? c) && (c <=? 0x0D)) || ((0x1C <=? c) && (c <=? 0x20))
  || (c =? 0x85) || (c =? 0xA0) || (c =? 0x1680)
  || ((0x2000 <=? c) && (c <=? 0x200A))
  || (c =? 0x2028) || (c =? 0x2029) || (c =? 0x202F) || (c =? 0x205F)
  || (c =? 0x3000).

(** The code points of the digit zero of every decimal-digit block of
    Unicode 14 (category Nd); a block is its ten successive digits. *)
Definition decimal_zeros : list N :=
  [ 0x30; 0x660; 0x6F0; 0x7C0; 0x966; 0x9E6; 0xA66; 0xAE6; 0xB66; 0xBE6;
    0xC66; 0xCE6; 0xD66; 0xDE6; 0xE50; 0xED0; 0xF20; 0x1040; 0x1090;
    0x17E0; 0x1810; 0x1946; 0x19D0; 0x1A80; 0x1A90; 0x1B50; 0x1BB0;
    0x1C40; 0x1C50; 0xA620; 0xA8D0; 0xA900; 0xA9D0; 0xA9F0; 0xAA50;
    0xABF0; 0xFF10; 0x104A0; 0x10D30; 0x11066; 0x110F0; 0x11136;
    0x111D0; 0x112F0; 0x11450; 0x114D0; 0x11650; 0x116C0; 0x11730;
    0x118E0; 0x11950; 0x11C50; 0x11D50; 0x11DA0; 0x16A60; 0x16AC0;
    0x16B50; 0x1D7CE; 0x1D7D8; 0x1D7E2; 0x1D7EC; 0x1D7F6; 0x1E140;
    0x1E2F0; 0x1E950; 0x1FBF0 ].

Definition in_block (c z : N) : bool := (z <=? c) && (c <? z + 10).

(** [str.isdecimal] of one character, the class [\d] of [re]. *)
Definition isdecimal (c : N) : bool := existsb (in_block c) decimal_zeros.

(** The value of a decimal digit. *)
Definition decimal (c : N) : N :=
  match List.find (in_block c) decimal_zeros with
  | Some z => c - z
  | None => 0
  end.

(** [c] lies in one of the ranges, bounds included. *)
Definition in_ranges (rs : list (N * N)) (c : N) : bool :=
  existsb (fun r => (r.1 <=? c) && (c <=? r.2)) rs.

(** The lowercase mappings of Unicode 14 that give one character, in
    runs: [(c, l, n, d)] stands for the [n] mappings of [c + k * d] to
    [l + k * d], [k] from 0. *)
Definition lower_runs : list (N * N * N * N) :=
  [ (0x41, 0x61, 26, 1); (0xC0, 0xE0, 23, 1); (0xD8, 0xF8, 7, 1);
    (0x100, 0x101, 24, 2); (0x132, 0x133, 3, 2); (0x139, 0x13A, 8, 2);
    (0x14A, 0x14B, 23, 2); (0x178, 0xFF, 1, 1); (0x179, 0x17A, 3, 2);
    (0x181, 0x253, 1, 1); (0x182, 0x183, 2, 2); (0x186, 0x254, 1, 1);
    (0x187, 0x188, 1, 1); (0x189, 0x256, 2, 1); (0x18B, 0x18C, 1, 1);
    (0x18E, 0x1DD, 1, 1); (0x18F, 0x259, 1, 1); (0x190, 0x25B, 1, 1);
    (0x191, 0x192, 1, 1); (0x193, 0x260, 1, 1); (0x194, 0x263, 1, 1);
    (0x196, 0x269, 1, 1); (0x197, 0x268, 1, 1); (0x198, 0x199, 1, 1);
    (0x19C, 0x26F, 1, 1); (0x19D, 0x272, 1, 1); (0x19F, 0x275, 1, 1);
    (0x1A0, 0x1A1, 3, 2); (0x1A6, 0x280, 1, 1); (0x1A7, 0x1A8, 1, 1);
    (0x1A9, 0x283, 1, 1); (0x1AC, 0x1AD, 1, 1); (0x1AE, 0x288, 1, 1);
    (0x1AF, 0x1B0, 1, 1); (0x1B1, 0x28A, 2, 1); (0x1B3, 0x1B4, 2, 2);
    (0x1B7, 0x292, 1, 1); (0x1B8, 0x1B9, 1, 1); (0x1BC, 0x1BD, 1, 1);
    (0x1C4, 0x1C6, 1, 1); (0x1C5, 0x1C6, 1, 1); (0x1C7, 0x1C9, 1, 1);
    (0x1C8, 0x1C9, 1, 1); (0x1CA, 0x1CC, 1, 1); (0x1CB, 0x1CC, 9, 2);
    (0x1DE, 0x1DF, 9, 2); (0x1F1, 0x1F3, 1, 1); (0x1F2, 0x1F3, 2, 2);
    (0x1F6, 0x195, 1, 1); (0x1F7, 0x1BF, 1, 1); (0x1F8, 0x1F9, 20, 2);
    (0x220, 0x19E, 1, 1); (0x222, 0x223, 9, 2); (0x23A, 0x2C65, 1, 1);
    (0x23B, 0x23C, 1, 1); (0x23D, 0x19A, 1, 1); (0x23E, 0x2C66, 1, 1);
    (0x241, 0x242, 1, 1); (0x243, 0x180, 1, 1); (0x244, 0x289, 1, 1);
    (0x245, 0x28C, 1, 1); (0x246, 0x247, 5, 2); (0x370, 0x371, 2, 2);
    (0x376, 0x377, 1, 1); (0x37F, 0x3F3, 1, 1); (0x386, 0x3AC, 1, 1);
    (0x388, 0x3AD, 3, 1); (0x38C, 0x3CC, 1, 1); (0x38E, 0x3CD, 2, 1);
    (0x391, 0x3B1, 17, 1); (0x3A3, 0x3C3, 9, 1); (0x3CF, 0x3D7, 1, 1);
    (0x3D8, 0x3D9, 12, 2); (0x3F4, 0x3B8, 1, 1); (0x3F7, 0x3F8, 1, 1);
    (0x3F9, 0x3F2, 1, 1); (0x3FA, 0x3FB, 1, 1); (0x3FD, 0x37B, 3, 1);
    (0x400, 0x450, 16, 1); (0x410, 0x430, 32, 1); (0x460, 0x461, 17, 2);
    (0x48A, 0x48B, 27, 2); (0x4C0, 0x4CF, 1, 1); (0x4C1, 0x4C2, 7, 2);
    (0x4D0, 0x4D1, 48, 2); (0x531, 0x561, 38, 1); (0x10A0, 0x2D00, 38, 1);
    (0x10C7, 0x2D27, 1, 1); (0x10CD, 0x2D2D, 1, 1);
    (0x13A0, 0xAB70, 80, 1); (0x13F0, 0x13F8, 6, 1);
    (0x1C90, 0x10D0, 43, 1); (0x1CBD, 0x10FD, 3, 1);
    (0x1E00, 0x1E01, 75, 2); (0x1E9E, 0xDF, 1, 1); (0x1EA0, 0x1EA1, 48, 2);
    (0x1F08, 0x1F00, 8, 1); (0x1F18, 0x1F10, 6, 1); (0x1F28, 0x1F20, 8, 1);
    (0x1F38, 0x1F30, 8, 1); (0x1F48, 0x1F40, 6, 1); (0x1F59, 0x1F51, 4, 2);
    (0x1F68, 0x1F60, 8, 1); (0x1F88, 0x1F80, 8, 1); (0x1F98, 0x1F90, 8, 1);
    (0x1FA8, 0x1FA0, 8, 1); (0x1FB8, 0x1FB0, 2, 1); (0x1FBA, 0x1F70, 2, 1);
    (0x1FBC, 0x1FB3, 1, 1); (0x1FC8, 0x1F72, 4, 1); (0x1FCC, 0x1FC3, 1, 1);
    (0x1FD8, 0x1FD0, 2, 1); (0x1FDA, 0x1F76, 2, 1); (0x1FE8, 0x1FE0, 2, 1);
    (0x1FEA, 0x1F7A, 2, 1); (0x1FEC, 0x1FE5, 1, 1); (0x1FF8, 0x1F78, 2, 1);
    (0x1FFA, 0x1F7C, 2, 1); (0x1FFC, 0x1FF3, 1, 1); (0x2126, 0x3C9, 1, 1);
    (0x212A, 0x6B, 1, 1); (0x212B, 0xE5, 1, 1); (0x2132, 0x214E, 1, 1);
    (0x2160, 0x2170, 16, 1); (0x2183, 0x2184, 1, 1);
    (0x24B6, 0x24D0, 26, 1); (0x2C00, 0x2C30, 48, 1);
    (0x2C60, 0x2C61, 1, 1); (0x2C62, 0x26B, 1, 1); (0x2C63, 0x1D7D, 1, 1);
    (0x2C64, 0x27D, 1, 1); (0x2C67, 0x2C68, 3, 2); (0x2C6D, 0x251, 1, 1);
    (0x2C6E, 0x271, 1, 1); (0x2C6F, 0x250, 1, 1); (0x2C70, 0x252, 1, 1);
    (0x2C72, 0x2C73, 1, 1); (0x2C75, 0x2C76, 1, 1); (0x2C7E, 0x23F, 2, 1);
    (0x2C80, 0x2C81, 50, 2); (0x2CEB, 0x2CEC, 2, 2);
    (0x2CF2, 0x2CF3, 1, 1); (0xA640, 0xA641, 23, 2);
    (0xA680, 0xA681, 14, 2); (0xA722, 0xA723, 7, 2);
    (0xA732, 0xA733, 31, 2); (0xA779, 0xA77A, 2, 2);
    (0xA77D, 0x1D79, 1, 1); (0xA77E, 0xA77F, 5, 2); (0xA78B, 0xA78C, 1, 1);
    (0xA78D, 0x265, 1, 1); (0xA790, 0xA791, 2, 2); (0xA796, 0xA797, 10, 2);
    (0xA7AA, 0x266, 1, 1); (0xA7AB, 0x25C, 1, 1); (0xA7AC, 0x261, 1, 1);
    (0xA7AD, 0x26C, 1, 1); (0xA7AE, 0x26A, 1, 1); (0xA7B0, 0x29E, 1, 1);
    (0xA7B1, 0x287, 1, 1); (0xA7B2, 0x29D, 1, 1); (0xA7B3, 0xAB53, 1, 1);
    (0xA7B4, 0xA7B5, 8, 2); (0xA7C4, 0xA794, 1, 1); (0xA7C5, 0x282, 1, 1);
    (0xA7C6, 0x1D8E, 1, 1); (0xA7C7, 0xA7C8, 2, 2); (0xA7D0, 0xA7D1, 1, 1);
    (0xA7D6, 0xA7D7, 2, 2); (0xA7F5, 0xA7F6, 1, 1);
    (0xFF21, 0xFF41, 26, 1); (0x10400, 0x10428, 40, 1);
    (0x104B0, 0x104D8, 36, 1); (0x10570, 0x10597, 11, 1);
    (0x1057C, 0x105A3, 15, 1); (0x1058C, 0x105B3, 7, 1);
    (0x10594, 0x105BB, 2, 1); (0x10C80, 0x10CC0, 51, 1);
    (0x118A0, 0x118C0, 32, 1); (0x16E40, 0x16E60, 32, 1);
    (0x1E900, 0x1E922, 34, 1) ].

Definition run_pairs (r : N * N * N * N) : list (N * N) :=
  let '(c, l, n, d) := r in
  (fun k => (c + N.of_nat k * d, l + N.of_nat k * d))
    <$> seq 0 (N.to_nat n).

Definition lower_pairs : list (N * N) :=
  Eval vm_compute in flat_map run_pairs lower_runs.

(** [str.lower] of one character other than U+0130, which gives two
    characters, and, in a word, U+03A3, which depends on its place. *)
Definition lower_char (c : N) : N :=
  match List.find (fun p => p.1 =? c) lower_pairs with
  | Some p => p.2
  | None => c
  end.

(** The characters with the property Case_Ignorable, in ranges. *)
Definition case_ignorable_ranges : list (N * N) :=
  [ (0x27, 0x27); (0x2E, 0x2E); (0x3A, 0x3A); (0x5E, 0x5E); (0x60, 0x60);
    (0xA8, 0xA8); (0xAD, 0xAD); (0xAF, 0xAF); (0xB4, 0xB4); (0xB7, 0xB8);
    (0x2B0, 0x36F); (0x374, 0x375); (0x37A, 0x37A); (0x384, 0x385);
    (0x387, 0x387); (0x483, 0x489); (0x559, 0x559); (0x55F, 0x55F);
    (0x591, 0x5BD); (0x5BF, 0x5BF); (0x5C1, 0x5C2); (0x5C4, 0x5C5);
    (0x5C7, 0x5C7); (0x5F4, 0x5F4); (0x600, 0x605); (0x610, 0x61A);
    (0x61C, 0x61C); (0x640, 0x640); (0x64B, 0x65F); (0x670, 0x670);
    (0x6D6, 0x6DD); (0x6DF, 0x6E8); (0x6EA, 0x6ED); (0x70F, 0x70F);
    (0x711, 0x711); (0x730, 0x74A); (0x7A6, 0x7B0); (0x7EB, 0x7F5);
    (0x7FA, 0x7FA); (0x7FD, 0x7FD); (0x816, 0x82D); (0x859, 0x85B);
    (0x888, 0x888); (0x890, 0x891); (0x898, 0x89F); (0x8C9, 0x902);
    (0x93A, 0x93A); (0x93C, 0x93C); (0x941, 0x948); (0x94D, 0x94D);
    (0x951, 0x957); (0x962, 0x963); (0x971, 0x971); (0x981, 0x981);
    (0x9BC, 0x9BC); (0x9C1, 0x9C4); (0x9CD, 0x9CD); (0x9E2, 0x9E3);
    (0x9FE, 0x9FE); (0xA01, 0xA02); (0xA3C, 0xA3C); (0xA41, 0xA42);
    (0xA47, 0xA48); (0xA4B, 0xA4D); (0xA51, 0xA51); (0xA70, 0xA71);
    (0xA75, 0xA75); (0xA81, 0xA82); (0xABC, 0xABC); (0xAC1, 0xAC5);
    (0xAC7, 0xAC8); (0xACD, 0xACD); (0xAE2, 0xAE3); (0xAFA, 0xAFF);
    (0xB01, 0xB01); (0xB3C, 0xB3C); (0xB3F, 0xB3F); (0xB41, 0xB44);
    (0xB4D, 0xB4D); (0xB55, 0xB56); (0xB62, 0xB63); (0xB82, 0xB82);
    (0xBC0, 0xBC0); (0xBCD, 0xBCD); (0xC00, 0xC00); (0xC04, 0xC04);
    (0xC3C, 0xC3C); (0xC3E, 0xC40); (0xC46, 0xC48); (0xC4A, 0xC4D);
    (0xC55, 0xC56); (0xC62, 0xC63); (0xC81, 0xC81); (0xCBC, 0xCBC);
    (0xCBF, 0xCBF); (0xCC6, 0xCC6); (0xCCC, 0xCCD); (0xCE2, 0xCE3);
    (0xD00, 0xD01); (0xD3B, 0xD3C); (0xD41, 0xD44); (0xD4D, 0xD4D);
    (0xD62, 0xD63); (0xD81, 0xD81); (0xDCA, 0xDCA); (0xDD2, 0xDD4);
    (0xDD6, 0xDD6); (0xE31, 0xE31); (0xE34, 0xE3A); (0xE46, 0xE4E);
    (0xEB1, 0xEB1); (0xEB4, 0xEBC); (0xEC6, 0xEC6); (0xEC8, 0xECD);
    (0xF18, 0xF19); (0xF35, 0xF35); (0xF37, 0xF37); (0xF39, 0xF39);
    (0xF71, 0xF7E); (0xF80, 0xF84); (0xF86, 0xF87); (0xF8D, 0xF97);
    (0xF99, 0xFBC); (0xFC6, 0xFC6); (0x102D, 0x1030); (0x1032, 0x1037);
    (0x1039, 0x103A); (0x103D, 0x103E); (0x1058, 0x1059); (0x105E, 0x1060);
    (0x1071, 0x1074); (0x1082, 0x1082); (0x1085, 0x1086); (0x108D, 0x108D);
    (0x109D, 0x109D); (0x10FC, 0x10FC); (0x135D, 0x135F); (0x1712, 0x1714);
    (0x1732, 0x1733); (0x1752, 0x1753); (0x1772, 0x1773); (0x17B4, 0x17B5);
    (0x17B7, 0x17BD); (0x17C6, 0x17C6); (0x17C9, 0x17D3); (0x17D7, 0x17D7);
    (0x17DD, 0x17DD); (0x180B, 0x180F); (0x1843, 0x1843); (0x1885, 0x1886);
    (0x18A9, 0x18A9); (0x1920, 0x1922); (0x1927, 0x1928); (0x1932, 0x1932);
    (0x1939, 0x193B); (0x1A17, 0x1A18); (0x1A1B, 0x1A1B); (0x1A56, 0x1A56);
    (0x1A58, 0x1A5E); (0x1A60, 0x1A60); (0x1A62, 0x1A62); (0x1A65, 0x1A6C);
    (0x1A73, 0x1A7C); (0x1A7F, 0x1A7F); (0x1AA7, 0x1AA7); (0x1AB0, 0x1ACE);
    (0x1B00, 0x1B03); (0x1B34, 0x1B34); (0x1B36, 0x1B3A); (0x1B3C, 0x1B3C);
    (0x1B42, 0x1B42); (0x1B6B, 0x1B73); (0x1B80, 0x1B81); (0x1BA2, 0x1BA5);
    (0x1BA8, 0x1BA9); (0x1BAB, 0x1BAD); (0x1BE6, 0x1BE6); (0x1BE8, 0x1BE9);
    (0x1BED, 0x1BED); (0x1BEF, 0x1BF1); (0x1C2C, 0x1C33); (0x1C36, 0x1C37);
    (0x1C78, 0x1C7D); (0x1CD0, 0x1CD2); (0x1CD4, 0x1CE0); (0x1CE2, 0x1CE8);
    (0x1CED, 0x1CED); (0x1CF4, 0x1CF4); (0x1CF8, 0x1CF9); (0x1D2C, 0x1D6A);
    (0x1D78, 0x1D78); (0x1D9B, 0x1DFF); (0x1FBD, 0x1FBD); (0x1FBF, 0x1FC1);
    (0x1FCD, 0x1FCF); (0x1FDD, 0x1FDF); (0x1FED, 0x1FEF); (0x1FFD, 0x1FFE);
    (0x200B, 0x200F); (0x2018, 0x2019); (0x2024, 0x2024); (0x2027, 0x2027);
    (0x202A, 0x202E); (0x2060, 0x2064); (0x2066, 0x206F); (0x2071, 0x2071);
    (0x207F, 0x207F); (0x2090, 0x209C); (0x20D0, 0x20F0); (0x2C7C, 0x2C7D);
    (0x2CEF, 0x2CF1); (0x2D6F, 0x2D6F); (0x2D7F, 0x2D7F); (0x2DE0, 0x2DFF);
    (0x2E2F, 0x2E2F); (0x3005, 0x3005); (0x302A, 0x302D); (0x3031, 0x3035);
    (0x303B, 0x303B); (0x3099, 0x309E); (0x30FC, 0x30FE); (0xA015, 0xA015);
    (0xA4F8, 0xA4FD); (0xA60C, 0xA60C); (0xA66F, 0xA672); (0xA674, 0xA67D);
    (0xA67F, 0xA67F); (0xA69C, 0xA69F); (0xA6F0, 0xA6F1); (0xA700, 0xA721);
    (0xA770, 0xA770); (0xA788, 0xA78A); (0xA7F2, 0xA7F4); (0xA7F8, 0xA7F9);
    (0xA802, 0xA802); (0xA806, 0xA806); (0xA80B, 0xA80B); (0xA825, 0xA826);
    (0xA82C, 0xA82C); (0xA8C4, 0xA8C5); (0xA8E0, 0xA8F1); (0xA8FF, 0xA8FF);
    (0xA926, 0xA92D); (0xA947, 0xA951); (0xA980, 0xA982); (0xA9B3, 0xA9B3);
    (0xA9B6, 0xA9B9); (0xA9BC, 0xA9BD); (0xA9CF, 0xA9CF); (0xA9E5, 0xA9E6);
    (0xAA29, 0xAA2E); (0xAA31, 0xAA32); (0xAA35, 0xAA36); (0xAA43, 0xAA43);
    (0xAA4C, 0xAA4C); (0xAA70, 0xAA70); (0xAA7C, 0xAA7C); (0xAAB0, 0xAAB0);
    (0xAAB2, 0xAAB4); (0xAAB7, 0xAAB8); (0xAABE, 0xAABF); (0xAAC1, 0xAAC1);
    (0xAADD, 0xAADD); (0xAAEC, 0xAAED); (0xAAF3, 0xAAF4); (0xAAF6, 0xAAF6);
    (0xAB5B, 0xAB5F); (0xAB69, 0xAB6B); (0xABE5, 0xABE5); (0xABE8, 0xABE8);
    (0xABED, 0xABED); (0xFB1E, 0xFB1E); (0xFBB2, 0xFBC2); (0xFE00, 0xFE0F);
    (0xFE13, 0xFE13); (0xFE20, 0xFE2F); (0xFE52, 0xFE52); (0xFE55, 0xFE55);
    (0xFEFF, 0xFEFF); (0xFF07, 0xFF07); (0xFF0E, 0xFF0E); (0xFF1A, 0xFF1A);
    (0xFF3E, 0xFF3E); (0xFF40, 0xFF40); (0xFF70, 0xFF70); (0xFF9E, 0xFF9F);
    (0xFFE3, 0xFFE3); (0xFFF9, 0xFFFB); (0x101FD, 0x101FD);
    (0x102E0, 0x102E0); (0x10376, 0x1037A); (0x10780, 0x10785);
    (0x10787, 0x107B0); (0x107B2, 0x107BA); (0x10A01, 0x10A03);
    (0x10A05, 0x10A06); (0x10A0C, 0x10A0F); (0x10A38, 0x10A3A);
    (0x10A3F, 0x10A3F); (0x10AE5, 0x10AE6); (0x10D24, 0x10D27);
    (0x10EAB, 0x10EAC); (0x10F46, 0x10F50); (0x10F82, 0x10F85);
    (0x11001, 0x11001); (0x11038, 0x11046); (0x11070, 0x11070);
    (0x11073, 0x11074); (0x1107F, 0x11081); (0x110B3, 0x110B6);
    (0x110B9, 0x110BA); (0x110BD, 0x110BD); (0x110C2, 0x110C2);
    (0x110CD, 0x110CD); (0x11100, 0x11102); (0x11127, 0x1112B);
    (0x1112D, 0x11134); (0x11173, 0x11173); (0x11180, 0x11181);
    (0x111B6, 0x111BE); (0x111C9, 0x111CC); (0x111CF, 0x111CF);
    (0x1122F, 0x11231); (0x11234, 0x11234); (0x11236, 0x11237);
    (0x1123E, 0x1123E); (0x112DF, 0x112DF); (0x112E3, 0x112EA);
    (0x11300, 0x11301); (0x1133B, 0x1133C); (0x11340, 0x11340);
    (0x11366, 0x1136C); (0x11370, 0x11374); (0x11438, 0x1143F);
    (0x11442, 0x11444); (0x11446, 0x11446); (0x1145E, 0x1145E);
    (0x114B3, 0x114B8); (0x114BA, 0x114BA); (0x114BF, 0x114C0);
    (0x114C2, 0x114C3); (0x115B2, 0x115B5); (0x115BC, 0x115BD);
    (0x115BF, 0x115C0); (0x115DC, 0x115DD); (0x11633, 0x1163A);
    (0x1163D, 0x1163D); (0x1163F, 0x11640); (0x116AB, 0x116AB);
    (0x116AD, 0x116AD); (0x116B0, 0x116B5); (0x116B7, 0x116B7);
    (0x1171D, 0x1171F); (0x11722, 0x11725); (0x11727, 0x1172B);
    (0x1182F, 0x11837); (0x11839, 0x1183A); (0x1193B, 0x1193C);
    (0x1193E, 0x1193E); (0x11943, 0x11943); (0x119D4, 0x119D7);
    (0x119DA, 0x119DB); (0x119E0, 0x119E0); (0x11A01, 0x11A0A);
    (0x11A33, 0x11A38); (0x11A3B, 0x11A3E); (0x11A47, 0x11A47);
    (0x11A51, 0x11A56); (0x11A59, 0x11A5B); (0x11A8A, 0x11A96);
    (0x11A98, 0x11A99); (0x11C30, 0x11C36); (0x11C38, 0x11C3D);
    (0x11C3F, 0x11C3F); (0x11C92, 0x11CA7); (0x11CAA, 0x11CB0);
    (0x11CB2, 0x11CB3); (0x11CB5, 0x11CB6); (0x11D31, 0x11D36);
    (0x11D3A, 0x11D3A); (0x11D3C, 0x11D3D); (0x11D3F, 0x11D45);
    (0x11D47, 0x11D47); (0x11D90, 0x11D91); (0x11D95, 0x11D95);
    (0x11D97, 0x11D97); (0x11EF3, 0x11EF4); (0x13430, 0x13438);
    (0x16AF0, 0x16AF4); (0x16B30, 0x16B36); (0x16B40, 0x16B43);
    (0x16F4F, 0x16F4F); (0x16F8F, 0x16F9F); (0x16FE0, 0x16FE1);
    (0x16FE3, 0x16FE4); (0x1AFF0, 0x1AFF3); (0x1AFF5, 0x1AFFB);
    (0x1AFFD, 0x1AFFE); (0x1BC9D, 0x1BC9E); (0x1BCA0, 0x1BCA3);
    (0x1CF00, 0x1CF2D); (0x1CF30, 0x1CF46); (0x1D167, 0x1D169);
    (0x1D173, 0x1D182); (0x1D185, 0x1D18B); (0x1D1AA, 0x1D1AD);
    (0x1D242, 0x1D244); (0x1DA00, 0x1DA36); (0x1DA3B, 0x1DA6C);
    (0x1DA75, 0x1DA75); (0x1DA84, 0x1DA84); (0x1DA9B, 0x1DA9F);
    (0x1DAA1, 0x1DAAF); (0x1E000, 0x1E006); (0x1E008, 0x1E018);
    (0x1E01B, 0x1E021); (0x1E023, 0x1E024); (0x1E026, 0x1E02A);
    (0x1E130, 0x1E13D); (0x1E2AE, 0x1E2AE); (0x1E2EC, 0x1E2EF);
    (0x1E8D0, 0x1E8D6); (0x1E944, 0x1E94B); (0x1F3FB, 0x1F3FF);
    (0xE0001, 0xE0001); (0xE0020, 0xE007F); (0xE0100, 0xE01EF) ].

(** The characters with the property Cased, in ranges. *)
Definition cased_ranges : list (N * N) :=
  [ (0x41, 0x5A); (0x61, 0x7A); (0xAA, 0xAA); (0xB5, 0xB5); (0xBA, 0xBA);
    (0xC0, 0xD6); (0xD8, 0xF6); (0xF8, 0x1BA); (0x1BC, 0x1BF);
    (0x1C4, 0x293); (0x295, 0x2B8); (0x2C0, 0x2C1); (0x2E0, 0x2E4);
    (0x345, 0x345); (0x370, 0x373); (0x376, 0x377); (0x37A, 0x37D);
    (0x37F, 0x37F); (0x386, 0x386); (0x388, 0x38A); (0x38C, 0x38C);
    (0x38E, 0x3A1); (0x3A3, 0x3F5); (0x3F7, 0x481); (0x48A, 0x52F);
    (0x531, 0x556); (0x560, 0x588); (0x10A0, 0x10C5); (0x10C7, 0x10C7);
    (0x10CD, 0x10CD); (0x10D0, 0x10FA); (0x10FD, 0x10FF); (0x13A0, 0x13F5);
    (0x13F8, 0x13FD); (0x1C80, 0x1C88); (0x1C90, 0x1CBA); (0x1CBD, 0x1CBF);
    (0x1D00, 0x1DBF); (0x1E00, 0x1F15); (0x1F18, 0x1F1D); (0x1F20, 0x1F45);
    (0x1F48, 0x1F4D); (0x1F50, 0x1F57); (0x1F59, 0x1F59); (0x1F5B, 0x1F5B);
    (0x1F5D, 0x1F5D); (0x1F5F, 0x1F7D); (0x1F80, 0x1FB4); (0x1FB6, 0x1FBC);
    (0x1FBE, 0x1FBE); (0x1FC2, 0x1FC4); (0x1FC6, 0x1FCC); (0x1FD0, 0x1FD3);
    (0x1FD6, 0x1FDB); (0x1FE0, 0x1FEC); (0x1FF2, 0x1FF4); (0x1FF6, 0x1FFC);
    (0x2071, 0x2071); (0x207F, 0x207F); (0x2090, 0x209C); (0x2102, 0x2102);
    (0x2107, 0x2107); (0x210A, 0x2113); (0x2115, 0x2115); (0x2119, 0x211D);
    (0x2124, 0x2124); (0x2126, 0x2126); (0x2128, 0x2128); (0x212A, 0x212D);
    (0x212F, 0x2134); (0x2139, 0x2139); (0x213C, 0x213F); (0x2145, 0x2149);
    (0x214E, 0x214E); (0x2160, 0x217F); (0x2183, 0x2184); (0x24B6, 0x24E9);
    (0x2C00, 0x2CE4); (0x2CEB, 0x2CEE); (0x2CF2, 0x2CF3); (0x2D00, 0x2D25);
    (0x2D27, 0x2D27); (0x2D2D, 0x2D2D); (0xA640, 0xA66D); (0xA680, 0xA69D);
    (0xA722, 0xA787); (0xA78B, 0xA78E); (0xA790, 0xA7CA); (0xA7D0, 0xA7D1);
    (0xA7D3, 0xA7D3); (0xA7D5, 0xA7D9); (0xA7F5, 0xA7F6); (0xA7F8, 0xA7FA);
    (0xAB30, 0xAB5A); (0xAB5C, 0xAB68); (0xAB70, 0xABBF); (0xFB00, 0xFB06);
    (0xFB13, 0xFB17); (0xFF21, 0xFF3A); (0xFF41, 0xFF5A);
    (0x10400, 0x1044F); (0x104B0, 0x104D3); (0x104D8, 0x104FB);
    (0x10570, 0x1057A); (0x1057C, 0x1058A); (0x1058C, 0x10592);
    (0x10594, 0x10595); (0x10597, 0x105A1); (0x105A3, 0x105B1);
    (0x105B3, 0x105B9); (0x105BB, 0x105BC); (0x10780, 0x10780);
    (0x10783, 0x10785); (0x10787, 0x107B0); (0x107B2, 0x107BA);
    (0x10C80, 0x10CB2); (0x10CC0, 0x10CF2); (0x118A0, 0x118DF);
    (0x16E40, 0x16E7F); (0x1D400, 0x1D454); (0x1D456, 0x1D49C);
    (0x1D49E, 0x1D49F); (0x1D4A2, 0x1D4A2); (0x1D4A5, 0x1D4A6);
    (0x1D4A9, 0x1D4AC); (0x1D4AE, 0x1D4B9); (0x1D4BB, 0x1D4BB);
    (0x1D4BD, 0x1D4C3); (0x1D4C5, 0x1D505); (0x1D507, 0x1D50A);
    (0x1D50D, 0x1D514); (0x1D516, 0x1D51C); (0x1D51E, 0x1D539);
    (0x1D53B, 0x1D53E); (0x1D540, 0x1D544); (0x1D546, 0x1D546);
    (0x1D54A, 0x1D550); (0x1D552, 0x1D6A5); (0x1D6A8, 0x1D6C0);
    (0x1D6C2, 0x1D6DA); (0x1D6DC, 0x1D6FA); (0x1D6FC, 0x1D714);
    (0x1D716, 0x1D734); (0x1D736, 0x1D74E); (0x1D750, 0x1D76E);
    (0x1D770, 0x1D788); (0x1D78A, 0x1D7A8); (0x1D7AA, 0x1D7C2);
    (0x1D7C4, 0x1D7CB); (0x1DF00, 0x1DF09); (0x1DF0B, 0x1DF1E);
    (0x1E900, 0x1E943); (0x1F130, 0x1F149); (0x1F150, 0x1F169);
    (0x1F170, 0x1F189) ].

Definition case_ignorable (c : N) : bool := in_ranges case_ignorable_ranges c.

Definition cased (c : N) : bool := in_ranges cased_ranges c.

(** The first character of [s] that is not case-ignorable is cased. *)
Fixpoint cased_ahead (s : str) : bool :=
  match s with
  | [] => false
  | c :: s' => if case_ignorable c then cased_ahead s' else cased c
  end.

(** [str.lower] of the character [c] of a string: [cased_behind] tells
    whether the last character before it that is not case-ignorable is
    cased, [rest] is what follows it. A capital sigma becomes the final
    sigma U+03C2 when a cased letter precedes it and none follows,
    case-ignorable characters apart. *)
Definition lower_at (cased_behind : bool) (c : N) (rest : str) : str :=
  if c =? 0x3A3
  then [if cased_behind && negb (cased_ahead rest) then 0x3C2 else 0x3C3]
  else if c =? 0x130 then [0x69; 0x307]
  else [lower_char c].

Fixpoint lower_from (cased_behind : bool) (s : str) : str :=
  match s with
  | [] => []
  | c :: s' =>
    lower_at cased_behind c s'
    ++ lower_from (if case_ignorable c then cased_behind else cased c) s'
  end.

(** [s.lower()] *)
Definition lower (s : str) : str := lower_from false s.

Fixpoint lstrip_by (p : N -> bool) (s : str) : str :=
  match s with
  | [] => []
  | c :: s' => if p c then lstrip_by p s' else s
  end.

Definition strip_by (p : N -> bool) (s : str) : str :=
  rev (lstrip_by p (rev (lstrip_by p s))).

(** [s.strip()] *)
Definition strip (s : str) : str := strip_by isspace s.

(** [s.strip(chars)] *)
Definition strip_chars (chars s : str) : str :=
  strip_by (fun c => bool_decide (c ∈ chars)) s.

(** The line boundaries of [str.splitlines]. *)
Definition islinebreak (c : N) : bool :=
  ((0x0A <=? c) && (c <=? 0x0D)) || ((0x1C <=? c) && (c <=? 0x1E))
  || (c =? 0x85) || (c =? 0x2028) || (c =? 0x2029).

(** [s.splitlines()]: a carriage return followed by a line feed is one
    boundary, and a boundary at the very end opens no further line. *)
Fixpoint splitlines (s : str) : list str :=
  match s with
  | [] => []
  | c :: s' =>
    if islinebreak c then
      [] :: match s' with
            | c' :: s'' =>
              if (c =? 0x0D) && (c' =? 0x0A) then splitlines s''
              else splitlines s'
            | [] => []
            end
    else match splitlines s' with
         | [] => [[c]]
         | l :: ls => (c :: l) :: ls
         end
  end.

(** [s.split(sep)] for a separator of one character. *)
Fixpoint split_on (sep : N) (s : str) : list str :=
  match s with
  | [] => [[]]
  | c :: s' =>
    if c =? sep then [] :: split_on sep s'
    else match split_on sep s' with
         | [] => [[c]]
         | l :: ls => (c :: l) :: ls
         end
  end.

(** [s.split()]: the maximal runs of characters that are not white space.
    [word] is the run being read, latest character first. *)
Fixpoint split_from (word : str) (s : str) : list str :=
  match s with
  | [] => match word with [] => [] | _ => [rev word] end
  | c :: s' =>
    if isspace c then
      match word with
      | [] => split_from [] s'
      | _ => rev word :: split_from [] s'
      end
    else split_from (c :: word) s'
  end.

Definition split (s : str) : list str := split_from [] s.

(** [sep.join(parts)] *)
Fixpoint join (sep : str) (parts : list str) : str :=
  match parts with
  | [] => []
  | [p] => p
  | p :: ps => p ++ sep ++ join sep ps
  end.

(** [s.replace(a, b)] for single characters. *)
Definition replace (a b : N) (s : str) : str :=
  (fun c => if c =? a then b else c) <$> s.

Fixpoint startswith (w s : str) : bool :=
  match w, s with
  | [], _ => true
  | _, [] => false
  | a :: w', c :: s' => (a =? c) && startswith w' s'
  end.

(** [w in s] *)
Fixpoint contains (w s : str) : bool :=
  startswith w s || match s with [] => false | _ :: s' => contains w s' end.

Fixpoint digits_value (acc : Z) (s : str) : option Z :=
  match s with
  | [] => Some acc
  | c :: s' =>
    if isdecimal c then digits_value (10 * acc + Z.of_N (decimal c)) s'
    else None
  end.

(** [float(s)] on the plain decimal numerals [digits], [digits.digits],
    [digits.] and [.digits], with the exact rational as the value; any
    other text is a [ValueError] here (Python reads some more forms:
    signs, exponents, surrounding blanks). *)
Definition float (s : str) : result Q :=
  match split_on 0x2E s with
  | [ip] =>
    match ip, digits_value 0 ip with
    | _ :: _, Some n => Ok (n # 1)
    | _, _ => Raise ValueError
    end
  | [ip; fp] =>
    match ip ++ fp, digits_value 0 (ip ++ fp) with
    | _ :: _, Some n => Ok (n # Z.to_pos (10 ^ Z.of_nat (length fp)))
    | _, _ => Raise ValueError
    end
  | _ => Raise ValueError
  end.

End Py.

(** ** Regular expressions *)

(** The fragment of [re] that the patterns of the program use: character
    classes, greedy and lazy bounded repetition of a class, sequence,
    ordered alternative, numbered groups, positive lookahead and [$]. The
    matcher backtracks in the order of [re]: it is written with a
    continuation that receives the rest of the text and the groups. *)
Module Re.

Inductive regex :=
| Eps
| Chr (p : N -> bool)
| Rep (greedy : bool) (lo : nat) (hi : option nat) (p : N -> bool)
| Cat (r1 r2 : regex)
| Alt (r1 r2 : regex)
| Grp (n : nat) (r : regex)
| Ahead (r : regex)
| Eol (multiline : bool).

(** The groups matched so far, latest first. *)
Abbreviation groups := (list (nat * str)).

Fixpoint group (n : nat) (gs : groups) : str :=
  match gs with
  | [] => []
  | (i, s) :: gs' => if Nat.eqb i n then s else group n gs'
  end.

(** May a repetition with upper bound [hi] read one more character? *)
Definition may_repeat (hi : option nat) : bool :=
  match hi with
  | Some O => false
  | _ => true
  end.

Definition one_less (hi : option nat) : option nat :=
  match hi with
  | Some n => Some (Nat.pred n)
  | None => None
  end.

Definition or_else {A} (a b : option A) : option A :=
  match a with
  | Some x => Some x
  | None => b
  end.

Fixpoint rep {A} (greedy : bool) (p : N -> bool) (lo : nat)
    (hi : option nat) (s : str) (k : str -> option A) : option A :=
  let stop := match lo with O => k s | S _ => None end in
  let more :=
    match s with
    | c :: s' =>
      if p c && may_repeat hi
      then rep greedy p (Nat.pred lo) (one_less hi) s' k
      else None
    | [] => None
    end in
  if greedy then or_else more stop else or_else stop more.

(** [$]: at the end of the text, and before a line feed that ends the
    text or, in multi-line mode, before any line feed. *)
Definition at_eol (multiline : bool) (s : str) : bool :=
  match s with
  | [] => true
  | c :: s' => (c =? 0x0A) && (multiline || bool_decide (s' = []))
  end.

Fixpoint exec {A} (r : regex) (s : str) (gs : groups)
    (k : str -> groups -> option A) : option A :=
  match r with
  | Eps => k s gs
  | Chr p =>
    match s with
    | c :: s' => if p c then k s' gs else None
    | [] => None
    end
  | Rep greedy lo hi p => rep greedy p lo hi s (fun s' => k s' gs)
  | Cat r1 r2 => exec r1 s gs (fun s1 gs1 => exec r2 s1 gs1 k)
  | Alt r1 r2 => or_else (exec r1 s gs k) (exec r2 s gs k)
  | Grp n r =>
    exec r s gs
      (fun s' gs' => k s' ((n, take (length s - length s') s) :: gs'))
  | Ahead r =>
    match exec r s gs (fun _ gs' => Some gs') with
    | Some gs' => k s gs'
    | None => None
    end
  | Eol multiline => if at_eol multiline s then k s gs else None
  end.

(** A match object: the text before the match, the match, its groups and
    the text after it. *)
Record Match := {
  before : str;
  matched : str;
  m_groups : groups;
  after : str
}.

(** The match that starts at the head of [s], [pre] being what precedes. *)
Definition match_at (r : regex) (pre s : str) : option Match :=
  exec r s []
    (fun s' gs => Some {| before := pre;
                          matched := take (length s - length s') s;
                          m_groups := gs;
                          after := s' |}).

(** [pattern.match(s)] *)
Definition match_ (r : regex) (s : str) : option Match := match_at r [] s.

Fixpoint search_from (r : regex) (pre_rev s : str) : option Match :=
  match match_at r (rev pre_rev) s with
  | Some m => Some m
  | None =>
    match s with
    | [] => None
    | c :: s' => search_from r (c :: pre_rev) s'
    end
  end.

(** [pattern.search(s)]: the leftmost match. *)
Definition search (r : regex) (s : str) : option Match := search_from r [] s.

(** [m.group(n)] *)
Definition group_of (m : Match) (n : nat) : str := group n (m_groups m).

(** The matches of [finditer], scanning from the head of [s]; [skip]
    counts the characters of [s] that the previous match still covers.
    After a match the scan resumes where it ended (one character further
    when the match is empty). *)
Fixpoint finditer_from (r : regex) (skip : nat) (pre_rev s : str)
  : list Match :=
  match skip with
  | S n =>
    match s with
    | c :: s' => finditer_from r n (c :: pre_rev) s'
    | [] => []
    end
  | O =>
    match match_at r (rev pre_rev) s with
    | Some m =>
      m :: match s with
           | c :: s' =>
             finditer_from r (Nat.pred (length (matched m)))
               (c :: pre_rev) s'
           | [] => []
           end
    | None =>
      match s with
      | c :: s' => finditer_from r O (c :: pre_rev) s'
      | [] => []
      end
    end
  end.

(** [pattern.finditer(s)] *)
Definition finditer (r : regex) (s : str) : list Match :=
  finditer_from r O [] s.

Fixpoint sub_from (r : regex) (repl : str) (skip : nat) (s : str) : str :=
  match skip with
  | S n =>
    match s with
    | _ :: s' => sub_from r repl n s'
    | [] => []
    end
  | O =>
    match match_at r [] s with
    | Some m =>
      repl ++ match s with
              | c :: s' =>
                match matched m with
                | [] => c :: sub_from r repl O s'
                | _ :: w => sub_from r repl (length w) s'
                end
              | [] => []
              end
    | None =>
      match s with
      | c :: s' => c :: sub_from r repl O s'
      | [] => []
      end
    end
  end.

(** [re.sub(pattern, repl, s)] for a replacement without group
    references. *)
Definition sub (r : regex) (repl s : str) : str := sub_from r repl O s.

(** Character classes. *)
Definition chr (c : N) : regex := Chr (N.eqb c).
Definition range (a b c : N) : bool := (a <=? c) && (c <=? b).
Definition star (p : N -> bool) : regex := Rep true 0 None p.
Definition plus (p : N -> bool) : regex := Rep true 1 None p.
Definition opt (p : N -> bool) : regex := Rep true 0 (Some 1%nat) p.

End Re.

Infix "@" := Re.Cat (at level 60, right associativity, only parsing).

(** ** Constants *)

Definition WEEKDAYS_DE : list str :=
  [ utf8 "Montag"; utf8 "Dienstag"; utf8 "Mittwoch"; utf8 "Donnerstag";
    utf8 "Freitag"; utf8 "Samstag"; utf8 "Sonntag" ].

(** [\d{1,2},\d{2}] *)
Definition PRICE_RE : Re.regex :=
  Re.Rep true 1 (Some 2%nat) Py.isdecimal @ Re.chr 0x2C
  @ Re.Rep true 2 (Some 2%nat) Py.isdecimal.

(** The currency marker of the price pattern: the three characters
    U+201A, U+00C7 and U+00A8 that the source holds after each price. *)
Definition CURRENCY : str := [0x201A; 0xC7; 0xA8].

Definition CURRENCY_RE : Re.regex :=
  Re.chr 0x201A @ Re.chr 0xC7 @ Re.chr 0xA8.

(** [(\d{1,2},\d{2})\s*‚Ç¨\s*\|\s*(\d{1,2},\d{2})\s*‚Ç¨\s*\|\s*(\d{1,2},\d{2})\s*‚Ç¨] *)
Definition PRICE_LINE_RE : Re.regex :=
  Re.Grp 1 PRICE_RE @ Re.star Py.isspace @ CURRENCY_RE
  @ Re.star Py.isspace @ Re.chr 0x7C @ Re.star Py.isspace
  @ Re.Grp 2 PRICE_RE @ Re.star Py.isspace @ CURRENCY_RE
  @ Re.star Py.isspace @ Re.chr 0x7C @ Re.star Py.isspace
  @ Re.Grp 3 PRICE_RE @ Re.star Py.isspace @ CURRENCY_RE.

(** The class [[0-9,\s\.a-z]]. *)
Definition allergen_char (c : N) : bool :=
  Re.range 0x30 0x39 c || (c =? 0x2C) || Py.isspace c || (c =? 0x2E)
  || Re.range 0x61 0x7A c.

(** [.]: any character but the line feed. *)
Definition dot (c : N) : bool := negb (c =? 0x0A).

(** [(.*?)\s*(\([0-9,\s\.a-z]+\))\s*$] *)
Definition ALLERGEN_TAIL_RE : Re.regex :=
  Re.Grp 1 (Re.Rep false 0 None dot) @ Re.star Py.isspace
  @ Re.Grp 2 (Re.chr 0x28 @ Re.plus allergen_char @ Re.chr 0x29)
  @ Re.star Py.isspace @ Re.Eol false.

(** The class [[A-Z√Ñ√ñ√ú]]: the letters A to Z and the characters
    U+221A, U+00D1, U+00F1 and U+00FA. *)
Definition legend_initial (c : N) : bool :=
  Re.range 0x41 0x5A c || (c =? 0x221A) || (c =? 0xD1) || (c =? 0x221A)
  || (c =? 0xF1) || (c =? 0x221A) || (c =? 0xFA).

(** The class [[^\d\n]]. *)
Definition legend_char (c : N) : bool :=
  negb (Py.isdecimal c || (c =? 0x0A)).

(** The class [[a-z]]. *)
Definition az (c : N) : bool := Re.range 0x61 0x7A c.

(** [\d+[a-z]?] *)
Definition CODE_RE : Re.regex := Re.plus Py.isdecimal @ Re.opt az.

(** [(\d+[a-z]?)\s+([A-Z√Ñ√ñ√ú][^\d\n]+?)(?=\s+\d+[a-z]?|\s*$)], with
    [re.MULTILINE]. *)
Definition ALLERGEN_MAP_RE : Re.regex :=
  Re.Grp 1 CODE_RE @ Re.plus Py.isspace
  @ Re.Grp 2 (Re.Chr legend_initial @ Re.Rep false 1 None legend_char)
  @ Re.Ahead (Re.Alt (Re.plus Py.isspace @ CODE_RE)
                     (Re.star Py.isspace @ Re.Eol true)).

(** [\s*\([^)]+\)|:$], the annotation that is cut from a legend name. *)
Definition NAME_NOISE_RE : Re.regex :=
  Re.Alt (Re.star Py.isspace @ Re.chr 0x28
          @ Re.plus (fun c => negb (c =? 0x29)) @ Re.chr 0x29)
         (Re.chr 0x3A @ Re.Eol false).

(** [-\s+|\s+], what joins the lines of a title. *)
Definition BREAK_RE : Re.regex :=
  Re.Alt (Re.chr 0x2D @ Re.plus Py.isspace) (Re.plus Py.isspace).

Definition MENU_PAGE_INDEX : nat := 1.

Definition DISH_COLUMN_INDICES : list nat := [4; 8; 12; 16; 20]%nat.

(** ** Data *)

(** The filter settings of [Config] (the mail settings play no part in
    parsing). *)
Record Config := {
  filter_words_raw : str;
  filter_allergens_raw : str;
  debug_mode : bool
}.

(** [{w.strip().lower() for w in raw.split(",") if w.strip()}] *)
Definition lowered_items (raw : str) : gset str :=
  list_to_set
    ((fun w => Py.lower (Py.strip w))
       <$> filter (fun w => Py.strip w <> []) (Py.split_on 0x2C raw)).

Definition filter_words (c : Config) : gset str :=
  lowered_items (filter_words_raw c).

Definition filter_allergen_names (c : Config) : gset str :=
  lowered_items (filter_allergens_raw c).

Record Dish := {
  title : str;
  price : Q;
  category : str;
  allergens : gset str
}.

(** A page of the document as [pdfplumber] presents it. *)
Record Page := {
  extract_text : str;
  extract_table : option (list (list (option str)))
}.

Record PDF := { pages : list Page }.

(** An entry of a list of [merged_cells]. *)
Record Cell := {
  text : str;
  has_price : bool
}.

Record MensaParser := {
  pdf_content : PDF;
  config : Config;
  allergen_map : gmap str str;
  filter_allergen_numbers : gset str
}.

(** ** Lists and dictionaries *)

(** [xs[i]] *)
Definition index {A} (xs : list A) (i : nat) : result A :=
  match xs !! i with
  | Some x => Ok x
  | None => Raise IndexError
  end.

(** A dictionary in insertion order. *)
Abbreviation dict V := (list (str * V)).

(** [d[key]] *)
Fixpoint dict_get {V} (d : dict V) (key : str) : result V :=
  match d with
  | [] => Raise KeyError
  | (k, v) :: d' => if decide (k = key) then Ok v else dict_get d' key
  end.

(** [d[key] = v] *)
Fixpoint dict_set {V} (d : dict V) (key : str) (v : V) : dict V :=
  match d with
  | [] => [(key, v)]
  | (k, v0) :: d' =>
    if decide (k = key) then (k, v) :: d' else (k, v0) :: dict_set d' key v
  end.

(** [{day: [] for day in days}] *)
Definition empty_lists {V} (days : list str) : dict (list V) :=
  (fun day => (day, [])) <$> days.

Definition truthy {A} (o : option A) : bool :=
  match o with
  | Some _ => true
  | None => false
  end.

(** ** The legend *)

(** The body of the loop of [_extract_allergen_mapping]. *)
Definition record_legend_entry (allergen_map : gmap str str) (m : Re.Match)
  : result (gmap str str) :=
  let number := Re.group_of m 1 in
  let name := Py.strip (Re.group_of m 2) in
  let name_clean := Py.lower (Py.strip (Re.sub NAME_NOISE_RE [] name)) in
  if (length name_clean <? 3)%nat then Ok allergen_map
  else
    let allergen_map := <[name_clean := number]> allergen_map in
    first_word ← index (Py.split name_clean) 0;
    if bool_decide (first_word <> name_clean)
    then Ok (<[first_word := number]> allergen_map)
    else Ok allergen_map.

Definition _extract_allergen_mapping (pdf_content : PDF)
  : result (gmap str str) :=
  last_page ← match last (pages pdf_content) with
              | Some p => Ok p
              | None => Raise IndexError
              end;
  for_each record_legend_entry
    (Re.finditer ALLERGEN_MAP_RE (extract_text last_page)) ∅.

Definition _resolve_filter_allergens (config : Config)
    (allergen_map : gmap str str) : gset str :=
  set_omap (fun name => allergen_map !! name) (filter_allergen_names config).

(** [MensaParser(pdf_content, config)] *)
Definition MensaParser_init (pdf_content : PDF) (config : Config)
  : result MensaParser :=
  allergen_map ← _extract_allergen_mapping pdf_content;
  Ok {| pdf_content := pdf_content;
        config := config;
        allergen_map := allergen_map;
        filter_allergen_numbers :=
          _resolve_filter_allergens config allergen_map |}.

(** ** The cell merger *)

(** [any(PRICE_LINE_RE.search(line) for line in cell_text.splitlines())] *)
Definition any_price_line (cell_text : str) : bool :=
  existsb (fun line => truthy (Re.search PRICE_LINE_RE line))
          (Py.splitlines cell_text).

(** The cell of one day in one row, once it is known not to be blank:
    merged into the last cell of the day when that one has no price yet,
    appended otherwise. *)
Definition merge_cell (merged_cells : dict (list Cell)) (day cell_text : str)
  : result (dict (list Cell)) :=
  let price_seen := any_price_line cell_text in
  cells ← dict_get merged_cells day;
  match last cells with
  | Some c =>
    if negb (has_price c) then
      Ok (dict_set merged_cells day
            (removelast cells
             ++ [ {| text := text c ++ [0x0A] ++ cell_text;
                     has_price := price_seen |} ]))
    else
      Ok (dict_set merged_cells day
            (cells ++ [ {| text := cell_text; has_price := price_seen |} ]))
  | None =>
    Ok (dict_set merged_cells day
          (cells ++ [ {| text := cell_text; has_price := price_seen |} ]))
  end.

(** [not cell_text or not cell_text.strip()] *)
Definition blank (cell_text : option str) : bool :=
  match cell_text with
  | None => true
  | Some t => bool_decide (t = []) || bool_decide (Py.strip t = [])
  end.

(** The body of the loop over the day columns. *)
Definition merge_day (row : list (option str))
    (merged_cells : dict (list Cell)) (day_col : str * nat)
  : result (dict (list Cell)) :=
  cell_text ← index row day_col.2;
  if blank cell_text then Ok merged_cells
  else merge_cell merged_cells day_col.1 (default [] cell_text).

(** The body of the loop over the rows. *)
Definition merge_row (merged_cells : dict (list Cell))
    (row : list (option str)) : result (dict (list Cell)) :=
  if bool_decide (row = [])
     || (length row <? max_list DISH_COLUMN_INDICES + 1)%nat
  then Ok merged_cells
  else for_each (merge_day row)
         (zip (take 5 WEEKDAYS_DE) DISH_COLUMN_INDICES) merged_cells.

Definition _merge_table_cells (table : list (list (option str)))
  : result (dict (list Cell)) :=
  for_each merge_row table (empty_lists (take 5 WEEKDAYS_DE)).

(** ** The dish extractor *)

(** [[line.strip() for line in cell_text.splitlines() if line.strip()]] *)
Definition cell_lines (cell_text : str) : list str :=
  Py.strip
    <$> filter (fun line => Py.strip line <> []) (Py.splitlines cell_text).

(** The loop over [reversed(list(enumerate(lines)))]: the first of the
    numbered lines that has a price, with its number. *)
Fixpoint first_price_line (numbered : list (nat * str))
  : option (Re.Match * nat) :=
  match numbered with
  | [] => None
  | (i, line) :: rest =>
    match Re.search PRICE_LINE_RE line with
    | Some m => Some (m, i)
    | None => first_price_line rest
    end
  end.

Definition enumerate {A} (xs : list A) : list (nat * A) :=
  zip (seq 0 (length xs)) xs.

(** [price_match, price_idx] *)
Definition price_line (lines : list str) : option (Re.Match * nat) :=
  first_price_line (rev (enumerate lines)).

Definition title_lines (lines : list str) : list str :=
  match price_line lines with
  | Some (_, price_idx) => take price_idx lines
  | None => lines
  end.

Definition full_title (lines : list str) : str :=
  Py.strip (Re.sub BREAK_RE (utf8 " ") (Py.join (utf8 " ") (title_lines lines))).

(** [float(price_match.group(1).replace(",", ".")) if price_match else None] *)
Definition cell_price (lines : list str) : result (option Q) :=
  match price_line lines with
  | Some (price_match, _) =>
    p ← Py.float (Py.replace 0x2C 0x2E (Re.group_of price_match 1));
    Ok (Some p)
  | None => Ok None
  end.

(** The codes of a matched parenthetical. *)
Definition allergen_codes (tail : str) : gset str :=
  list_to_set
    (Py.strip
       <$> filter (fun code => Py.strip code <> [])
                  (Py.split_on 0x2C (Py.strip_chars (utf8 "()") tail))).

(** [title, allergens] *)
Definition title_and_allergens (full_title : str) : str * gset str :=
  match Re.match_ ALLERGEN_TAIL_RE full_title with
  | Some allergen_match =>
    (Py.strip (Re.group_of allergen_match 1),
     allergen_codes (Re.group_of allergen_match 2))
  | None => (full_title, ∅)
  end.

(** [any(word in title.lower() for word in self.config.filter_words)],
    guarded by the set not being empty. *)
Definition has_filter_word (self : MensaParser) (title : str) : bool :=
  bool_decide (filter_words (config self) <> ∅)
  && bool_decide
       (set_Exists (fun word => Py.contains word (Py.lower title) = true)
                   (filter_words (config self))).

(** The intersection test of the allergen filter. *)
Definition has_filter_allergen (self : MensaParser) (allergens : gset str)
  : bool :=
  bool_decide (filter_allergen_numbers self <> ∅)
  && bool_decide (allergens ∩ filter_allergen_numbers self <> ∅).

Definition _parse_dish_from_cell (self : MensaParser) (cell_text : str)
  : result (option Dish) :=
  let lines := cell_lines cell_text in
  if bool_decide (lines = []) then Ok None
  else
    price ← cell_price lines;
    let '(title, allergens) := title_and_allergens (full_title lines) in
    match price with
    | None => Ok None
    | Some price =>
      if (length title <? 5)%nat then Ok None
      else if has_filter_word self title then Ok None
      else if has_filter_allergen self allergens then Ok None
      else Ok (Some {| title := title;
                       price := price;
                       category := if Qle_bool price 1 then utf8 "side"
                                   else utf8 "main";
                       allergens := allergens |})
    end.

(** ** The menu builder *)

(** The body of the loop over the cells of a day. *)
Definition add_dish (self : MensaParser) (day : str)
    (dishes_by_day : dict (list Dish)) (cell : Cell)
  : result (dict (list Dish)) :=
  dish ← _parse_dish_from_cell self (text cell);
  match dish with
  | Some d =>
    dishes ← dict_get dishes_by_day day;
    Ok (dict_set dishes_by_day day (dishes ++ [d]))
  | None => Ok dishes_by_day
  end.

(** The body of the loop over [merged_cells.items()]. *)
Definition add_day (self : MensaParser) (dishes_by_day : dict (list Dish))
    (item : str * list Cell) : result (dict (list Dish)) :=
  for_each (add_dish self item.1) item.2 dishes_by_day.

Definition get_all_dishes (self : MensaParser) : result (dict (list Dish)) :=
  let dishes_by_day := empty_lists WEEKDAYS_DE in
  if (length (pages (pdf_content self)) <=? MENU_PAGE_INDEX)%nat
  then Ok dishes_by_day
  else
    page ← index (pages (pdf_content self)) MENU_PAGE_INDEX;
    match extract_table page with
    | None | Some [] => Ok dishes_by_day
    | Some table =>
      merged_cells ← _merge_table_cells table;
      for_each (add_day self) merged_cells dishes_by_day
    end.


(** ** What a pattern matches *)

(** [within hi n]: [n] repetitions respect the upper bound [hi]. *)
Definition within (hi : option nat) (n : nat) : Prop :=
  match hi with
  | Some h => (n <= h)%nat
  | None => True
  end.

(** [matches r s gs s' gs']: read from the head of [s] with the groups
    [gs], the pattern [r] can match the characters up to [s'] and leave the
    groups [gs']. This is the declarative reading of the pattern, without
    the order in which the matcher tries the alternatives. *)
Fixpoint matches (r : Re.regex) (s : str) (gs : Re.groups) (s' : str)
    (gs' : Re.groups) : Prop :=
  match r with
  | Re.Eps => s' = s /\ gs' = gs
  | Re.Chr p => exists c, s = c :: s' /\ p c = true /\ gs' = gs
  | Re.Rep _ lo hi p =>
    exists w, s = w ++ s' /\ Forall (fun c => p c = true) w
              /\ (lo <= length w)%nat /\ within hi (length w) /\ gs' = gs
  | Re.Cat r1 r2 =>
    exists s1 gs1, matches r1 s gs s1 gs1 /\ matches r2 s1 gs1 s' gs'
  | Re.Alt r1 r2 => matches r1 s gs s' gs' \/ matches r2 s gs s' gs'
  | Re.Grp n r =>
    exists gs1, matches r s gs s' gs1
                /\ gs' = (n, take (length s - length s') s) :: gs1
  | Re.Ahead r => s' = s /\ exists s1, matches r s gs s1 gs'
  | Re.Eol multiline => s' = s /\ gs' = gs /\ Re.at_eol multiline s = true
  end.

(** ** Notions used in the statements *)

(** Every cell of a day but the last one has its price. *)
Definition closed_but_last (cells : list Cell) : Prop :=
  Forall (fun c => has_price c = true) (removelast cells).

(** At most one cell is open in every day column. *)
Definition one_open_cell (merged_cells : dict (list Cell)) : Prop :=
  forall day cells, (day, cells) ∈ merged_cells -> closed_but_last cells.

(** The merge step as the specification words it: the flag of the cell
    that takes the text becomes the OR of its old flag and the new one. *)
Definition merge_cell_or (merged_cells : dict (list Cell))
    (day cell_text : str) : result (dict (list Cell)) :=
  let price_seen := any_price_line cell_text in
  cells ← dict_get merged_cells day;
  match last cells with
  | Some c =>
    if negb (has_price c) then
      Ok (dict_set merged_cells day
            (removelast cells
             ++ [ {| text := text c ++ [0x0A] ++ cell_text;
                     has_price := has_price c || price_seen |} ]))
    else
      Ok (dict_set merged_cells day
            (cells ++ [ {| text := cell_text; has_price := price_seen |} ]))
  | None =>
    Ok (dict_set merged_cells day
          (cells ++ [ {| text := cell_text; has_price := price_seen |} ]))
  end.

(** Two rows of the same length that agree on the five day columns. *)
Definition same_day_columns (row1 row2 : list (option str)) : Prop :=
  length row1 = length row2
  /\ forall col, col ∈ DISH_COLUMN_INDICES -> row1 !! col = row2 !! col.

(** The table of the menu page, when the document has one. *)
Definition menu_table (self : MensaParser)
  : option (list (list (option str))) :=
  page ← pages (pdf_content self) !! MENU_PAGE_INDEX;
  extract_table page.

(** A row of 21 cells that are empty except the one of column [col]. *)
Definition single_cell_row (col : nat) (cell_text : str)
  : list (option str) :=
  <[col := Some cell_text]> (replicate 21 None).

Definition LF : str := [0x0A].

(** The day columns with their weekdays. *)
Definition day_columns : list (str * nat) :=
  zip (take 5 WEEKDAYS_DE) DISH_COLUMN_INDICES.

(** The code and the cleaned name that a legend match records. *)
Definition legend_code (m : Re.Match) : str := Re.group_of m 1.

Definition legend_name (m : Re.Match) : str :=
  Py.lower (Py.strip (Re.sub NAME_NOISE_RE [] (Py.strip (Re.group_of m 2)))).

(** The keys under which a legend match is recorded: its name and the
    first word of its name. *)
Definition legend_key (m : Re.Match) (key : str) : Prop :=
  (3 <= length (legend_name m))%nat
  /\ (key = legend_name m \/ Py.split (legend_name m) !! 0%nat = Some key).



(** The result has the seven weekdays as its keys, and nothing under the
    last two. *)
Definition week_shaped (dishes_by_day : dict (list Dish)) : Prop :=
  dishes_by_day.*1 = WEEKDAYS_DE
  /\ dict_get dishes_by_day (utf8 "Samstag") = Ok []
  /\ dict_get dishes_by_day (utf8 "Sonntag") = Ok [].

(** ** Sample inputs *)

(** A configuration without filters. *)
Definition no_filters : Config :=
  {| filter_words_raw := []; filter_allergens_raw := []; debug_mode := false |}.

(** A document of two pages, the second of which holds the menu table
    and the legend. *)
Definition menu_pdf (table : option (list (list (option str))))
    (legend : str) : PDF :=
  {| pages := [ {| extract_text := []; extract_table := None |};
                {| extract_text := legend; extract_table := table |} ] |}.

(** A parser on such a document without legend, with the filter codes
    given. *)
Definition parser_on (table : option (list (list (option str))))
    (config : Config) (filter_codes : gset str) : MensaParser :=
  {| pdf_content := menu_pdf table [];
     config := config;
     allergen_map := ∅;
     filter_allergen_numbers := filter_codes |}.

(** A price line with three prices, each followed by the currency
    marker of the price pattern. *)
Definition price_text (p1 p2 p3 : string) : str :=
  utf8 p1 ++ utf8 " " ++ CURRENCY ++ utf8 " | "
  ++ utf8 p2 ++ utf8 " " ++ CURRENCY ++ utf8 " | "
  ++ utf8 p3 ++ utf8 " " ++ CURRENCY.

(** The same three prices, each followed by the euro sign U+20AC. *)
Definition euro_text (p1 p2 p3 : string) : str :=
  utf8 p1 ++ utf8 " € | " ++ utf8 p2 ++ utf8 " € | " ++ utf8 p3 ++ utf8 " €".

(** ** The merger column by column *)

(** The text that the merger reads in a row for the column [col]: none
    when the row is skipped or the cell is blank. *)
Definition day_cell (col : nat) (row : list (option str)) : option str :=
  if bool_decide (row = [])
     || (length row <? max_list DISH_COLUMN_INDICES + 1)%nat
  then None
  else match row !! col with
       | Some cell => if blank cell then None else cell
       | None => None
       end.

(** The texts of a column, from the top row down. *)
Definition column_texts (col : nat) (table : list (list (option str)))
  : list str :=
  omap (day_cell col) table.

(** The cells of a day after a text is merged into them. *)
Definition merge_into (cells : list Cell) (t : str) : list Cell :=
  match last cells with
  | Some c =>
    if has_price c
    then cells ++ [ {| text := t; has_price := any_price_line t |} ]
    else removelast cells
         ++ [ {| text := text c ++ LF ++ t; has_price := any_price_line t |} ]
  | None => cells ++ [ {| text := t; has_price := any_price_line t |} ]
  end.

(** ** Patterns that do not look ahead *)

(** [context_free r]: the pattern [r] has neither [$] nor a lookahead, so
    a match depends on nothing but the characters it reads. *)
Fixpoint context_free (r : Re.regex) : bool :=
  match r with
  | Re.Eps | Re.Chr _ | Re.Rep _ _ _ _ => true
  | Re.Cat r1 r2 | Re.Alt r1 r2 => context_free r1 && context_free r2
  | Re.Grp _ r => context_free r
  | Re.Ahead _ | Re.Eol _ => false
  end.

(** ** The shape of a legend code *)

(** Digits, then at most one lowercase letter: what the first group of
    the legend pattern reads. *)
Definition is_code (code : str) : Prop :=
  exists digits letter,
    code = digits ++ letter /\ digits <> []
    /\ Forall (fun c => Py.isdecimal c = true) digits
    /\ Forall (fun c => az c = true) letter /\ (length letter <= 1)%nat.

(** ** The dishes of a day *)

(** The dish of a merged cell, when the extractor accepts it. *)
Definition cell_dish (self : MensaParser) (cell : Cell) : option Dish :=
  match _parse_dish_from_cell self (text cell) with
  | Ok (Some d) => Some d
  | _ => None
  end.

(** The dishes of the cells of a day, in the order of the cells. *)
Definition accepted_dishes (self : MensaParser) (cells : list Cell) : list Dish :=
  omap (cell_dish self) cells.

(** ** The mail settings *)

(** The mail settings of [Config]. The host and the port only reach the
    SMTP connection, which is not modelled. *)
Record MailConfig := {
  smtp_email : option str;
  smtp_password : option str;
  recipients : list str
}.

(** [[r.strip() for r in raw.split(",") if r.strip()]] *)
Definition stripped_items (raw : str) : list str :=
  Py.strip <$> filter (fun r => Py.strip r <> []) (Py.split_on 0x2C raw).

(** [os.getenv(name, default)] on the value that the environment holds
    for the name, if any. *)
Definition getenv (value : option str) (default : str) : str :=
  match value with
  | Some v => v
  | None => default
  end.

(** [not s] for an optional string. *)
Definition falsy (s : option str) : bool :=
  match s with
  | Some (_ :: _) => false
  | _ => true
  end.

(** [Config.__post_init__] *)
Definition __post_init__ (self : MailConfig) : result unit :=
  if falsy (smtp_email self) || falsy (smtp_password self)
     || bool_decide (recipients self = [])
  then Raise ValueError
  else Ok tt.

(** The mail settings of [Config()] in an environment that holds the
    values [email], [password] and [recipients_raw] for SMTP_EMAIL,
    SMTP_PASSWORD and RECIPIENTS. *)
Definition mail_config (email password recipients_raw : option str)
  : result MailConfig :=
  let self := {| smtp_email := email;
                 smtp_password := password;
                 recipients := stripped_items (getenv recipients_raw []) |} in
  _ ← __post_init__ self;
  Ok self.

(** ** The mail body *)

(** The literals hold the characters of the source, one by one. *)

(** [d.get(key, default)] *)
Definition get_or {V} (d : dict V) (key : str) (default : V) : V :=
  match dict_get d key with
  | Ok v => v
  | Raise _ => default
  end.

(** [sorted(dishes, key=lambda d: d.price)]: a stable sort, by insertion
    from the right. The prices are compared as the exact rationals, as in
    the category test. *)
Fixpoint insert_by_price (d : Dish) (l : list Dish) : list Dish :=
  match l with
  | [] => [d]
  | x :: l' =>
    if Qle_bool (price d) (price x) then d :: l
    else x :: insert_by_price d l'
  end.

Definition sorted_by_price (dishes : list Dish) : list Dish :=
  foldr insert_by_price [] dishes.

(** The decimal numeral of a natural number. *)
Fixpoint uint_str (u : Decimal.uint) : str :=
  match u with
  | Decimal.Nil => []
  | Decimal.D0 u' => 0x30 :: uint_str u'
  | Decimal.D1 u' => 0x31 :: uint_str u'
  | Decimal.D2 u' => 0x32 :: uint_str u'
  | Decimal.D3 u' => 0x33 :: uint_str u'
  | Decimal.D4 u' => 0x34 :: uint_str u'
  | Decimal.D5 u' => 0x35 :: uint_str u'
  | Decimal.D6 u' => 0x36 :: uint_str u'
  | Decimal.D7 u' => 0x37 :: uint_str u'
  | Decimal.D8 u' => 0x38 :: uint_str u'
  | Decimal.D9 u' => 0x39 :: uint_str u'
  end.

(** [f'{p:.2f}'] on a price of a whole number of cents, from 0.00 up,
    which the price of every dish is. *)
Definition cents_2f (p : Q) : str :=
  let cents := Z.to_N (Qnum p * 100 / Z.pos (Qden p)) in
  uint_str (N.to_uint (cents / 100))
  ++ [0x2E; 0x30 + (cents mod 100) / 10; 0x30 + cents mod 10].

Section Notifier.

(** [f'{p:.2f}']: the mail is modelled for any formatting of the
    prices. *)
Variable format_2f : Q -> str.

(** The paragraph of a dish. *)
Definition dish_paragraph (dish : Dish) : str :=
  utf8 "<p><b>" ++ title dish ++ utf8 "</b><br>"
  ++ format_2f (price dish) ++ utf8 "‚Ç¨</p>".

(** [EmailNotifier._format_dish_section] *)
Definition _format_dish_section (dishes : list Dish) (section_title : str)
  : str :=
  if bool_decide (dishes = []) then []
  else
    let sorted_dishes := sorted_by_price dishes in
    let html := utf8 "<h3>" ++ section_title ++ utf8 "</h3>" in
    fold_left (fun html dish => html ++ dish_paragraph dish)
      sorted_dishes html.

(** The body of the loop over [days_to_show]. *)
Definition show_day (dishes_by_day : dict (list Dish)) (html : str)
    (item : str * str) : str :=
  let '(label, day_name) := item in
  let day_dishes := get_or dishes_by_day day_name [] in
  let html :=
    html ++ utf8 "<h2>" ++ label ++ utf8 " (" ++ day_name ++ utf8 ")</h2>" in
  let html :=
    if bool_decide (day_dishes = [])
    then html ++ utf8 "<p>Keine Gerichte verf√ºgbar.</p>"
    else
      let main_dishes :=
        filter (fun d => category d = utf8 "main") day_dishes in
      let side_dishes :=
        filter (fun d => category d = utf8 "side") day_dishes in
      let html :=
        html ++ _format_dish_section main_dishes (utf8 "ü•ó Hauptgerichte") in
      html ++ _format_dish_section side_dishes (utf8 "ü•î Beilagen") in
  html ++ utf8 "<br>".

(** The days that the mail shows on the weekday [today_idx], Monday
    being 0. *)
Definition days_to_show (today_idx : nat) : result (list (str * str)) :=
  days ← (if (today_idx <? 5)%nat
          then day ← index WEEKDAYS_DE today_idx;
               Ok [(utf8 "Heute", day)]
          else Ok []);
  if (today_idx <? 4)%nat
  then day ← index WEEKDAYS_DE (today_idx + 1);
       Ok (days ++ [(utf8 "Morgen", day)])
  else Ok days.

Definition HTML_HEAD : str :=
  utf8 "<html><head><style>body { font-family: sans-serif; } h2, h3 { color: #333; } p { margin: 0.5em 0; }</style></head><body>"
  ++ utf8 "<h1>HWR Mensa Men√º</h1><hr>".

Definition HTML_WEEKEND : str :=
  utf8 "<p>Sch√∂nes Wochenende! Keine Gerichte f√ºr heute oder morgen verf√ºgbar.</p>".

Definition HTML_FOOT : str :=
  utf8 "<hr><p><small>Automatisch generiert vom HWR Mensa Bot.</small></p>"
  ++ utf8 "</body></html>".

(** [EmailNotifier._format_html_body], on the value [today_idx] of
    [datetime.now().weekday()]. *)
Definition _format_html_body (today_idx : nat)
    (dishes_by_day : dict (list Dish)) : result str :=
  let html := HTML_HEAD in
  days ← days_to_show today_idx;
  let html :=
    if bool_decide (days = []) then html ++ HTML_WEEKEND
    else fold_left (show_day dishes_by_day) days html in
  Ok (html ++ HTML_FOOT).

End Notifier.

(** The prices never go down along the list. *)
Fixpoint ascending (l : list Dish) : Prop :=
  match l with
  | [] => True
  | d :: l' => Forall (fun x => (price d <= price x)%Q) l' /\ ascending l'
  end.

(** ** More sample inputs *)

(** A configuration that filters two words and one allergen name. *)
Definition strict_config : Config :=
  {| filter_words_raw := utf8 "Fisch, Leber";
     filter_allergens_raw := utf8 "Soja";
     debug_mode := false |}.

(** A parser with these filters and the filter code 28, on a document
    with the given menu table. *)
Definition strict_parser (table : option (list (list (option str))))
  : MensaParser :=
  parser_on table strict_config {[ utf8 "28" ]}.

(** A dish over three lines, and the dish it gives. *)
Definition gulasch_cell : str :=
  utf8 "Gulasch mit" ++ LF ++ utf8 "Spätzle (2,3,8a)" ++ LF
  ++ price_text "3,50" "4,00" "4,50".

Definition gulasch : Dish :=
  {| title := utf8 "Gulasch mit Spätzle";
     price := 350 # 100;
     category := utf8 "main";
     allergens := {[ utf8 "2"; utf8 "3"; utf8 "8a" ]} |}.

(** A table with a Monday column only: the dish over two rows, a side
    dish, and a note without price. *)
Definition monday_table : list (list (option str)) :=
  [ single_cell_row 4 (utf8 "Gulasch mit");
    single_cell_row 4
      (utf8 "Spätzle (2,3,8a)" ++ LF ++ price_text "3,50" "4,00" "4,50");
    single_cell_row 4
      (utf8 "Brötchen" ++ LF ++ price_text "0,80" "1,00" "1,20");
    single_cell_row 4 (utf8 "Guten Appetit") ].

(** A side dish. *)
Definition broetchen : Dish :=
  {| title := utf8 "Brötchen";
     price := 80 # 100;
     category := utf8 "side";
     allergens := ∅ |}.


(** * Properties *)

(** ** The matcher and what a pattern matches *)

Section Matcher.
Import Re.

Lemma or_else_Some {A} (a b : option A) x :
  or_else a b = Some x -> a = Some x \/ (a = None /\ b = Some x).
Proof. destruct a; simpl; intros; simplify_eq; auto. Qed.

Lemma or_else_is_Some {A} (a b : option A) :
  is_Some a \/ is_Some b -> is_Some (or_else a b).
Proof. destruct a; simpl; intros [H|H]; eauto. by destruct H. Qed.

Lemma rep_unfold {A} greedy p lo hi s (k : str -> option A) :
  rep greedy p lo hi s k =
  let stop := match lo with O => k s | S _ => None end in
  let more :=
    match s with
    | c :: s' =>
      if p c && may_repeat hi
      then rep greedy p (Nat.pred lo) (one_less hi) s' k
      else None
    | [] => None
    end in
  if greedy then or_else more stop else or_else stop more.
Proof. by destruct s. Qed.

Lemma within_succ hi n :
  may_repeat hi = true -> within (one_less hi) n -> within hi (S n).
Proof. destruct hi as [[|h]|]; simpl; try done. lia. Qed.

Lemma within_pred hi n :
  within hi (S n) -> may_repeat hi = true /\ within (one_less hi) n.
Proof. destruct hi as [[|h]|]; simpl; try done; lia. Qed.

Lemma rep_sound {A} greedy p s : forall lo hi (k : str -> option A) x,
  rep greedy p lo hi s k = Some x ->
  exists w s', s = w ++ s' /\ Forall (fun c => p c = true) w
               /\ (lo <= length w)%nat /\ within hi (length w)
               /\ k s' = Some x.
Proof.
  induction s as [|c s IH]; intros lo hi k x; rewrite rep_unfold; simpl.
  - intros H. exists [], []. 
    assert (Hs : match lo with O => k [] | S _ => None end = Some x)
      by (destruct greedy; first [done | apply or_else_Some in H as [H|[_ H]]; done]).
    destruct lo; [|done]. repeat split; auto. destruct hi; simpl; lia.
  - intros H.
    assert (Hc : (match lo with O => k (c :: s) | S _ => None end = Some x)
                 \/ (p c && may_repeat hi = true
                     /\ rep greedy p (Nat.pred lo) (one_less hi) s k = Some x)).
    { destruct greedy; apply or_else_Some in H as [H|[H1 H]]; auto;
        right; destruct (p c && may_repeat hi); done. }
    destruct Hc as [Hs|[Hp Hr]].
    + destruct lo; [|done]. exists [], (c :: s). repeat split; auto.
      destruct hi; simpl; lia.
    + apply andb_true_iff in Hp as [Hp Hm].
      destruct (IH _ _ _ _ Hr) as (w & s' & -> & Hw & Hlo & Hhi & Hk).
      exists (c :: w), s'. repeat split; auto.
      * simpl. lia.
      * simpl. by apply within_succ.
Qed.

Lemma rep_complete {A} greedy p w : forall lo hi s' (k : str -> option A),
  Forall (fun c => p c = true) w -> (lo <= length w)%nat ->
  within hi (length w) -> is_Some (k s') ->
  is_Some (rep greedy p lo hi (w ++ s') k).
Proof.
  induction w as [|c w IH]; intros lo hi s' k Hw Hlo Hhi Hk;
    rewrite rep_unfold.
  - simpl in Hlo. assert (lo = O) as -> by lia. simpl.
    destruct greedy; apply or_else_is_Some; auto.
  - apply Forall_cons in Hw as [Hc Hw]. simpl in Hlo, Hhi.
    apply within_pred in Hhi as [Hm Hhi].
    simpl. rewrite Hc, Hm. simpl.
    assert (is_Some (rep greedy p (Nat.pred lo) (one_less hi) (w ++ s') k))
      by (apply IH; auto; lia).
    destruct greedy; apply or_else_is_Some; auto.
Qed.

Lemma exec_sound r : forall A s gs (k : str -> groups -> option A) x,
  exec r s gs k = Some x ->
  exists s' gs', matches r s gs s' gs' /\ k s' gs' = Some x.
Proof.
  induction r as [|p|g lo hi p|r1 IH1 r2 IH2|r1 IH1 r2 IH2|n r IH|r IH|ml];
    intros A s gs k x H; simpl in H.
  - exists s, gs. by simpl.
  - destruct s as [|c s]; [done|]. destruct (p c) eqn:Hp; [|done].
    exists s, gs. simpl. eauto.
  - apply rep_sound in H as (w & s' & -> & Hw & Hlo & Hhi & Hk).
    exists s', gs. simpl. split; [|done]. exists w. auto.
  - apply IH1 in H as (s1 & gs1 & H1 & H).
    apply IH2 in H as (s' & gs' & H2 & H).
    exists s', gs'. simpl. eauto.
  - apply or_else_Some in H as [H|[_ H]].
    + apply IH1 in H as (s' & gs' & H1 & H). exists s', gs'. simpl. auto.
    + apply IH2 in H as (s' & gs' & H2 & H). exists s', gs'. simpl. auto.
  - apply IH in H as (s' & gs' & H1 & H).
    exists s', ((n, take (length s - length s') s) :: gs'). simpl. eauto.
  - destruct (exec r s gs (fun _ gs' => Some gs')) as [gs1|] eqn:Hr; [|done].
    apply IH in Hr as (s1 & gs' & H1 & Hr). simplify_eq.
    exists s, gs1. simpl. eauto.
  - destruct (at_eol ml s) eqn:He; [|done]. exists s, gs. by simpl.
Qed.

Lemma exec_complete r : forall A s gs s' gs' gs0
    (k : str -> groups -> option A),
  matches r s gs s' gs' -> (forall g, is_Some (k s' g)) ->
  is_Some (exec r s gs0 k).
Proof.
  induction r as [|p|g lo hi p|r1 IH1 r2 IH2|r1 IH1 r2 IH2|n r IH|r IH|ml];
    intros A s gs s' gs' gs0 k H Hk; simpl in H; simpl.
  - destruct H as [-> _]. auto.
  - destruct H as (c & -> & Hp & _). rewrite Hp. auto.
  - destruct H as (w & -> & Hw & Hlo & Hhi & _). by apply rep_complete.
  - destruct H as (s1 & gs1 & H1 & H2).
    eapply IH1; [exact H1|]. intros g. eapply IH2; eauto.
  - apply or_else_is_Some. destruct H as [H|H]; [left|right].
    + eapply IH1; eauto.
    + eapply IH2; eauto.
  - destruct H as (gs1 & H & _). eapply IH; [exact H|]. intros g. apply Hk.
  - destruct H as [-> (s1 & H)].
    destruct (IH _ s gs s1 gs' gs0 (fun _ g => Some g) H) as [g Hg]; [eauto|].
    rewrite Hg. auto.
  - destruct H as (-> & _ & He). rewrite He. auto.
Qed.

(** What is left after a match is a suffix of the text. *)
Lemma matches_suffix r : forall s gs s' gs',
  matches r s gs s' gs' -> exists w, s = w ++ s'.
Proof.
  induction r as [|p|g lo hi p|r1 IH1 r2 IH2|r1 IH1 r2 IH2|n r IH|r IH|ml];
    intros s gs s' gs' H; simpl in H.
  - destruct H as [-> _]. by exists [].
  - destruct H as (c & -> & _). by exists [c].
  - destruct H as (w & -> & _). by exists w.
  - destruct H as (s1 & gs1 & H1 & H2).
    apply IH1 in H1 as [w1 ->]. apply IH2 in H2 as [w2 ->].
    exists (w1 ++ w2). by rewrite <- app_assoc.
  - destruct H as [H|H]; eauto.
  - destruct H as (gs1 & H & _). eauto.
  - destruct H as [-> _]. by exists [].
  - destruct H as (-> & _). by exists [].
Qed.

Lemma take_matched (w s' : str) :
  take (length (w ++ s') - length s') (w ++ s') = w.
Proof.
  rewrite length_app.
  replace (length w + length s' - length s')%nat with (length w) by lia.
  by rewrite take_app_length.
Qed.

Lemma match_at_Some r pre s m :
  match_at r pre s = Some m ->
  matches r s [] (after m) (m_groups m) /\ before m = pre
  /\ s = matched m ++ after m.
Proof.
  unfold match_at. intros H.
  apply exec_sound in H as (s' & gs' & H & Hm). simplify_eq. simpl.
  repeat split; auto.
  destruct (matches_suffix _ _ _ _ _ H) as [w ->]. by rewrite take_matched.
Qed.

Lemma match_at_is_Some r pre s s' gs' :
  matches r s [] s' gs' -> is_Some (match_at r pre s).
Proof. intros H. eapply exec_complete; eauto. Qed.

Lemma search_from_Some r s : forall pre_rev m,
  search_from r pre_rev s = Some m ->
  exists s0, matches r s0 [] (after m) (m_groups m)
             /\ rev pre_rev ++ s = before m ++ s0.
Proof.
  induction s as [|c s IH]; intros pre_rev m; simpl.
  - destruct (match_at r (rev pre_rev) []) eqn:Hm; [|done].
    intros ?; simplify_eq. apply match_at_Some in Hm as (H & -> & _).
    eauto.
  - destruct (match_at r (rev pre_rev) (c :: s)) eqn:Hm.
    + intros ?; simplify_eq. apply match_at_Some in Hm as (H & -> & _).
      eauto.
    + intros H. apply IH in H as (s0 & H & Heq). exists s0. split; [done|].
      rewrite <- Heq. simpl. by rewrite <- app_assoc.
Qed.

End Matcher.

(** ** Strings *)

(** Boolean comparisons of code points, as arithmetic facts. *)
Ltac n_bool :=
  repeat match goal with
  | H : _ && _ = true |- _ => apply andb_true_iff in H as [? ?]
  | H : _ || _ = true |- _ => apply orb_true_iff in H as [?|?]
  | H : _ || _ = false |- _ => apply orb_false_iff in H as [? ?]
  | H : _ && _ = false |- _ => apply andb_false_iff in H as [?|?]
  | H : negb _ = true |- _ => apply negb_true_iff in H
  | H : negb _ = false |- _ => apply negb_false_iff in H
  | H : (_ <=? _) = true |- _ => apply N.leb_le in H
  | H : (_ <=? _) = false |- _ => apply N.leb_gt in H
  | H : (_ =? _) = true |- _ => apply N.eqb_eq in H
  | H : (_ =? _) = false |- _ => apply N.eqb_neq in H
  end.

Section Strings.

(** What the table of lowercase mappings holds: no white space, no
    comma, no character that [lower] treats apart, and only images that
    are left as they are. *)
Lemma lower_pairs_ok :
  forallb (fun p => negb (Py.isspace p.1) && negb (Py.isspace p.2)
                    && negb (p.1 =? 0x2C) && negb (p.2 =? 0x2C)
                    && negb (p.1 =? 0x130) && negb (p.2 =? 0x130)
                    && negb (p.2 =? 0x3A3)
                    && (Py.lower_char p.2 =? p.2))
          Py.lower_pairs = true.
Proof. vm_compute. reflexivity. Qed.

Lemma lower_char_pair c :
  Py.lower_char c = c \/ In (c, Py.lower_char c) Py.lower_pairs.
Proof.
  unfold Py.lower_char.
  destruct (find _ Py.lower_pairs) as [[a b]|] eqn:E; [right|by left].
  apply find_some in E as [Hin Hc]. simpl in *.
  apply N.eqb_eq in Hc. by subst.
Qed.

Lemma lower_char_cases c :
  Py.lower_char c = c
  \/ (Py.isspace c = false /\ Py.isspace (Py.lower_char c) = false
      /\ c <> 0x2C /\ Py.lower_char c <> 0x2C
      /\ c <> 0x130 /\ Py.lower_char c <> 0x130
      /\ Py.lower_char c <> 0x3A3
      /\ Py.lower_char (Py.lower_char c) = Py.lower_char c).
Proof.
  destruct (lower_char_pair c) as [H|Hin]; [by left|right].
  pose proof lower_pairs_ok as Hok.
  rewrite forallb_forall in Hok. specialize (Hok _ Hin).
  cbn [fst snd] in Hok. n_bool. by repeat split.
Qed.

(** Lowering keeps white space, and nothing else becomes white space. *)
Lemma lower_char_space c : Py.isspace (Py.lower_char c) = Py.isspace c.
Proof.
  destruct (lower_char_cases c) as [->|(H1 & H2 & _)]; [done|congruence].
Qed.

Lemma lower_char_not_space c :
  Py.isspace c = false -> Py.isspace (Py.lower_char c) = false.
Proof. by rewrite lower_char_space. Qed.

Lemma lower_char_comma c : Py.lower_char c = 0x2C -> c = 0x2C.
Proof.
  destruct (lower_char_cases c) as [->|(_ & _ & _ & H & _)]; done.
Qed.

Lemma lower_char_idem c :
  Py.lower_char (Py.lower_char c) = Py.lower_char c.
Proof.
  destruct (lower_char_cases c) as [H|H]; [by rewrite !H|].
  by destruct H as (_ & _ & _ & _ & _ & _ & _ & H).
Qed.

(** What is lowered to a letter from a to z is neither white space nor a
    comma. *)
Lemma lower_char_letter c :
  Re.range 0x61 0x7A (Py.lower_char c) = true ->
  Py.isspace c = false /\ (c =? 0x2C) = false.
Proof.
  unfold Re.range. intros H.
  rewrite <- (lower_char_space c). split.
  - apply not_true_is_false. intros Hs. unfold Py.isspace in Hs.
    n_bool; lia.
  - apply N.eqb_neq. intros ->. by vm_compute in H.
Qed.

(** *** The characters of a lowered text *)

(** A character that [lower] leaves as it is. *)
Lemma lower_at_fixed b c rest :
  Py.lower_char c = c -> c <> 0x130 -> Py.lower_at b c rest = [c].
Proof.
  intros Hc Hi. unfold Py.lower_at.
  destruct (N.eqb_spec c 0x3A3) as [->|_]; [by vm_compute in Hc|].
  destruct (N.eqb_spec c 0x130) as [->|_]; [done|]. by rewrite Hc.
Qed.

(** What a character becomes: its lowercase, or one of the two small
    sigmas, or the two characters of the dotted capital I. *)
Lemma lower_at_cases b c rest :
  (Py.lower_at b c rest = [Py.lower_char c] /\ c <> 0x3A3 /\ c <> 0x130)
  \/ (c = 0x3A3 /\ (Py.lower_at b c rest = [0x3C2]
                     \/ Py.lower_at b c rest = [0x3C3]))
  \/ (c = 0x130 /\ Py.lower_at b c rest = [0x69; 0x307]).
Proof.
  unfold Py.lower_at.
  destruct (N.eqb_spec c 0x3A3) as [->|H1].
  { right. left. split; [done|]. destruct (_ && _); auto. }
  destruct (N.eqb_spec c 0x130) as [->|H2]; [by right; right|by left].
Qed.

Lemma lower_at_not_nil b c rest : Py.lower_at b c rest <> [].
Proof.
  destruct (lower_at_cases b c rest) as [[-> _]|[[_ [->| ->]]|[_ ->]]];
    done.
Qed.

(** Every character of the result is white space exactly when the
    character lowered is, and is left as it is by [lower]. *)
Lemma lower_at_elem b c rest o :
  o ∈ Py.lower_at b c rest ->
  Py.isspace o = Py.isspace c
  /\ Py.lower_char o = o /\ o <> 0x130
  /\ (o = 0x2C -> c = 0x2C)
  /\ (o = Py.lower_char c \/ c = 0x3A3 \/ c = 0x130).
Proof.
  destruct (lower_at_cases b c rest)
    as [(-> & H1 & H2)|[[-> [->| ->]]|[-> ->]]]; intros Ho.
  - apply list_elem_of_singleton in Ho as ->.
    split; [apply lower_char_space|]. split; [apply lower_char_idem|].
    split; [|split; [apply lower_char_comma|by left]].
    destruct (lower_char_cases c) as [->|H]; [done|].
    by destruct H as (_ & _ & _ & _ & _ & H & _).
  - apply list_elem_of_singleton in Ho as ->.
    repeat split; try done; auto.
  - apply list_elem_of_singleton in Ho as ->.
    repeat split; try done; auto.
  - apply elem_of_cons in Ho as [->|Ho];
      [|apply list_elem_of_singleton in Ho as ->];
      repeat split; try done; auto.
Qed.

Lemma elem_of_lower_from s : forall b o,
  o ∈ Py.lower_from b s ->
  exists c b' rest, c ∈ s /\ o ∈ Py.lower_at b' c rest.
Proof.
  induction s as [|c s IH]; intros b o Ho; simpl in Ho.
  { by apply elem_of_nil in Ho. }
  apply elem_of_app in Ho as [Ho|Ho].
  - exists c, b, s. split; [left|done].
  - apply IH in Ho as (c' & b' & rest & Hin & Ho).
    exists c', b', rest. split; [by right|done].
Qed.

(** A lowered text is left as it is by [lower], and so is every part of
    it. *)
Lemma lower_from_fixed s : forall b,
  Forall (fun c => Py.lower_char c = c /\ c <> 0x130) s ->
  Py.lower_from b s = s.
Proof.
  induction s as [|c s IH]; intros b H; [done|].
  apply Forall_cons in H as [[Hc Hi] H]. simpl.
  rewrite lower_at_fixed by done. simpl. f_equal. by apply IH.
Qed.

Lemma lower_from_lowered s b :
  Forall (fun c => Py.lower_char c = c /\ c <> 0x130) (Py.lower_from b s).
Proof.
  apply Forall_forall. intros o Ho.
  apply elem_of_lower_from in Ho as (c & b' & rest & _ & Ho).
  by apply lower_at_elem in Ho as (_ & ? & ? & _).
Qed.

Lemma lower_idem s : Py.lower (Py.lower s) = Py.lower s.
Proof. apply lower_from_fixed, lower_from_lowered. Qed.

Lemma lower_from_nil b s : Py.lower_from b s = [] -> s = [].
Proof.
  destruct s as [|c s]; [done|]. simpl. intros H.
  apply app_eq_nil in H as [H _]. by apply lower_at_not_nil in H.
Qed.

(** A comma of the result is a comma of the text. *)
Lemma lower_from_comma b s : 0x2C ∈ Py.lower_from b s -> 0x2C ∈ s.
Proof.
  intros H. apply elem_of_lower_from in H as (c & b' & rest & Hin & Ho).
  apply lower_at_elem in Ho as (_ & _ & _ & Hc & _).
  by rewrite <- (Hc eq_refl).
Qed.

(** A text that is lowered to letters from a to z is lowered character
    by character, from characters that are neither white space nor
    commas. *)
Lemma lower_from_letters s : forall b,
  Forall (fun o => Re.range 0x61 0x7A o = true) (Py.lower_from b s) ->
  Py.lower_from b s = Py.lower_char <$> s
  /\ Forall (fun c => Re.range 0x61 0x7A (Py.lower_char c) = true) s.
Proof.
  induction s as [|c s IH]; intros b H; [done|]. simpl in H.
  apply Forall_app in H as [Hc H]. apply IH in H as [Heq Hs].
  simpl. rewrite Heq.
  destruct (lower_at_cases b c s)
    as [(Hl & _)|[[_ [Hl|Hl]]|[_ Hl]]]; rewrite Hl in Hc |- *.
  - apply Forall_inv in Hc. split; [done|by constructor].
  - apply Forall_inv in Hc. by vm_compute in Hc.
  - apply Forall_inv in Hc. by vm_compute in Hc.
  - apply Forall_cons in Hc as [_ Hc]. apply Forall_inv in Hc.
    by vm_compute in Hc.
Qed.

Lemma space_not_comma c : Py.isspace c = true -> (c =? 0x2C) = false.
Proof.
  intros H. destruct (N.eqb_spec c 0x2C) as [->|]; [|done].
  by vm_compute in H.
Qed.

Lemma lstrip_by_app p ws s :
  Forall (fun c => p c = true) ws ->
  Py.lstrip_by p (ws ++ s) = Py.lstrip_by p s.
Proof. induction 1 as [|c ws Hc _ IH]; simpl; [done|]. by rewrite Hc. Qed.

Lemma lstrip_by_head p c s :
  p c = false -> Py.lstrip_by p (c :: s) = c :: s.
Proof. intros H. simpl. by rewrite H. Qed.

Lemma lstrip_by_head_false p s c r :
  Py.lstrip_by p s = c :: r -> p c = false.
Proof.
  induction s as [|x s IH]; simpl; [done|].
  destruct (p x) eqn:Hx; [done|]. by intros ?; simplify_eq.
Qed.

Lemma lstrip_by_suffix p s :
  exists pre, s = pre ++ Py.lstrip_by p s.
Proof.
  induction s as [|x s [pre IH]]; simpl; [by exists []|].
  destruct (p x); [|by exists []]. exists (x :: pre). simpl. by f_equal.
Qed.

(** Stripping a padded text whose ends are not white space. *)
Lemma strip_by_padded p ws1 c s d ws2 :
  Forall (fun c => p c = true) ws1 -> Forall (fun c => p c = true) ws2 ->
  p c = false -> p d = false ->
  Py.strip_by p (ws1 ++ (c :: s ++ [d]) ++ ws2) = c :: s ++ [d].
Proof.
  intros H1 H2 Hc Hd. unfold Py.strip_by.
  rewrite lstrip_by_app by done. simpl. rewrite Hc.
  replace (rev (c :: (s ++ [d]) ++ ws2))
    with (rev ws2 ++ d :: rev (c :: s)).
  2:{ simpl. rewrite !rev_app_distr. simpl. by rewrite <- !app_assoc. }
  rewrite lstrip_by_app by by apply Forall_rev.
  rewrite lstrip_by_head by done.
  simpl. rewrite rev_app_distr. simpl. by rewrite rev_involutive.
Qed.

(** A stripped text does not begin with white space. *)
Lemma strip_head c r s : Py.strip s = c :: r -> Py.isspace c = false.
Proof.
  unfold Py.strip, Py.strip_by. intros H.
  set (u := Py.lstrip_by Py.isspace s) in *.
  destruct (lstrip_by_suffix Py.isspace (rev u)) as [pre Hpre].
  assert (Hl : Py.lstrip_by Py.isspace (rev u) = rev r ++ [c]).
  { rewrite <- (rev_involutive (Py.lstrip_by _ _)), H. done. }
  rewrite Hl in Hpre. apply (f_equal (@rev N)) in Hpre.
  rewrite rev_involutive, !rev_app_distr, rev_involutive in Hpre.
  simpl in Hpre. by apply (lstrip_by_head_false Py.isspace s c _ Hpre).
Qed.

Lemma split_from_word word s : word <> [] -> Py.split_from word s <> [].
Proof.
  revert word. induction s as [|c s IH]; intros word Hw; simpl.
  - by destruct word.
  - destruct (Py.isspace c); [by destruct word|]. by apply IH.
Qed.

(** A text that begins with a character that is not white space has a
    first word. *)
Lemma split_first_word c s :
  Py.isspace c = false -> exists w, Py.split (c :: s) !! 0%nat = Some w.
Proof.
  intros Hc. unfold Py.split. simpl. rewrite Hc.
  pose proof (split_from_word [c] s) as H.
  destruct (Py.split_from [c] s) as [|w ws]; [by destruct H|]. by exists w.
Qed.

Lemma split_on_no_sep sep w :
  Forall (fun c => (c =? sep) = false) w -> Py.split_on sep w = [w].
Proof.
  induction 1 as [|c w Hc _ IH]; [done|]. simpl. by rewrite Hc, IH.
Qed.

(** *** Lowering and stripping *)

Lemma lower_from_head b c s o r :
  Py.lower_from b (c :: s) = o :: r -> Py.isspace o = Py.isspace c.
Proof.
  simpl. intros H.
  destruct (Py.lower_at b c s) as [|o' r'] eqn:Hl;
    [by apply lower_at_not_nil in Hl|].
  simpl in H. simplify_eq.
  assert (o ∈ Py.lower_at b c s) as Ho by (rewrite Hl; left).
  by apply lower_at_elem in Ho as (? & _).
Qed.

Lemma lower_from_last s : forall b d,
  exists pre b' o,
    Py.lower_from b (s ++ [d]) = pre ++ [o] /\ o ∈ Py.lower_at b' d [].
Proof.
  induction s as [|c s IH]; intros b d.
  - simpl. rewrite app_nil_r.
    destruct (Py.lower_at b d []) as [|x l] eqn:Hl;
      [by apply lower_at_not_nil in Hl|].
    destruct (exists_last (l := x :: l)) as (pre & o & Hpre); [done|].
    exists pre, b, o. split; [done|]. rewrite Hl, Hpre.
    apply elem_of_app. right. left.
  - destruct (IH (if Py.case_ignorable c then b else Py.cased c) d)
      as (pre & b' & o & Heq & Ho).
    exists (Py.lower_at b c (s ++ [d]) ++ pre), b', o.
    split; [|done]. simpl. by rewrite Heq, <- app_assoc.
Qed.

Lemma lstrip_by_fixed p s :
  Py.lstrip_by p s = s <-> s = [] \/ exists c r, s = c :: r /\ p c = false.
Proof.
  split.
  - destruct s as [|c r]; [by left|]. intros H. right. exists c, r.
    split; [done|]. by apply lstrip_by_head_false in H.
  - intros [->|(c & r & -> & Hc)]; [done|]. by apply lstrip_by_head.
Qed.

Lemma strip_by_fixed p s :
  Py.strip_by p s = s <->
  Py.lstrip_by p s = s /\ Py.lstrip_by p (rev s) = rev s.
Proof.
  unfold Py.strip_by. split.
  - intros H.
    destruct (lstrip_by_suffix p s) as [pre1 H1].
    destruct (lstrip_by_suffix p (rev (Py.lstrip_by p s))) as [pre2 H2].
    assert (length s = length (Py.lstrip_by p (rev (Py.lstrip_by p s))))
      as Hlen by (rewrite <- H at 1; by rewrite length_rev).
    apply (f_equal (@length N)) in H1, H2.
    rewrite length_app in H1, H2. rewrite length_rev in H2.
    assert (pre1 = []) as -> by (destruct pre1; [done|simpl in *; lia]).
    destruct (lstrip_by_suffix p s) as [pre Hpre].
    assert (Py.lstrip_by p s = s) as Hs.
    { apply (f_equal (@length N)) in Hpre as Hl.
      rewrite length_app in Hl.
      destruct pre; [done|simpl in *; lia]. }
    split; [done|]. rewrite Hs in H.
    apply (f_equal (@rev N)) in H. by rewrite rev_involutive in H.
  - intros [-> ->]. apply rev_involutive.
Qed.

(** Lowering a stripped text gives a stripped text. *)
Lemma lower_stripped s : Py.strip s = s -> Py.strip (Py.lower s) = Py.lower s.
Proof.
  unfold Py.strip, Py.lower. rewrite !strip_by_fixed.
  intros [Hl Hr]. split.
  - apply lstrip_by_fixed.
    destruct (Py.lower_from false s) as [|o r] eqn:Ho; [by left|right].
    exists o, r. split; [done|].
    apply lstrip_by_fixed in Hl as [->|(c & r' & -> & Hc)]; [done|].
    apply lower_from_head in Ho. congruence.
  - apply lstrip_by_fixed.
    induction s as [|d s' _] using rev_ind; [by left|].
    rewrite rev_app_distr in Hr. change (rev [d]) with [d] in Hr.
    change ([d] ++ rev s') with (d :: rev s') in Hr.
    apply lstrip_by_head_false in Hr.
    destruct (lower_from_last s' false d) as (pre & b' & o & -> & Ho).
    right. exists o, (rev pre). split; [by rewrite rev_app_distr|].
    apply lower_at_elem in Ho as (Hs & _). congruence.
Qed.

End Strings.

(** ** Prices *)

Section Prices.

Lemma decimal_not_comma c : Py.isdecimal c = true -> (c =? 0x2C) = false.
Proof.
  intros H. destruct (N.eqb_spec c 0x2C) as [->|]; [|done].
  by vm_compute in H.
Qed.

Lemma decimal_not_point c : Py.isdecimal c = true -> (c =? 0x2E) = false.
Proof.
  intros H. destruct (N.eqb_spec c 0x2E) as [->|]; [|done].
  by vm_compute in H.
Qed.

Lemma replace_decimals w :
  Forall (fun c => Py.isdecimal c = true) w -> Py.replace 0x2C 0x2E w = w.
Proof.
  induction 1 as [|c w Hc _ IH]; [done|]. unfold Py.replace in *.
  by rewrite fmap_cons, IH, (decimal_not_comma c Hc).
Qed.

Lemma split_on_decimals w :
  Forall (fun c => Py.isdecimal c = true) w -> Py.split_on 0x2E w = [w].
Proof.
  induction 1 as [|c w Hc _ IH]; [done|]. simpl.
  by rewrite (decimal_not_point c Hc), IH.
Qed.

Lemma split_on_point w1 w2 :
  Forall (fun c => Py.isdecimal c = true) w1 ->
  Forall (fun c => Py.isdecimal c = true) w2 ->
  Py.split_on 0x2E (w1 ++ 0x2E :: w2) = [w1; w2].
Proof.
  intros H1 H2. induction H1 as [|c w Hc _ IH]; simpl.
  - by rewrite split_on_decimals.
  - by rewrite (decimal_not_point c Hc), IH.
Qed.

Lemma digits_value_decimals w : forall acc,
  Forall (fun c => Py.isdecimal c = true) w ->
  is_Some (Py.digits_value acc w).
Proof.
  induction w as [|c w IH]; intros acc Hw; simpl; [eauto|].
  apply Forall_cons in Hw as [Hc Hw]. rewrite Hc. by apply IH.
Qed.

(** [float] reads every numeral that the price pattern captures, once
    its comma is replaced. *)
Lemma float_price w1 w2 :
  Forall (fun c => Py.isdecimal c = true) w1 ->
  Forall (fun c => Py.isdecimal c = true) w2 ->
  w1 <> [] ->
  exists q, Py.float (Py.replace 0x2C 0x2E (w1 ++ 0x2C :: w2)) = Ok q.
Proof.
  intros H1 H2 Hne. unfold Py.replace. rewrite fmap_app, fmap_cons. simpl.
  fold (Py.replace 0x2C 0x2E w1). fold (Py.replace 0x2C 0x2E w2).
  rewrite !replace_decimals by done.
  unfold Py.float. rewrite split_on_point by done.
  destruct (digits_value_decimals (w1 ++ w2) 0%Z) as [n Hn].
  { by apply Forall_app. }
  rewrite Hn. destruct w1; [done|]. simpl. eauto.
Qed.

(** The first group of a match of the price pattern. *)
Lemma price_group s gs s' gs' :
  matches PRICE_LINE_RE s gs s' gs' ->
  exists w1 w2, Re.group 1 gs' = w1 ++ 0x2C :: w2
    /\ Forall (fun c => Py.isdecimal c = true) w1
    /\ Forall (fun c => Py.isdecimal c = true) w2
    /\ (1 <= length w1 <= 2)%nat /\ length w2 = 2%nat.
Proof.
  unfold PRICE_LINE_RE, PRICE_RE, CURRENCY_RE, Re.star, Re.chr.
  cbn [matches].
  intros H.
  repeat match type of H with
         | ex _ => destruct H as [? H]
         | _ /\ _ => let H1 := fresh "H" in destruct H as [H1 H]
         end.
  repeat match goal with
         | H : ex _ |- _ => destruct H as [? H]
         | H : _ /\ _ |- _ => destruct H
         end.
  simplify_eq. cbn [Re.group Nat.eqb].
  match goal with
  | |- context [take _ (?w1 ++ ?c :: ?w2 ++ ?rest)] =>
    exists w1, w2;
    replace (w1 ++ c :: w2 ++ rest) with ((w1 ++ c :: w2) ++ rest)
      by (by rewrite <- app_assoc)
  end.
  rewrite take_matched.
  repeat match goal with H : (_ =? ?c) = true |- _ =>
    apply N.eqb_eq in H; subst c end.
  repeat split; auto; simpl in *; lia.
Qed.

Lemma first_price_line_Some numbered m i :
  first_price_line numbered = Some (m, i) ->
  exists line, (i, line) ∈ numbered
               /\ Re.search PRICE_LINE_RE line = Some m.
Proof.
  induction numbered as [|[j line] rest IH]; simpl; [done|].
  destruct (Re.search PRICE_LINE_RE line) as [m'|] eqn:Hs.
  - intros ?; simplify_eq. exists line. split; [left|done].
  - intros H. apply IH in H as (l & Hl & H). exists l. split; [by right|done].
Qed.

Lemma first_price_line_None numbered :
  first_price_line numbered = None <->
  Forall (fun il => Re.search PRICE_LINE_RE il.2 = None) numbered.
Proof.
  induction numbered as [|[j line] rest IH]; simpl.
  - split; auto.
  - destruct (Re.search PRICE_LINE_RE line) as [m'|] eqn:Hs.
    + split; [done|]. intros H. apply Forall_cons in H as [H _].
      simpl in H. congruence.
    + rewrite IH. split; [by constructor|]. intros H.
      by apply Forall_cons in H as [_ H].
Qed.

Lemma Forall_rev_iff {A} (P : A -> Prop) (l : list A) :
  Forall P (rev l) <-> Forall P l.
Proof.
  rewrite !Forall_forall. split; intros H x Hx; apply H;
    apply list_elem_of_In; apply list_elem_of_In in Hx;
    by apply in_rev in Hx || apply in_rev.
Qed.

Lemma snd_enumerate {A} (xs : list A) : (enumerate xs).*2 = xs.
Proof. unfold enumerate. apply snd_zip. by rewrite length_seq. Qed.

(** No price is found exactly when no line has one. *)
Lemma price_line_None lines :
  price_line lines = None <->
  Forall (fun line => Re.search PRICE_LINE_RE line = None) lines.
Proof.
  unfold price_line. rewrite first_price_line_None, Forall_rev_iff.
  rewrite <- (snd_enumerate lines) at 2. by rewrite Forall_fmap.
Qed.

Lemma price_line_Some lines m i :
  price_line lines = Some (m, i) ->
  exists line, line ∈ lines /\ Re.search PRICE_LINE_RE line = Some m.
Proof.
  unfold price_line. intros H.
  apply first_price_line_Some in H as (line & Hin & H).
  exists line. split; [|done].
  apply list_elem_of_In, in_rev, list_elem_of_In in Hin.
  rewrite <- (snd_enumerate lines).
  by apply (list_elem_of_fmap_2 snd) in Hin.
Qed.

(** Reading the price never raises. *)
Lemma cell_price_ok lines :
  exists p, cell_price lines = Ok p
            /\ (p = None <-> price_line lines = None).
Proof.
  unfold cell_price. destruct (price_line lines) as [[m i]|] eqn:Hp.
  - apply price_line_Some in Hp as (line & _ & Hs).
    apply search_from_Some in Hs as (s0 & Hm & _).
    apply price_group in Hm as (w1 & w2 & Hg & H1 & H2 & Hl & _).
    unfold Re.group_of. rewrite Hg.
    destruct (float_price w1 w2 H1 H2) as [q Hq].
    { destruct w1; [simpl in Hl; lia|done]. }
    rewrite Hq. simpl. exists (Some q). by split.
  - exists None. by split.
Qed.

End Prices.

(** ** Loops and dictionaries *)

Section Loops.
Context {A S : Type}.

Lemma for_each_ok (I : S -> Prop) (body : S -> A -> result S) xs : forall st,
  I st ->
  (forall st x, x ∈ xs -> I st -> exists st', body st x = Ok st' /\ I st') ->
  exists st', for_each body xs st = Ok st' /\ I st'.
Proof.
  induction xs as [|x xs IH]; intros st Hst Hbody; simpl; [eauto|].
  destruct (Hbody st x) as (st1 & -> & H1); [left|done|]. simpl.
  apply IH; [done|]. intros st2 y Hy. apply Hbody. by right.
Qed.

Lemma for_each_inv (I : S -> Prop) (body : S -> A -> result S) xs :
  forall st st',
  for_each body xs st = Ok st' -> I st ->
  (forall st x st', x ∈ xs -> I st -> body st x = Ok st' -> I st') ->
  I st'.
Proof.
  induction xs as [|x xs IH]; intros st st' H Hst Hbody; simpl in H.
  - by simplify_eq.
  - destruct (body st x) as [st1|] eqn:H1; [|done]. simpl in H.
    eapply IH; [done| |].
    + eapply Hbody; [left|done..].
    + intros st2 y st3 Hy. apply Hbody. by right.
Qed.

Lemma for_each_ext (f g : S -> A -> result S) xs : forall st,
  (forall st x, x ∈ xs -> f st x = g st x) ->
  for_each f xs st = for_each g xs st.
Proof.
  induction xs as [|x xs IH]; intros st H; simpl; [done|].
  rewrite (H st x) by left. destruct (g st x); simpl; [|done].
  apply IH. intros st2 y Hy. apply H. by right.
Qed.

End Loops.

Section Dicts.
Context {V : Type}.
Implicit Types (d : dict V) (key k : str) (v : V).

Lemma dict_get_set d key v : dict_get (dict_set d key v) key = Ok v.
Proof.
  induction d as [|[k v0] d IH]; simpl.
  - by rewrite decide_True.
  - destruct (decide (k = key)) as [->|Hne]; simpl.
    + by rewrite decide_True.
    + by rewrite decide_False.
Qed.

Lemma dict_get_set_ne d key k v :
  k <> key -> dict_get (dict_set d key v) k = dict_get d k.
Proof.
  intros Hne. induction d as [|[k0 v0] d IH]; simpl.
  - by rewrite decide_False.
  - destruct (decide (k0 = key)) as [->|Hk]; simpl.
    + by rewrite !decide_False.
    + destruct (decide (k0 = k)); done.
Qed.

Lemma dict_set_keys d key v : key ∈ d.*1 -> (dict_set d key v).*1 = d.*1.
Proof.
  induction d as [|[k v0] d IH]; simpl; intros Hin.
  - by apply elem_of_nil in Hin.
  - destruct (decide (k = key)) as [->|Hk]; simpl; [done|].
    f_equal. apply IH. apply elem_of_cons in Hin as [?|?]; [congruence|done].
Qed.

Lemma dict_get_key d key : key ∈ d.*1 -> exists v, dict_get d key = Ok v.
Proof.
  induction d as [|[k v0] d IH]; simpl; intros Hin.
  - by apply elem_of_nil in Hin.
  - destruct (decide (k = key)) as [->|Hk]; [eauto|].
    apply IH. apply elem_of_cons in Hin as [?|?]; [congruence|done].
Qed.

Lemma dict_get_elem_of d key v : dict_get d key = Ok v -> (key, v) ∈ d.
Proof.
  induction d as [|[k v0] d IH]; simpl; [done|].
  destruct (decide (k = key)) as [->|Hk].
  - intros ?; simplify_eq. left.
  - intros H. right. auto.
Qed.

Lemma elem_of_dict_set d key v k v' :
  (k, v') ∈ dict_set d key v -> (k, v') ∈ d \/ (k = key /\ v' = v).
Proof.
  induction d as [|[k0 v0] d IH]; simpl.
  - intros H. apply list_elem_of_singleton in H. simplify_eq. auto.
  - destruct (decide (k0 = key)) as [->|Hk]; intros H;
      apply elem_of_cons in H as [H|H]; simplify_eq; auto.
    + left. by right.
    + left. left.
    + destruct (IH H) as [?|?]; auto. left. by right.
Qed.

End Dicts.

Lemma empty_lists_keys {V} (days : list str) :
  (empty_lists (V := V) days).*1 = days.
Proof.
  unfold empty_lists. rewrite <- list_fmap_compose.
  induction days as [|day days IH]; [done|].
  rewrite fmap_cons. simpl. by rewrite IH.
Qed.

Lemma elem_of_empty_lists {V} (days : list str) day (l : list V) :
  (day, l) ∈ empty_lists days -> l = [].
Proof.
  unfold empty_lists. intros H. apply list_elem_of_fmap in H as (d & H & _).
  by simplify_eq.
Qed.

(** ** The cell merger *)

Section Merger.

Lemma day_columns_day day col :
  (day, col) ∈ day_columns -> day ∈ take 5 WEEKDAYS_DE.
Proof.
  intros H. apply (list_elem_of_fmap_2 fst) in H.
  unfold day_columns in H. rewrite fst_zip in H; [done|].
  simpl. lia.
Qed.

Lemma day_columns_col day col :
  (day, col) ∈ day_columns ->
  col ∈ DISH_COLUMN_INDICES /\ (col < max_list DISH_COLUMN_INDICES + 1)%nat.
Proof.
  intros H. apply (list_elem_of_fmap_2 snd) in H.
  unfold day_columns in H. rewrite snd_zip in H by (simpl; lia).
  split; [done|]. simpl in *.
  repeat (apply elem_of_cons in H as [->|H]; [lia|]).
  by apply elem_of_nil in H.
Qed.

(** A merge step never raises on a day that is a key, and keeps the
    keys. *)
Lemma merge_cell_ok st day t :
  day ∈ st.*1 ->
  exists st', merge_cell st day t = Ok st' /\ st'.*1 = st.*1.
Proof.
  intros Hday. unfold merge_cell.
  destruct (dict_get_key st day Hday) as [cells ->]. simpl.
  destruct (last cells) as [c|]; [destruct (negb (has_price c))|];
    eexists; (split; [reflexivity|]); by apply dict_set_keys.
Qed.

Lemma merge_day_ok row st day_col :
  (max_list DISH_COLUMN_INDICES + 1 <= length row)%nat ->
  day_col ∈ day_columns -> st.*1 = take 5 WEEKDAYS_DE ->
  exists st', merge_day row st day_col = Ok st'
              /\ st'.*1 = take 5 WEEKDAYS_DE.
Proof.
  intros Hlen Hdc Hkeys. destruct day_col as [day col].
  unfold merge_day, index. simpl.
  destruct (day_columns_col _ _ Hdc) as [_ Hcol].
  destruct (lookup_lt_is_Some_2 row col) as [cell ->]; [lia|]. simpl.
  destruct (blank cell); [eauto|].
  destruct (merge_cell_ok st day (default [] cell)) as (st' & -> & Hk).
  { rewrite Hkeys. by eapply day_columns_day. }
  exists st'. by rewrite Hk.
Qed.

Lemma merge_row_ok st row :
  st.*1 = take 5 WEEKDAYS_DE ->
  exists st', merge_row st row = Ok st' /\ st'.*1 = take 5 WEEKDAYS_DE.
Proof.
  intros Hkeys. unfold merge_row.
  destruct (_ || _) eqn:Hlen; [eauto|].
  apply orb_false_iff in Hlen as [_ Hlen]. apply Nat.ltb_ge in Hlen.
  apply (for_each_ok (fun st => st.*1 = take 5 WEEKDAYS_DE)); [done|].
  intros st1 dc Hdc Hst1. by apply merge_day_ok.
Qed.

(** The merger never raises, and its keys are the five working days. *)
Lemma merge_table_cells_ok table :
  exists st, _merge_table_cells table = Ok st
             /\ st.*1 = take 5 WEEKDAYS_DE.
Proof.
  unfold _merge_table_cells.
  apply (for_each_ok (fun st => st.*1 = take 5 WEEKDAYS_DE)).
  - apply empty_lists_keys.
  - intros st row _ Hst. by apply merge_row_ok.
Qed.

Lemma closed_but_last_snoc cells c :
  Forall (fun c => has_price c = true) cells ->
  closed_but_last (cells ++ [c]).
Proof. unfold closed_but_last. by rewrite removelast_last. Qed.

(** A merge step keeps at most one cell open. *)
Lemma merge_cell_one_open st day t st' :
  one_open_cell st -> merge_cell st day t = Ok st' -> one_open_cell st'.
Proof.
  intros Hinv. unfold merge_cell.
  destruct (dict_get st day) as [cells|] eqn:Hget; [|done]. simpl.
  apply dict_get_elem_of, Hinv in Hget. unfold closed_but_last in Hget.
  assert (Hnew : forall new st',
    closed_but_last new -> Ok (dict_set st day new) = Ok st' ->
    one_open_cell st').
  { intros new st1 Hnew ? d cs Hin. simplify_eq.
    apply elem_of_dict_set in Hin as [Hin|[_ ->]]; [by eapply Hinv|done]. }
  destruct (last cells) as [c|] eqn:Hlast.
  - apply last_Some in Hlast as [init ->].
    rewrite removelast_last in Hget |- *.
    destruct (has_price c) eqn:Hc; simpl; apply Hnew.
    + apply closed_but_last_snoc, Forall_app. split; [done|].
      by constructor.
    + by apply closed_but_last_snoc.
  - apply last_None in Hlast as ->. apply Hnew.
    by apply closed_but_last_snoc.
Qed.

Lemma merge_day_one_open row st day_col st' :
  one_open_cell st -> merge_day row st day_col = Ok st' -> one_open_cell st'.
Proof.
  intros Hinv. unfold merge_day.
  destruct (index row day_col.2) as [cell|]; [|done]. simpl.
  destruct (blank cell); [by intros; simplify_eq|].
  by apply merge_cell_one_open.
Qed.

Lemma merge_row_one_open st row st' :
  one_open_cell st -> merge_row st row = Ok st' -> one_open_cell st'.
Proof.
  intros Hinv. unfold merge_row.
  destruct (_ || _); [by intros; simplify_eq|]. intros H.
  eapply (for_each_inv one_open_cell); [exact H|done|].
  intros st1 dc st2 _. apply merge_day_one_open.
Qed.

Lemma merge_table_cells_one_open table st :
  _merge_table_cells table = Ok st -> one_open_cell st.
Proof.
  intros H. eapply (for_each_inv one_open_cell); [exact H| |].
  - intros day cells Hin. apply elem_of_empty_lists in Hin as ->.
    constructor.
  - intros st1 row st2 _. apply merge_row_one_open.
Qed.

(** A cell that has its price is never touched again. *)
Lemma merge_cell_sticky st day t st' d cells i c :
  merge_cell st day t = Ok st' ->
  dict_get st d = Ok cells -> cells !! i = Some c -> has_price c = true ->
  exists cells', dict_get st' d = Ok cells' /\ cells' !! i = Some c.
Proof.
  unfold merge_cell. intros H Hd Hi Hc.
  destruct (dict_get st day) as [cells0|] eqn:Hget; [|done]. simpl in H.
  destruct (decide (d = day)) as [->|Hne].
  - assert (cells0 = cells) as -> by congruence.
    assert (Happ : forall new, Ok (dict_set st day (cells ++ new)) = Ok st' ->
      exists cells', dict_get st' day = Ok cells' /\ cells' !! i = Some c).
    { intros new ?. simplify_eq. rewrite dict_get_set.
      eexists. split; [done|]. by apply lookup_app_l_Some. }
    destruct (last cells) as [c0|] eqn:Hlast; [|exact (Happ _ H)].
    destruct (has_price c0) eqn:Hc0; simpl in H; [exact (Happ _ H)|].
    apply last_Some in Hlast as [init ->]. rewrite removelast_last in H.
    simplify_eq. rewrite dict_get_set. eexists. split; [done|].
    destruct (decide (i < length init)%nat).
    + rewrite lookup_app_l in Hi |- * by done. done.
    + rewrite lookup_app_r in Hi by lia.
      apply list_lookup_singleton_Some in Hi as [_ <-]. congruence.
  - exists cells. split; [|done].
    destruct (last cells0) as [c0|]; [destruct (negb (has_price c0))|];
      simplify_eq; by rewrite dict_get_set_ne.
Qed.

(** Assigning the flag in the merge branch is OR-ing it with the old
    flag, which is false there. *)
Lemma merge_cell_or_eq st day t : merge_cell_or st day t = merge_cell st day t.
Proof.
  unfold merge_cell_or, merge_cell.
  destruct (dict_get st day) as [cells|]; [|done]. simpl.
  destruct (last cells) as [c|]; [|done].
  by destruct (has_price c) eqn:Hc.
Qed.

Lemma same_day_columns_row st row1 row2 :
  same_day_columns row1 row2 -> merge_row st row1 = merge_row st row2.
Proof.
  intros [Hlen Hcols]. unfold merge_row. rewrite <- Hlen.
  replace (bool_decide (row2 = [])) with (bool_decide (row1 = [])).
  2:{ apply bool_decide_ext. destruct row1, row2; simpl in Hlen; done. }
  destruct (_ || _); [done|].
  apply for_each_ext. intros st1 [day col] Hdc.
  unfold merge_day, index. simpl.
  rewrite Hcols; [done|]. by eapply day_columns_col.
Qed.

Lemma same_day_columns_table table1 table2 : forall st,
  Forall2 same_day_columns table1 table2 ->
  for_each merge_row table1 st = for_each merge_row table2 st.
Proof.
  intros st H. revert st.
  induction H as [|row1 row2 t1 t2 Hrow _ IH]; intros st; simpl; [done|].
  rewrite (same_day_columns_row st row1 row2 Hrow).
  destruct (merge_row st row2); simpl; auto.
Qed.

End Merger.

Section MergeSteps.


Lemma dict_get_empty_lists {V} (days : list str) day :
  day ∈ days -> dict_get (empty_lists (V := V) days) day = Ok [].
Proof.
  intros Hin. destruct (dict_get_key (empty_lists (V := V) days) day)
    as [v Hv]; [by rewrite empty_lists_keys|].
  rewrite Hv. f_equal. apply dict_get_elem_of in Hv.
  by apply elem_of_empty_lists in Hv.
Qed.

(** The merge step on a day whose cells are known. *)
Lemma merge_cell_eq st day t cells :
  dict_get st day = Ok cells ->
  merge_cell st day t =
  Ok (dict_set st day
        match last cells with
        | Some c =>
          if has_price c
          then cells ++ [ {| text := t; has_price := any_price_line t |} ]
          else removelast cells
               ++ [ {| text := text c ++ LF ++ t;
                       has_price := any_price_line t |} ]
        | None => cells ++ [ {| text := t; has_price := any_price_line t |} ]
        end).
Proof.
  intros H. unfold merge_cell. rewrite H. simpl.
  destruct (last cells) as [c|]; [|done]. by destruct (has_price c).
Qed.


End MergeSteps.

(** ** The dish extractor *)

Section Extractor.

Lemma has_filter_word_true (self : MensaParser) title :
  has_filter_word self title = true <->
  exists word, word ∈ filter_words (config self)
               /\ Py.contains word (Py.lower title) = true.
Proof.
  unfold has_filter_word.
  rewrite andb_true_iff, !bool_decide_eq_true. unfold set_Exists.
  split; [by intros [_ H]|]. intros (w & Hw & H).
  split; [|eauto]. intros He. rewrite He in Hw. set_solver.
Qed.

Lemma has_filter_allergen_true (self : MensaParser) (allergens : gset str) :
  has_filter_allergen self allergens = true <->
  exists code, code ∈ allergens /\ code ∈ filter_allergen_numbers self.
Proof.
  unfold has_filter_allergen.
  rewrite andb_true_iff, !bool_decide_eq_true. split.
  - intros [_ H]. apply set_choose_L in H as [code H]. exists code.
    set_solver.
  - intros (code & H1 & H2). split; set_solver.
Qed.

(** The extractor once the lines and the price are known. *)
Lemma parse_dish_unfold self cell_text p :
  cell_lines cell_text <> [] ->
  cell_price (cell_lines cell_text) = Ok p ->
  _parse_dish_from_cell self cell_text =
  let ta := title_and_allergens (full_title (cell_lines cell_text)) in
  match p with
  | None => Ok None
  | Some price =>
    if (length ta.1 <? 5)%nat then Ok None
    else if has_filter_word self ta.1 then Ok None
    else if has_filter_allergen self ta.2 then Ok None
    else Ok (Some {| title := ta.1;
                     price := price;
                     category := if Qle_bool price 1 then utf8 "side"
                                 else utf8 "main";
                     allergens := ta.2 |})
  end.
Proof.
  intros Hlines Hp. unfold _parse_dish_from_cell.
  rewrite bool_decide_false by done. rewrite Hp. simpl.
  by destruct (title_and_allergens _).
Qed.

(** The extractor never raises. *)
Lemma parse_dish_ok self cell_text :
  exists r, _parse_dish_from_cell self cell_text = Ok r.
Proof.
  destruct (decide (cell_lines cell_text = [])) as [Hnil|Hne].
  - unfold _parse_dish_from_cell. rewrite bool_decide_true by done. eauto.
  - destruct (cell_price_ok (cell_lines cell_text)) as (p & Hp & _).
    rewrite (parse_dish_unfold self cell_text p Hne Hp). simpl.
    destruct p; [|eauto]. repeat (destruct (_ : bool); [eauto|]). eauto.
Qed.

(** A cell that passes every test gives its dish. *)
Lemma parse_dish_accept (self : MensaParser) (cell_text : str)
    (lines : list str) (p : Q) (t : str) (a : gset str) :
  cell_lines cell_text = lines -> lines <> [] ->
  cell_price lines = Ok (Some p) ->
  title_and_allergens (full_title lines) = (t, a) ->
  (5 <= length t)%nat ->
  has_filter_word self t = false -> has_filter_allergen self a = false ->
  _parse_dish_from_cell self cell_text =
  Ok (Some {| title := t;
              price := p;
              category := if Qle_bool p 1 then utf8 "side" else utf8 "main";
              allergens := a |}).
Proof.
  intros <- Hne Hp Hta Hlen Hw Ha.
  rewrite (parse_dish_unfold self cell_text (Some p) Hne Hp), Hta. simpl.
  rewrite Hw, Ha. by destruct (Nat.ltb_spec (length t) 5); [lia|].
Qed.

Lemma no_filter_word self title :
  filter_words (config self) = ∅ -> has_filter_word self title = false.
Proof.
  intros H. unfold has_filter_word. rewrite H.
  by rewrite bool_decide_false by (by intros []).
Qed.

Lemma no_allergen_no_filter self :
  has_filter_allergen self ∅ = false.
Proof.
  apply not_true_is_false. rewrite has_filter_allergen_true.
  intros (code & H & _). set_solver.
Qed.

Lemma parse_dish_ext self1 self2 cell_text :
  config self1 = config self2 ->
  filter_allergen_numbers self1 = filter_allergen_numbers self2 ->
  _parse_dish_from_cell self1 cell_text
  = _parse_dish_from_cell self2 cell_text.
Proof.
  intros Hc Hf. unfold _parse_dish_from_cell, has_filter_word,
    has_filter_allergen. by rewrite Hc, Hf.
Qed.

End Extractor.

(** ** The menu builder *)

Section Builder.

Lemma working_day day :
  day ∈ take 5 WEEKDAYS_DE ->
  day ∈ WEEKDAYS_DE /\ day <> utf8 "Samstag" /\ day <> utf8 "Sonntag".
Proof.
  intros H. split.
  - by apply (subseteq_take 5 WEEKDAYS_DE).
  - simpl in H. rewrite !elem_of_cons in H.
    destruct H as [->|[->|[->|[->|[->|H]]]]];
      [by vm_compute..|by apply elem_of_nil in H].
Qed.

Lemma empty_week_shaped : week_shaped (empty_lists WEEKDAYS_DE).
Proof. split; [apply empty_lists_keys|]. by vm_compute. Qed.

Lemma add_dish_ok self day dishes_by_day cell :
  day ∈ take 5 WEEKDAYS_DE -> week_shaped dishes_by_day ->
  exists d', add_dish self day dishes_by_day cell = Ok d' /\ week_shaped d'.
Proof.
  intros Hday (Hkeys & Hsat & Hsun). unfold add_dish.
  destruct (parse_dish_ok self (text cell)) as [r ->]. simpl.
  destruct r as [d|]; [|by eexists].
  apply working_day in Hday as (Hin & Hne1 & Hne2).
  destruct (dict_get_key dishes_by_day day) as [dishes ->];
    [by rewrite Hkeys|]. simpl.
  eexists. split; [done|]. repeat split.
  - rewrite dict_set_keys; [done|]. by rewrite Hkeys.
  - by rewrite dict_get_set_ne.
  - by rewrite dict_get_set_ne.
Qed.

Lemma add_day_ok self dishes_by_day item :
  item.1 ∈ take 5 WEEKDAYS_DE -> week_shaped dishes_by_day ->
  exists d', add_day self dishes_by_day item = Ok d' /\ week_shaped d'.
Proof.
  intros Hday Hw. unfold add_day.
  apply (for_each_ok week_shaped); [done|].
  intros d cell _. by apply add_dish_ok.
Qed.

(** The builder never raises and its result has the shape of a week. *)
Lemma get_all_dishes_ok self :
  exists d, get_all_dishes self = Ok d /\ week_shaped d.
Proof.
  unfold get_all_dishes.
  destruct (Nat.leb_spec (length (pages (pdf_content self))) MENU_PAGE_INDEX)
    as [Hlen|Hlen].
  { eexists. split; [done|]. apply empty_week_shaped. }
  unfold index.
  destruct (lookup_lt_is_Some_2 (pages (pdf_content self)) MENU_PAGE_INDEX)
    as [page ->]; [done|]. simpl.
  destruct (extract_table page) as [[|row table]|];
    try (eexists; split; [done|]; apply empty_week_shaped).
  destruct (merge_table_cells_ok (row :: table)) as (merged & -> & Hkeys).
  simpl. apply (for_each_ok week_shaped); [apply empty_week_shaped|].
  intros d item Hitem. apply add_day_ok.
  rewrite <- Hkeys. by apply (list_elem_of_fmap_2 fst).
Qed.

Lemma get_all_dishes_table self table :
  menu_table self = Some table -> table <> [] ->
  get_all_dishes self =
  merged_cells ← _merge_table_cells table;
  for_each (add_day self) merged_cells (empty_lists WEEKDAYS_DE).
Proof.
  unfold menu_table, get_all_dishes, index. intros H Hne.
  destruct (pages (pdf_content self) !! MENU_PAGE_INDEX) as [page|] eqn:Hp;
    [|done].
  simpl in H. apply lookup_lt_Some in Hp.
  destruct (Nat.leb_spec (length (pages (pdf_content self))) MENU_PAGE_INDEX);
    [lia|].
  simpl. rewrite H. by destruct table.
Qed.

Lemma get_all_dishes_empty_table self :
  menu_table self = Some [] ->
  get_all_dishes self = Ok (empty_lists WEEKDAYS_DE).
Proof.
  unfold menu_table, get_all_dishes, index. intros H.
  destruct (pages (pdf_content self) !! MENU_PAGE_INDEX) as [page|]; [|done].
  simpl in *. rewrite H. by destruct (_ <=? _)%nat.
Qed.

End Builder.

(** ** The legend *)

Section Legend.

Lemma for_each_app {A S} (body : S -> A -> result S) xs ys : forall st,
  for_each body (xs ++ ys) st
  = st' ← for_each body xs st; for_each body ys st'.
Proof.
  induction xs as [|x xs IH]; intros st; simpl; [done|].
  destruct (body st x); simpl; [apply IH|done].
Qed.

(** A name of three characters or more has a first word. *)
Lemma legend_name_first_word m :
  (3 <= length (legend_name m))%nat ->
  exists w, Py.split (legend_name m) !! 0%nat = Some w.
Proof.
  unfold legend_name.
  destruct (Py.strip (Re.sub _ _ _)) as [|c r] eqn:Hs; [simpl; lia|].
  destruct (Py.lower (c :: r)) as [|o r'] eqn:Hl; [simpl; lia|].
  intros _. apply split_first_word.
  apply lower_from_head in Hl. rewrite Hl. by eapply strip_head.
Qed.

Lemma record_legend_entry_eq amap m :
  record_legend_entry amap m =
  if (length (legend_name m) <? 3)%nat then Ok amap
  else
    first_word ← index (Py.split (legend_name m)) 0;
    if bool_decide (first_word <> legend_name m)
    then Ok (<[first_word := legend_code m]>
               (<[legend_name m := legend_code m]> amap))
    else Ok (<[legend_name m := legend_code m]> amap).
Proof. reflexivity. Qed.

(** Recording an entry never raises; it writes the code under the keys
    of the entry and leaves the other keys. *)
Lemma record_legend_entry_ok amap m :
  exists amap', record_legend_entry amap m = Ok amap'
    /\ forall key,
         amap' !! key = if bool_decide (legend_key m key)
                        then Some (legend_code m) else amap !! key.
Proof.
  rewrite record_legend_entry_eq. unfold legend_key.
  destruct (Nat.ltb_spec (length (legend_name m)) 3) as [Hlen|Hlen].
  - exists amap. split; [done|]. intros key.
    rewrite bool_decide_false; [done|]. intros [? _]. lia.
  - destruct (legend_name_first_word m Hlen) as [w Hw].
    unfold index. rewrite Hw. simpl.
    destruct (bool_decide (w <> legend_name m)) eqn:Hne.
    + eexists. split; [done|]. intros key.
      destruct (decide (key = w)) as [->|Hkw].
      * rewrite lookup_insert_eq, bool_decide_true; [done|]. auto.
      * rewrite lookup_insert_ne by done.
        destruct (decide (key = legend_name m)) as [->|Hkn].
        -- rewrite lookup_insert_eq, bool_decide_true; [done|]. auto.
        -- rewrite lookup_insert_ne by done.
           rewrite bool_decide_false; [done|].
           intros [_ [?|?]]; congruence.
    + apply bool_decide_eq_false in Hne. apply dec_stable in Hne as ->.
      eexists. split; [done|]. intros key.
      destruct (decide (key = legend_name m)) as [->|Hkn].
      * rewrite lookup_insert_eq, bool_decide_true; [done|]. auto.
      * rewrite lookup_insert_ne by done.
        rewrite bool_decide_false; [done|].
        intros [_ [?|?]]; congruence.
Qed.

Lemma record_entries_ok ms : forall amap,
  exists amap', for_each record_legend_entry ms amap = Ok amap'.
Proof.
  intros amap.
  destruct (for_each_ok (fun _ => True) record_legend_entry ms amap I)
    as (amap' & H & _); [|eauto].
  intros a m _ _. destruct (record_legend_entry_ok a m) as (a' & H & _).
  eauto.
Qed.

Lemma record_entries_other ms key : forall amap,
  (forall m, m ∈ ms -> ~ legend_key m key) ->
  exists amap', for_each record_legend_entry ms amap = Ok amap'
                /\ amap' !! key = amap !! key.
Proof.
  intros amap Hms.
  apply (for_each_ok (fun a => a !! key = amap !! key)); [done|].
  intros a m Hm Ha. destruct (record_legend_entry_ok a m) as (a' & H & Hk).
  exists a'. split; [done|]. rewrite Hk, bool_decide_false; [done|].
  by apply Hms.
Qed.

(** The last entry that writes a key decides its code. *)
Lemma record_entries_last ms1 m ms2 key amap :
  legend_key m key ->
  (forall m', m' ∈ ms2 -> ~ legend_key m' key) ->
  exists amap', for_each record_legend_entry (ms1 ++ m :: ms2) amap = Ok amap'
                /\ amap' !! key = Some (legend_code m).
Proof.
  intros Hkey Hlater. rewrite for_each_app.
  destruct (record_entries_ok ms1 amap) as [a1 ->]. simpl.
  destruct (record_legend_entry_ok a1 m) as (a2 & -> & Hk). simpl.
  destruct (record_entries_other ms2 key a2 Hlater) as (a3 & -> & H3).
  exists a3. split; [done|]. by rewrite H3, Hk, bool_decide_true.
Qed.

Lemma extract_allergen_mapping_eq pdf page :
  last (pages pdf) = Some page ->
  _extract_allergen_mapping pdf
  = for_each record_legend_entry
      (Re.finditer ALLERGEN_MAP_RE (extract_text page)) ∅.
Proof. intros H. unfold _extract_allergen_mapping. by rewrite H. Qed.

(** The only filter name of a padded text that is lowered to [name]. *)
Lemma lowered_items_padded ws1 c s d ws2 :
  Forall (fun c => Py.isspace c = true) ws1 ->
  Forall (fun c => Py.isspace c = true) ws2 ->
  Forall (fun c => Re.range 0x61 0x7A (Py.lower_char c) = true)
         (c :: s ++ [d]) ->
  lowered_items (ws1 ++ (c :: s ++ [d]) ++ ws2)
  = {[ Py.lower (c :: s ++ [d]) ]}.
Proof.
  intros H1 H2 Hn. unfold lowered_items.
  assert (Hstrip : Py.strip (ws1 ++ (c :: s ++ [d]) ++ ws2) = c :: s ++ [d]).
  { apply strip_by_padded; try done.
    - apply Forall_cons in Hn as [Hc _].
      by apply lower_char_letter in Hc as [? _].
    - apply Forall_cons in Hn as [_ Hn].
      apply Forall_app in Hn as [_ Hd]. apply Forall_inv in Hd.
      by apply lower_char_letter in Hd as [? _]. }
  rewrite split_on_no_sep.
  2:{ apply Forall_app. split; [|apply Forall_app; split].
      - eapply Forall_impl; [exact H1|]. apply space_not_comma.
      - eapply Forall_impl; [exact Hn|]. intros x Hx.
        by apply lower_char_letter in Hx as [_ ?].
      - eapply Forall_impl; [exact H2|]. apply space_not_comma. }
  rewrite filter_cons_True by (by rewrite Hstrip).
  rewrite filter_nil, fmap_cons, Hstrip. simpl. apply (right_id_L ∅ (∪)).
Qed.

End Legend.

(** ** The allergen parenthetical *)

Section Tail.



End Tail.

(** * The claims of the specification *)

(** ** C1: the hyphenation scenario *)

(** C1. Evaluation of the scenario: one row whose Monday cell holds the
    lines "Linsen-", "suppe" and the price line "3,50 € | 4,00 € | 4,50 €"
    gives no dish at all, for any parser: the price pattern wants the
    three characters U+201A, U+00C7, U+00A8 after each price, not the
    euro sign, so the cell has no price. With these characters in place
    of the euro sign the row gives exactly one Monday dish, of price
    3.50, category "main" and no allergens; its title is "Linsen suppe",
    with a space where the hyphen was, and not "Linsensuppe". *)
Theorem hyphenation_scenario (self : MensaParser) :
  (menu_table self
   = Some [ single_cell_row 4
              (utf8 "Linsen-" ++ LF ++ utf8 "suppe" ++ LF
               ++ euro_text "3,50" "4,00" "4,50") ] ->
   get_all_dishes self
   = Ok [ (utf8 "Montag", []); (utf8 "Dienstag", []);
          (utf8 "Mittwoch", []); (utf8 "Donnerstag", []);
          (utf8 "Freitag", []); (utf8 "Samstag", []);
          (utf8 "Sonntag", []) ])
  /\ (filter_words (config self) = ∅ ->
      menu_table self
      = Some [ single_cell_row 4
                 (utf8 "Linsen-" ++ LF ++ utf8 "suppe" ++ LF
                  ++ price_text "3,50" "4,00" "4,50") ] ->
      exists d,
        get_all_dishes self
        = Ok [ (utf8 "Montag", [d]); (utf8 "Dienstag", []);
               (utf8 "Mittwoch", []); (utf8 "Donnerstag", []);
               (utf8 "Freitag", []); (utf8 "Samstag", []);
               (utf8 "Sonntag", []) ]
        /\ title d = utf8 "Linsen suppe" /\ title d <> utf8 "Linsensuppe"
        /\ (price d == 35 # 10)%Q /\ category d = utf8 "main"
        /\ allergens d = ∅).
Proof.
  split.
  - intros Htable.
    rewrite (get_all_dishes_table self _ Htable) by done.
    destruct (_merge_table_cells _) as [merged|] eqn:Hmerged;
      vm_compute in Hmerged; [|done].
    injection Hmerged as <-.
    cbn [mbind result_bind for_each add_day fst snd]. unfold add_dish.
    erewrite parse_dish_unfold;
      [ | by vm_compute | vm_compute; reflexivity ].
    reflexivity.
  - intros Hwords Htable.
    rewrite (get_all_dishes_table self _ Htable) by done.
    destruct (_merge_table_cells _) as [merged|] eqn:Hmerged;
      vm_compute in Hmerged; [|done].
    injection Hmerged as <-.
    cbn [mbind result_bind for_each add_day fst snd]. unfold add_dish.
    erewrite parse_dish_accept;
      [ | vm_compute; reflexivity | done | vm_compute; reflexivity
        | vm_compute; reflexivity | vm_compute; lia
        | by apply no_filter_word | apply no_allergen_no_filter ].
    eexists. split; [reflexivity|].
    repeat split; by vm_compute.
Qed.

(** The scenario as the claim words it, and with the currency marker of
    the price pattern. *)
Lemma hyphenation_scenario_witness :
  let cell := utf8 "Linsen-" ++ LF ++ utf8 "suppe" ++ LF in
  get_all_dishes
    (parser_on
       (Some [single_cell_row 4 (cell ++ euro_text "3,50" "4,00" "4,50")])
       no_filters ∅)
  = Ok [ (utf8 "Montag", []); (utf8 "Dienstag", []);
         (utf8 "Mittwoch", []); (utf8 "Donnerstag", []);
         (utf8 "Freitag", []); (utf8 "Samstag", []);
         (utf8 "Sonntag", []) ]
  /\ exists d,
       get_all_dishes
         (parser_on
            (Some [single_cell_row 4
                     (cell ++ price_text "3,50" "4,00" "4,50")])
            no_filters ∅)
       = Ok [ (utf8 "Montag", [d]); (utf8 "Dienstag", []);
              (utf8 "Mittwoch", []); (utf8 "Donnerstag", []);
              (utf8 "Freitag", []); (utf8 "Samstag", []);
              (utf8 "Sonntag", []) ]
       /\ title d = utf8 "Linsen suppe" /\ title d <> utf8 "Linsensuppe"
       /\ (price d == 35 # 10)%Q /\ category d = utf8 "main"
       /\ allergens d = ∅.
Proof.
  intros cell. split.
  - apply (proj1 (hyphenation_scenario _)). reflexivity.
  - apply (proj2 (hyphenation_scenario _)).
    + vm_compute. reflexivity.
    + reflexivity.
Defined.

(** ** C2: the merge scenario *)



(** ** C3: the sticky price flag *)

(** C3. Throughout the scan at most one cell per day is open: every
    earlier cell of a day has its price. This holds at the start, is kept
    by every merge step, and so holds of the result of every table (hence
    after every row). A cell whose flag is true is never changed by a
    later step, and the plain assignment of the flag in the merge branch
    is the OR with the old flag, which is false there. *)
Theorem sticky_has_price :
  one_open_cell (empty_lists (take 5 WEEKDAYS_DE))
  /\ (forall st day t st',
        one_open_cell st -> merge_cell st day t = Ok st' -> one_open_cell st')
  /\ (forall table,
        exists st, _merge_table_cells table = Ok st /\ one_open_cell st)
  /\ (forall st day t st' d cells i c,
        merge_cell st day t = Ok st' ->
        dict_get st d = Ok cells -> cells !! i = Some c ->
        has_price c = true ->
        exists cells', dict_get st' d = Ok cells' /\ cells' !! i = Some c)
  /\ (forall st day t, merge_cell_or st day t = merge_cell st day t).
Proof.
  split; [|split; [|split; [|split]]].
  - intros day cells Hin. apply elem_of_empty_lists in Hin as ->. constructor.
  - intros st day t st'. apply merge_cell_one_open.
  - intros table. destruct (merge_table_cells_ok table) as (st & H & _).
    exists st. split; [done|]. by eapply merge_table_cells_one_open.
  - intros st day t st' d cells i c. apply merge_cell_sticky.
  - apply merge_cell_or_eq.
Qed.

(** A closed cell survives the next step of its day. *)
Lemma sticky_has_price_witness :
  let closed := {| text := utf8 "Suppe" ++ LF
                           ++ price_text "12,00" "13,00" "14,00";
                   has_price := true |} in
  let st := [(utf8 "Montag", [closed])] in
  exists st' cells',
    merge_cell st (utf8 "Montag") (utf8 "Nudeln") = Ok st'
    /\ dict_get st' (utf8 "Montag") = Ok cells'
    /\ cells' !! 0%nat = Some closed.
Proof.
  intros closed st.
  destruct (proj1 (proj2 (proj2 (proj2 sticky_has_price)))
              st (utf8 "Montag") (utf8 "Nudeln")
              [(utf8 "Montag",
                [closed; {| text := utf8 "Nudeln"; has_price := false |}])]
              (utf8 "Montag") [closed] 0%nat closed)
    as (cells' & H1 & H2); [vm_compute; reflexivity..|].
  eexists _, cells'. split; [vm_compute; reflexivity|]. by split.
Defined.

(** ** C4: the allergen parenthetical *)




(** ** C5: a missing menu page or table *)

(** C5. When the document has no page at the menu index, or that page has
    no table (none, or an empty one), [get_all_dishes] returns the mapping
    of the seven weekdays to empty lists; it does not raise. *)
Theorem missing_menu_degrades (self : MensaParser) :
  ((length (pages (pdf_content self)) <= MENU_PAGE_INDEX)%nat
   \/ exists page, pages (pdf_content self) !! MENU_PAGE_INDEX = Some page
        /\ (extract_table page = None \/ extract_table page = Some [])) ->
  get_all_dishes self =
  Ok [ (utf8 "Montag", []); (utf8 "Dienstag", []); (utf8 "Mittwoch", []);
       (utf8 "Donnerstag", []); (utf8 "Freitag", []); (utf8 "Samstag", []);
       (utf8 "Sonntag", []) ].
Proof.
  unfold get_all_dishes, index. intros [Hlen|(page & Hpage & Htable)].
  - by destruct (Nat.leb_spec (length (pages (pdf_content self)))
                   MENU_PAGE_INDEX); [|lia].
  - destruct (_ <=? _)%nat; [done|]. rewrite Hpage. simpl.
    by destruct Htable as [-> | ->].
Qed.

Lemma missing_menu_degrades_witness :
  get_all_dishes (parser_on None no_filters ∅) =
  Ok [ (utf8 "Montag", []); (utf8 "Dienstag", []); (utf8 "Mittwoch", []);
       (utf8 "Donnerstag", []); (utf8 "Freitag", []); (utf8 "Samstag", []);
       (utf8 "Sonntag", []) ].
Proof.
  apply missing_menu_degrades. right. eexists. split; [reflexivity|].
  left. reflexivity.
Defined.

(** The constructor is another matter: it reads the last page for the
    legend, and raises on a document without pages. *)
Lemma init_without_pages (config : Config) :
  MensaParser_init {| pages := [] |} config = Raise IndexError.
Proof. reflexivity. Qed.

(** ** C6: the seven weekdays *)

(** C6. Whatever the document, the legend and the filters of the parser,
    [get_all_dishes] returns a mapping whose keys are exactly the seven
    weekdays, Monday to Sunday, each once, and whose lists for Saturday
    and Sunday are empty. *)
Theorem seven_weekdays (self : MensaParser) :
  exists d, get_all_dishes self = Ok d
    /\ d.*1 = WEEKDAYS_DE /\ length d = 7%nat /\ NoDup d.*1
    /\ dict_get d (utf8 "Samstag") = Ok []
    /\ dict_get d (utf8 "Sonntag") = Ok [].
Proof.
  destruct (get_all_dishes_ok self) as (d & Hd & Hkeys & Hsat & Hsun).
  exists d. repeat split; try done.
  - rewrite <- (length_fmap fst), Hkeys. reflexivity.
  - rewrite Hkeys. apply (bool_decide_unpack (NoDup WEEKDAYS_DE)).
    by vm_compute.
Qed.

(** ** C7: the legend *)

(** C7, as stated, fails in its last part: in the legend
    "1 Soja Bohnen 2 Soja Milch" the first word of the name
    "soja bohnen", of code 1, maps to the code 2 of the later entry. *)
Lemma first_word_overwritten :
  ~ (forall pdf page m key amap,
       last (pages pdf) = Some page ->
       m ∈ Re.finditer ALLERGEN_MAP_RE (extract_text page) ->
       legend_key m key ->
       _extract_allergen_mapping pdf = Ok amap ->
       amap !! key = Some (legend_code m)).
Proof.
  intros H.
  set (pdf := menu_pdf None (utf8 "1 Soja Bohnen 2 Soja Milch")).
  assert (Hsoja : (amap ← _extract_allergen_mapping pdf;
                   Ok (amap !! utf8 "soja")) = Ok (Some (utf8 "2")))
    by (vm_compute; reflexivity).
  destruct (_extract_allergen_mapping pdf) as [amap|] eqn:Hmap; [|done].
  simpl in Hsoja. injection Hsoja as Hsoja.
  specialize (H pdf _
                {| Re.before := [];
                   Re.matched := utf8 "1 Soja Bohnen";
                   Re.m_groups := [ (2%nat, utf8 "Soja Bohnen");
                                    (1%nat, utf8 "1") ];
                   Re.after := utf8 " 2 Soja Milch" |}
                (utf8 "soja") amap eq_refl).
  rewrite Hsoja in H.
  assert (Hno : Some (utf8 "2") = Some (utf8 "1")); [|by vm_compute in Hno].
  apply H; [vm_compute; left| |exact Hmap].
  split; [vm_compute; lia|right; by vm_compute].
Qed.

(** C7, amended. The legend "28 Soja 29 Sellerie" maps "soja" to 28 and
    "sellerie" to 29; a filter name that is "Soja" in any letter case,
    with white space around it, resolves to the code 28; and every
    legend entry writes its code under its name and under the first word
    of its name, which the mapping keeps unless a later entry writes the
    same key (the last write wins). *)
Theorem legend_resolution :
  (forall pdf page config ws1 name ws2,
     last (pages pdf) = Some page ->
     extract_text page = utf8 "28 Soja 29 Sellerie" ->
     filter_allergens_raw config = ws1 ++ name ++ ws2 ->
     Forall (fun c => Py.isspace c = true) ws1 ->
     Forall (fun c => Py.isspace c = true) ws2 ->
     Py.lower name = utf8 "soja" ->
     exists parser,
       MensaParser_init pdf config = Ok parser
       /\ allergen_map parser
          = {[ utf8 "soja" := utf8 "28"; utf8 "sellerie" := utf8 "29" ]}
       /\ filter_allergen_names config = {[ utf8 "soja" ]}
       /\ filter_allergen_numbers parser = {[ utf8 "28" ]})
  /\ (forall pdf page ms1 m ms2 key,
        last (pages pdf) = Some page ->
        Re.finditer ALLERGEN_MAP_RE (extract_text page) = ms1 ++ m :: ms2 ->
        legend_key m key ->
        (forall m', m' ∈ ms2 -> ~ legend_key m' key) ->
        exists amap,
          _extract_allergen_mapping pdf = Ok amap
          /\ amap !! key = Some (legend_code m)).
Proof.
  split.
  - intros pdf page config ws1 name ws2 Hlast Htext Hraw H1 H2 Hname.
    unfold MensaParser_init.
    rewrite (extract_allergen_mapping_eq pdf page Hlast), Htext.
    assert (Hnames : filter_allergen_names config = {[ utf8 "soja" ]}).
    { unfold filter_allergen_names. rewrite Hraw.
      assert (Hletters : Forall (fun o => Re.range 0x61 0x7A o = true)
                                (Py.lower_from false name)).
      { fold (Py.lower name). rewrite Hname. by repeat constructor. }
      apply lower_from_letters in Hletters as [Heq Hall].
      assert (Hlen : length name = 4%nat).
      { rewrite <- (length_fmap Py.lower_char), <- Heq.
        fold (Py.lower name). by rewrite Hname. }
      destruct name as [|c1 [|c2 [|c3 [|c4 [|c5 name]]]]]; try done.
      change [c1; c2; c3; c4] with (c1 :: [c2; c3] ++ [c4]) in *.
      by rewrite lowered_items_padded, Hname. }
    assert (Hmap : for_each record_legend_entry
                     (Re.finditer ALLERGEN_MAP_RE (utf8 "28 Soja 29 Sellerie"))
                     ∅
                   = Ok {[ utf8 "soja" := utf8 "28";
                           utf8 "sellerie" := utf8 "29" ]})
      by (vm_compute; reflexivity).
    rewrite Hmap. eexists. split; [reflexivity|]. simpl.
    split; [done|]. split; [done|].
    unfold _resolve_filter_allergens. rewrite Hnames. by vm_compute.
  - intros pdf page ms1 m ms2 key Hlast Hms Hkey Hlater.
    rewrite (extract_allergen_mapping_eq pdf page Hlast), Hms.
    by apply record_entries_last.
Qed.

(** The filter name " SoJa " on the legend "28 Soja 29 Sellerie". *)
Lemma legend_resolution_witness :
  exists parser,
    MensaParser_init (menu_pdf None (utf8 "28 Soja 29 Sellerie"))
      {| filter_words_raw := []; filter_allergens_raw := utf8 " SoJa ";
         debug_mode := false |}
    = Ok parser
    /\ allergen_map parser
       = {[ utf8 "soja" := utf8 "28"; utf8 "sellerie" := utf8 "29" ]}
    /\ filter_allergen_names
         {| filter_words_raw := []; filter_allergens_raw := utf8 " SoJa ";
            debug_mode := false |}
       = {[ utf8 "soja" ]}
    /\ filter_allergen_numbers parser = {[ utf8 "28" ]}.
Proof.
  eapply (proj1 legend_resolution _ _ _ (utf8 " ") (utf8 "SoJa") (utf8 " ")).
  - reflexivity.
  - reflexivity.
  - reflexivity.
  - vm_compute. repeat constructor.
  - vm_compute. repeat constructor.
  - vm_compute. reflexivity.
Defined.

(** ** C8: when a cell is rejected *)

(** C8. For a cell text with at least one non-blank line the extractor
    never raises, and it returns no dish exactly when no line matches the
    price pattern, or the final title has fewer than five characters, or
    the lowercased title contains a configured filter word, or the
    allergen codes of the dish meet the resolved filter codes. A cell
    that only reads "Nudeln" gives no dish. *)
Theorem rejection_iff (self : MensaParser) (cell_text : str) :
  cell_lines cell_text <> [] ->
  let lines := cell_lines cell_text in
  let title := (title_and_allergens (full_title lines)).1 in
  let allergens := (title_and_allergens (full_title lines)).2 in
  (exists r, _parse_dish_from_cell self cell_text = Ok r)
  /\ (_parse_dish_from_cell self cell_text = Ok None <->
      Forall (fun line => Re.search PRICE_LINE_RE line = None) lines
      \/ (length title < 5)%nat
      \/ (exists word, word ∈ filter_words (config self)
                       /\ Py.contains word (Py.lower title) = true)
      \/ (exists code, code ∈ allergens
                       /\ code ∈ filter_allergen_numbers self))
  /\ (forall parser, _parse_dish_from_cell parser (utf8 "Nudeln") = Ok None).
Proof.
  intros Hne lines title allergens.
  split; [apply parse_dish_ok|]. split; [|intros parser; by vm_compute].
  destruct (cell_price_ok lines) as (p & Hp & Hnone).
  rewrite (parse_dish_unfold self cell_text p Hne Hp).
  rewrite <- price_line_None, <- Hnone.
  rewrite <- has_filter_word_true, <- has_filter_allergen_true.
  cbv zeta. fold lines title allergens.
  destruct p as [q|]; [|by split; auto].
  destruct (Nat.ltb_spec (length title) 5); [by split; auto|].
  destruct (has_filter_word self title); [by split; auto|].
  destruct (has_filter_allergen self allergens); [by split; auto|].
  split; [done|]. intros [?|[?|[?|?]]]; done || lia.
Qed.

(** A priced cell whose title has four characters is dropped. *)
Lemma rejection_iff_witness :
  _parse_dish_from_cell (parser_on None no_filters ∅)
    (utf8 "Brot" ++ LF ++ price_text "1,00" "1,20" "1,50")
  = Ok None.
Proof.
  apply (fun H => proj1 (proj2
           (rejection_iff (parser_on None no_filters ∅)
              (utf8 "Brot" ++ LF ++ price_text "1,00" "1,20" "1,50") H))).
  - by vm_compute.
  - right. left. vm_compute. lia.
Defined.

(** ** C9: the category of a dish *)

(** C9. Every dish that the extractor produces is a side dish exactly
    when its price is at most 1.00 and a main dish otherwise; so a price
    of 1.00 makes a side dish and a price of 1.01 a main dish. *)
Theorem category_boundary (self : MensaParser) (cell_text : str) (d : Dish) :
  _parse_dish_from_cell self cell_text = Ok (Some d) ->
  (category d = utf8 "side" <-> (price d <= 1)%Q)
  /\ (category d = utf8 "main" <-> ~ (price d <= 1)%Q)
  /\ ((price d == 1)%Q -> category d = utf8 "side")
  /\ ((price d == 101 # 100)%Q -> category d = utf8 "main").
Proof.
  intros H.
  assert (Hcat : category d = if Qle_bool (price d) 1 then utf8 "side"
                              else utf8 "main").
  { destruct (decide (cell_lines cell_text = [])) as [Hnil|Hne].
    - unfold _parse_dish_from_cell in H.
      by rewrite bool_decide_true in H by done.
    - destruct (cell_price_ok (cell_lines cell_text)) as (p & Hp & _).
      rewrite (parse_dish_unfold self cell_text p Hne Hp) in H.
      cbv zeta in H. destruct p; [|done].
      repeat (destruct (_ : bool) in H; [done|]). by simplify_eq. }
  rewrite Hcat. pose proof (Qle_bool_iff (price d) 1) as Hle.
  destruct (Qle_bool (price d) 1).
  - assert (price d <= 1)%Q by by apply Hle.
    repeat split; try done.
    intros Hq. rewrite Hq in *. done.
  - assert (~ (price d <= 1)%Q) by (intros ?; by apply Hle in H0).
    repeat split; try done.
    intros Hq. rewrite Hq in *. exfalso. apply H0. done.
Qed.

(** A roll at 1,00 is a side dish and one at 1,01 a main dish. *)
Lemma category_boundary_witness :
  let parser := parser_on None no_filters ∅ in
  (exists d, _parse_dish_from_cell parser
               (utf8 "Brötchen" ++ LF ++ price_text "1,00" "1,20" "1,50")
             = Ok (Some d)
             /\ (price d == 1)%Q /\ category d = utf8 "side")
  /\ (exists d, _parse_dish_from_cell parser
                  (utf8 "Brötchen" ++ LF ++ price_text "1,01" "1,20" "1,50")
                = Ok (Some d)
                /\ (price d == 101 # 100)%Q /\ category d = utf8 "main").
Proof.
  intros parser. split.
  - eexists. split; [vm_compute; reflexivity|]. split; [reflexivity|].
    eapply (category_boundary parser
              (utf8 "Brötchen" ++ LF ++ price_text "1,00" "1,20" "1,50"));
      [vm_compute; reflexivity|reflexivity].
  - eexists. split; [vm_compute; reflexivity|]. split; [reflexivity|].
    eapply (category_boundary parser
              (utf8 "Brötchen" ++ LF ++ price_text "1,01" "1,20" "1,50"));
      [vm_compute; reflexivity|reflexivity].
Defined.

(** ** C10: the columns that are not day columns *)

(** C10. Two tables with the same number of rows, whose rows have the
    same lengths and agree on the columns 4, 8, 12, 16 and 20, are merged
    into the same cells, and two parsers with the same filters give the
    same dishes on them: no other column has any influence. *)
Theorem unused_columns_ignored (table1 table2 : list (list (option str))) :
  Forall2 same_day_columns table1 table2 ->
  _merge_table_cells table1 = _merge_table_cells table2
  /\ forall self1 self2,
       config self1 = config self2 ->
       filter_allergen_numbers self1 = filter_allergen_numbers self2 ->
       menu_table self1 = Some table1 -> menu_table self2 = Some table2 ->
       get_all_dishes self1 = get_all_dishes self2.
Proof.
  intros Hrows.
  assert (Hmerge : _merge_table_cells table1 = _merge_table_cells table2)
    by by apply same_day_columns_table.
  split; [done|]. intros self1 self2 Hc Hf H1 H2.
  destruct Hrows as [|row1 row2 t1 t2 Hrow Hrows].
  - by rewrite !get_all_dishes_empty_table.
  - rewrite (get_all_dishes_table self1 _ H1), (get_all_dishes_table self2 _ H2)
      by done.
    rewrite Hmerge. destruct (_merge_table_cells (row2 :: t2)); [|done].
    simpl. apply for_each_ext. intros d item _. unfold add_day.
    apply for_each_ext. intros d' cell _. unfold add_dish.
    by rewrite (parse_dish_ext self1 self2).
Qed.

(** A note in the first column changes nothing. *)
Lemma unused_columns_ignored_witness :
  let row := single_cell_row 4
               (utf8 "Eintopf" ++ LF ++ price_text "3,50" "4,00" "4,50") in
  _merge_table_cells [row]
  = _merge_table_cells [<[0%nat := Some (utf8 "Woche 12")]> row].
Proof.
  intros row.
  apply (unused_columns_ignored [row] [<[0%nat := Some (utf8 "Woche 12")]> row]).
  repeat constructor.
  intros col Hcol. unfold DISH_COLUMN_INDICES in Hcol.
  rewrite !elem_of_cons in Hcol.
  destruct Hcol as [->|[->|[->|[->|[->|Hcol]]]]];
    [reflexivity..|by apply elem_of_nil in Hcol].
Defined.

(** * Further properties of the code *)

(** ** More on strings *)

Section MoreStrings.

Lemma lstrip_by_idem p s :
  Py.lstrip_by p (Py.lstrip_by p s) = Py.lstrip_by p s.
Proof.
  destruct (Py.lstrip_by p s) as [|c r] eqn:H; [done|].
  apply lstrip_by_head. by eapply lstrip_by_head_false.
Qed.

Lemma lstrip_by_strip s : Py.lstrip_by Py.isspace (Py.strip s) = Py.strip s.
Proof.
  destruct (Py.strip s) as [|c r] eqn:H; [done|].
  apply lstrip_by_head. by eapply strip_head.
Qed.

(** Stripping twice is stripping once. *)
Lemma strip_strip s : Py.strip (Py.strip s) = Py.strip s.
Proof.
  unfold Py.strip at 1. unfold Py.strip_by.
  fold (Py.strip s). rewrite lstrip_by_strip.
  unfold Py.strip, Py.strip_by. by rewrite rev_involutive, lstrip_by_idem.
Qed.

Lemma lstrip_by_all p s :
  Forall (fun c => p c = false) s -> Py.lstrip_by p s = s.
Proof. destruct 1 as [|c s Hc _]; [done|]. by apply lstrip_by_head. Qed.

(** A text without white space is its own strip. *)
Lemma strip_no_space s :
  Forall (fun c => Py.isspace c = false) s -> Py.strip s = s.
Proof.
  intros H. unfold Py.strip, Py.strip_by.
  rewrite (lstrip_by_all _ s H), lstrip_by_all, rev_involutive; [done|].
  by apply Forall_rev.
Qed.

Lemma lstrip_by_nil p s :
  Py.lstrip_by p s = [] <-> Forall (fun c => p c = true) s.
Proof.
  induction s as [|c s IH]; simpl; [by split|].
  destruct (p c) eqn:Hc.
  - rewrite IH. split; [by constructor|]. intros H.
    by apply Forall_cons in H as [_ H].
  - split; [done|]. intros H. apply Forall_cons in H as [H _]. congruence.
Qed.

Lemma lstrip_by_split p s :
  exists pre, s = pre ++ Py.lstrip_by p s /\ Forall (fun c => p c = true) pre.
Proof.
  induction s as [|x s (pre & IH & Hpre)]; simpl; [by exists []|].
  destruct (p x) eqn:Hx; [|by exists []].
  exists (x :: pre). split; [simpl; by f_equal|by constructor].
Qed.

(** A text is its strip between two runs of white space. *)
Lemma strip_split s :
  exists pre post,
    s = pre ++ Py.strip s ++ post
    /\ Forall (fun c => Py.isspace c = true) pre
    /\ Forall (fun c => Py.isspace c = true) post.
Proof.
  unfold Py.strip, Py.strip_by.
  destruct (lstrip_by_split Py.isspace s) as (pre & Hs & Hpre).
  destruct (lstrip_by_split Py.isspace (rev (Py.lstrip_by Py.isspace s)))
    as (post & Hr & Hpost).
  exists pre, (rev post). split; [|split; [done|by apply Forall_rev]].
  rewrite Hs at 1. f_equal.
  apply (f_equal (@rev N)) in Hr.
  by rewrite rev_involutive, rev_app_distr in Hr.
Qed.

(** The strip of a text is empty exactly when the text is white space. *)
Lemma strip_nil s :
  Py.strip s = [] <-> Forall (fun c => Py.isspace c = true) s.
Proof.
  split.
  - intros H. destruct (strip_split s) as (pre & post & Hs & H1 & H2).
    rewrite Hs, H. simpl. by apply Forall_app.
  - intros H. unfold Py.strip, Py.strip_by.
    by rewrite (proj2 (lstrip_by_nil _ s) H).
Qed.

Lemma strip_not_nil s :
  Py.strip s <> [] <-> exists c, c ∈ s /\ Py.isspace c = false.
Proof.
  rewrite strip_nil. split.
  - intros H. apply not_Forall_Exists in H; [|apply _].
    apply Exists_exists in H as (c & Hc & H). exists c. split; [done|].
    simpl in H. by destruct (Py.isspace c).
  - intros (c & Hc & H) Hall. rewrite Forall_forall in Hall.
    apply Hall in Hc. congruence.
Qed.

End MoreStrings.

(** ** What a dish is *)

Section Dishes.





(** The parts of a dish that the extractor returns. *)
Lemma parse_dish_Some self cell_text d :
  _parse_dish_from_cell self cell_text = Ok (Some d) ->
  let lines := cell_lines cell_text in
  let ta := title_and_allergens (full_title lines) in
  lines <> [] /\ cell_price lines = Ok (Some (price d))
  /\ title d = ta.1 /\ allergens d = ta.2
  /\ category d = (if Qle_bool (price d) 1 then utf8 "side" else utf8 "main")
  /\ (5 <= length ta.1)%nat
  /\ has_filter_word self ta.1 = false
  /\ has_filter_allergen self ta.2 = false.
Proof.
  intros H lines ta.
  destruct (decide (lines = [])) as [Hnil|Hne].
  { unfold _parse_dish_from_cell in H. fold lines in H.
    by rewrite bool_decide_true in H by done. }
  destruct (cell_price_ok lines) as (p & Hp & _).
  rewrite (parse_dish_unfold self cell_text p Hne Hp) in H.
  cbv zeta in H. fold lines ta in H. destruct p as [q|]; [|done].
  destruct (Nat.ltb_spec (length ta.1) 5); [done|].
  destruct (has_filter_word self ta.1) eqn:Hw; [done|].
  destruct (has_filter_allergen self ta.2) eqn:Ha; [done|].
  by simplify_eq.
Qed.

Lemma title_stripped t :
  Py.strip t = t -> Py.strip (title_and_allergens t).1 = (title_and_allergens t).1.
Proof.
  intros Ht. unfold title_and_allergens.
  destruct (Re.match_ ALLERGEN_TAIL_RE t); simpl; [apply strip_strip|done].
Qed.

Lemma full_title_stripped lines :
  Py.strip (full_title lines) = full_title lines.
Proof. apply strip_strip. Qed.

Lemma allergen_codes_stripped tail code :
  code ∈ allergen_codes tail -> code <> [] /\ Py.strip code = code.
Proof.
  unfold allergen_codes. rewrite elem_of_list_to_set, list_elem_of_fmap.
  intros (piece & -> & Hin). apply list_elem_of_filter in Hin as [Hne _].
  split; [done|apply strip_strip].
Qed.

Lemma allergens_stripped t code :
  code ∈ (title_and_allergens t).2 -> code <> [] /\ Py.strip code = code.
Proof.
  unfold title_and_allergens.
  destruct (Re.match_ ALLERGEN_TAIL_RE t); simpl;
    [apply allergen_codes_stripped|set_solver].
Qed.

End Dishes.

(** X1. Every dish that the extractor returns has a title of five
    characters or more that neither begins nor ends with white space, is a
    main or a side dish, has none of the filter words in its lowered
    title and none of the filter codes among its allergens, and its
    allergen codes are non-empty and stripped. *)
Theorem dish_well_formed (self : MensaParser) (cell_text : str) (d : Dish) :
  _parse_dish_from_cell self cell_text = Ok (Some d) ->
  (5 <= length (title d))%nat
  /\ Py.strip (title d) = title d
  /\ (category d = utf8 "side" \/ category d = utf8 "main")
  /\ (forall word, word ∈ filter_words (config self) ->
                   Py.contains word (Py.lower (title d)) = false)
  /\ (forall code, code ∈ allergens d ->
                   (code ∉ filter_allergen_numbers self)
                   /\ code <> [] /\ Py.strip code = code).
Proof.
  intros H.
  apply parse_dish_Some in H as (_ & _ & Ht & Ha & Hc & Hlen & Hw & Hf).
  rewrite Ht, Ha, Hc. split; [done|]. split.
  { apply title_stripped, full_title_stripped. }
  split; [destruct (Qle_bool _ _); auto|]. split.
  - intros word Hword. apply not_true_is_false. intros Hin.
    assert (has_filter_word self
              (title_and_allergens (full_title (cell_lines cell_text))).1
            = true); [|congruence].
    apply has_filter_word_true. eauto.
  - intros code Hcode. split; [|by eapply allergens_stripped].
    intros Hin.
    assert (has_filter_allergen self
              (title_and_allergens (full_title (cell_lines cell_text))).2
            = true); [|congruence].
    apply has_filter_allergen_true. eauto.
Qed.

(** The dish of the goulash cell, for a parser with filters. *)
Lemma dish_well_formed_witness :
  (5 <= length (title gulasch))%nat
  /\ Py.strip (title gulasch) = title gulasch
  /\ (category gulasch = utf8 "side" \/ category gulasch = utf8 "main")
  /\ (forall word, word ∈ filter_words (config (strict_parser None)) ->
                   Py.contains word (Py.lower (title gulasch)) = false)
  /\ (forall code, code ∈ allergens gulasch ->
                   (code ∉ filter_allergen_numbers (strict_parser None))
                   /\ code <> [] /\ Py.strip code = code).
Proof.
  apply (dish_well_formed (strict_parser None) gulasch_cell gulasch).
  vm_compute. reflexivity.
Defined.



(** X3. The filters decide whether a cell gives a dish, never which dish:
    two parsers that both accept a cell return the same dish, and a
    parser without filters accepts whatever any parser accepts. *)
Theorem dish_independent_of_filters (self1 self2 : MensaParser)
    (cell_text : str) (d1 : Dish) :
  _parse_dish_from_cell self1 cell_text = Ok (Some d1) ->
  (forall d2, _parse_dish_from_cell self2 cell_text = Ok (Some d2) -> d2 = d1)
  /\ (filter_words (config self2) = ∅ ->
      filter_allergen_numbers self2 = ∅ ->
      _parse_dish_from_cell self2 cell_text = Ok (Some d1)).
Proof.
  intros H1.
  apply parse_dish_Some in H1 as (Hne & Hp & Ht & Ha & Hc & Hlen & _).
  split.
  - intros d2 H2.
    apply parse_dish_Some in H2 as (_ & Hp2 & Ht2 & Ha2 & Hc2 & _).
    assert (price d2 = price d1) as Hpr by congruence.
    rewrite Hpr in Hc2. destruct d1, d2; simpl in *. congruence.
  - intros Hw Hf.
    rewrite (parse_dish_accept self2 cell_text _ (price d1) (title d1)
               (allergens d1) eq_refl Hne Hp).
    + rewrite <- Hc. by destruct d1.
    + rewrite Ht, Ha. by destruct (title_and_allergens _).
    + by rewrite Ht.
    + by apply no_filter_word.
    + unfold has_filter_allergen. rewrite Hf.
      by rewrite bool_decide_false by (by intros []).
Qed.

(** A parser without filters reads the same goulash. *)
Lemma dish_independent_of_filters_witness :
  _parse_dish_from_cell (parser_on None no_filters ∅) gulasch_cell
  = Ok (Some gulasch).
Proof.
  apply (proj2 (dish_independent_of_filters (strict_parser None)
                  (parser_on None no_filters ∅) gulasch_cell gulasch
                  ltac:(vm_compute; reflexivity)));
    vm_compute; reflexivity.
Defined.

(** ** The merger column by column *)

Section Columns.

Lemma merge_cell_into st day t st' :
  merge_cell st day t = Ok st' ->
  exists cells, dict_get st day = Ok cells
                /\ st' = dict_set st day (merge_into cells t).
Proof.
  intros H. destruct (dict_get st day) as [cells|] eqn:Hget.
  - rewrite (merge_cell_eq st day t cells Hget) in H. simplify_eq. eauto.
  - unfold merge_cell in H. by rewrite Hget in H.
Qed.

(** What a row does to the cells of a day: its cell of the column of the
    day is merged, the cells of the other columns play no part. *)
Lemma merge_days_get row dcs : forall st st' day cells,
  NoDup dcs.*1 ->
  for_each (merge_day row) dcs st = Ok st' ->
  dict_get st day = Ok cells ->
  (forall col, (day, col) ∈ dcs ->
     dict_get st' day
     = Ok match row !! col with
          | Some cell =>
            if blank cell then cells else merge_into cells (default [] cell)
          | None => cells
          end)
  /\ (day ∉ dcs.*1 -> dict_get st' day = Ok cells).
Proof.
  induction dcs as [|[d0 c0] dcs IH]; intros st st' day cells Hnd H Hget.
  { simpl in H. simplify_eq. split; [|done]. intros col Hin.
    by apply elem_of_nil in Hin. }
  rewrite fmap_cons in Hnd. apply NoDup_cons in Hnd as [Hd0 Hnd].
  simpl in H. destruct (merge_day row st (d0, c0)) as [st1|] eqn:H1; [|done].
  simpl in H. unfold merge_day, index in H1. simpl in H1.
  destruct (row !! c0) as [cell|] eqn:Hcell; [|done]. simpl in H1.
  assert (Hst1 : dict_get st1 day
                 = Ok (if decide (day = d0)
                       then if blank cell then cells
                            else merge_into cells (default [] cell)
                       else cells)).
  { destruct (blank cell).
    - simplify_eq. by destruct (decide (day = d0)).
    - apply merge_cell_into in H1 as (cells0 & Hget0 & ->).
      destruct (decide (day = d0)) as [->|Hne].
      + rewrite dict_get_set. congruence.
      + by rewrite dict_get_set_ne. }
  destruct (IH st1 st' day _ Hnd H Hst1) as [IH1 IH2].
  split.
  - intros col Hin. apply elem_of_cons in Hin as [Heq|Hin].
    + simplify_eq. rewrite decide_True in IH2 by done.
      rewrite IH2 by done. by rewrite Hcell.
    + assert (day <> d0) as Hne.
      { intros ->. apply Hd0. by apply (list_elem_of_fmap_2 fst) in Hin. }
      rewrite decide_False in IH1 by done. by apply IH1.
  - intros Hnin. rewrite fmap_cons in Hnin.
    apply not_elem_of_cons in Hnin as [Hne Hnin]. simpl in Hne.
    rewrite decide_False in IH2 by done. by apply IH2.
Qed.

Lemma day_columns_NoDup : NoDup day_columns.*1.
Proof. apply (bool_decide_unpack _). by vm_compute. Qed.

Lemma merge_row_get st row st' day col cells :
  (day, col) ∈ day_columns ->
  merge_row st row = Ok st' -> dict_get st day = Ok cells ->
  dict_get st' day
  = Ok match day_cell col row with
       | Some t => merge_into cells t
       | None => cells
       end.
Proof.
  intros Hdc H Hget. unfold merge_row in H. unfold day_cell.
  destruct (_ || _); [by simplify_eq|].
  destruct (merge_days_get row day_columns st st' day cells
              day_columns_NoDup H Hget) as [Hin _].
  rewrite (Hin col Hdc). destruct (row !! col) as [cell|]; [|done].
  destruct (blank cell) eqn:Hb; [done|]. by destruct cell.
Qed.

(** The cells of a day are the texts of its column, merged in turn. *)
Lemma merge_rows_get table : forall st st' day col cells,
  (day, col) ∈ day_columns ->
  for_each merge_row table st = Ok st' -> dict_get st day = Ok cells ->
  dict_get st' day = Ok (fold_left merge_into (column_texts col table) cells).
Proof.
  induction table as [|row table IH]; intros st st' day col cells Hdc H Hget.
  { simpl in H. by simplify_eq. }
  simpl in H. destruct (merge_row st row) as [st1|] eqn:H1; [|done].
  simpl in H. pose proof (merge_row_get _ _ _ _ _ _ Hdc H1 Hget) as Hget1.
  rewrite (IH _ _ _ _ _ Hdc H Hget1). unfold column_texts. simpl.
  by destruct (day_cell col row).
Qed.

Lemma join_cons sep x l :
  l <> [] -> Py.join sep (x :: l) = x ++ sep ++ Py.join sep l.
Proof. by destruct l. Qed.

Lemma join_merge sep l1 a b l2 :
  Py.join sep (l1 ++ (a ++ sep ++ b) :: l2)
  = Py.join sep (l1 ++ a :: b :: l2).
Proof.
  induction l1 as [|x l1 IH].
  - simpl. destruct l2; [done|]. by rewrite <- !app_assoc.
  - rewrite <- !app_comm_cons, !join_cons, IH; [done| |];
      by destruct l1.
Qed.

Lemma merge_into_texts cells t ts :
  Py.join LF ((text <$> merge_into cells t) ++ ts)
  = Py.join LF ((text <$> cells) ++ t :: ts).
Proof.
  unfold merge_into. destruct (last cells) as [c|] eqn:Hlast.
  - apply last_Some in Hlast as [init ->]. rewrite removelast_last.
    destruct (has_price c).
    + by rewrite fmap_app, <- app_assoc.
    + rewrite !fmap_app, <- !app_assoc.
      exact (join_merge LF (text <$> init) (text c) t ts).
  - apply last_None in Hlast as ->. done.
Qed.

Lemma fold_merge_into_texts ts : forall cells,
  Py.join LF (text <$> fold_left merge_into ts cells)
  = Py.join LF ((text <$> cells) ++ ts).
Proof.
  induction ts as [|t ts IH]; intros cells; simpl.
  - by rewrite app_nil_r.
  - by rewrite IH, merge_into_texts.
Qed.

Lemma merged_column table day col :
  (day, col) ∈ day_columns ->
  exists merged_cells,
    _merge_table_cells table = Ok merged_cells
    /\ dict_get merged_cells day
       = Ok (fold_left merge_into (column_texts col table) []).
Proof.
  intros Hdc. destruct (merge_table_cells_ok table) as (st & H & _).
  exists st. split; [done|].
  apply (merge_rows_get table _ _ _ _ _ Hdc H).
  apply dict_get_empty_lists. by eapply day_columns_day.
Qed.

End Columns.

(** X4. The merger treats the day columns independently: the cells of a
    day are the non-blank texts of its column in the rows that are long
    enough, merged one after the other from the top. *)
Theorem merge_by_column (table : list (list (option str))) (day : str)
    (col : nat) :
  (day, col) ∈ day_columns ->
  exists merged_cells,
    _merge_table_cells table = Ok merged_cells
    /\ dict_get merged_cells day
       = Ok (fold_left merge_into (column_texts col table) []).
Proof. apply merged_column. Qed.

(** The Monday column of the sample table. *)
Lemma merge_by_column_witness :
  exists merged_cells,
    _merge_table_cells monday_table = Ok merged_cells
    /\ dict_get merged_cells (utf8 "Montag")
       = Ok (fold_left merge_into (column_texts 4 monday_table) []).
Proof. apply (merge_by_column monday_table (utf8 "Montag") 4). left. Defined.

(** X5. Merging loses nothing: the texts of the cells of a day, joined
    by line feeds, are the non-blank texts of its column joined by line
    feeds, in the order of the rows. *)
Theorem merge_keeps_text (table : list (list (option str))) (day : str)
    (col : nat) (merged_cells : dict (list Cell)) (cells : list Cell) :
  (day, col) ∈ day_columns ->
  _merge_table_cells table = Ok merged_cells ->
  dict_get merged_cells day = Ok cells ->
  Py.join LF (text <$> cells) = Py.join LF (column_texts col table).
Proof.
  intros Hdc H Hget.
  rewrite (merge_rows_get table _ _ day col [] Hdc H) in Hget.
  - simplify_eq. by rewrite fold_merge_into_texts.
  - apply dict_get_empty_lists. by eapply day_columns_day.
Qed.

(** The texts of the Monday column of the sample table. *)
Lemma merge_keeps_text_witness :
  exists merged_cells cells,
    _merge_table_cells monday_table = Ok merged_cells
    /\ dict_get merged_cells (utf8 "Montag") = Ok cells
    /\ Py.join LF (text <$> cells)
       = Py.join LF (column_texts 4 monday_table).
Proof.
  eexists _, _. split; [vm_compute; reflexivity|].
  split; [vm_compute; reflexivity|].
  eapply (merge_keeps_text monday_table (utf8 "Montag") 4);
    [left|vm_compute; reflexivity..].
Defined.

(** ** Lines *)

Section Lines.

Lemma splitlines_nil s : Py.splitlines s = [] -> s = [].
Proof.
  destruct s as [|c s]; [done|]. simpl.
  destruct (Py.islinebreak c); [done|]. by destruct (Py.splitlines s).
Qed.

Lemma splitlines_break c s :
  Py.islinebreak c = true ->
  Py.splitlines (c :: s)
  = [] :: match s with
          | c' :: s'' =>
            if (c =? 0x0D) && (c' =? 0x0A) then Py.splitlines s''
            else Py.splitlines s
          | [] => []
          end.
Proof. intros H. simpl. by rewrite H. Qed.

Lemma splitlines_char c s :
  Py.islinebreak c = false ->
  Py.splitlines (c :: s)
  = match Py.splitlines s with
    | [] => [[c]]
    | l :: ls => (c :: l) :: ls
    end.
Proof. intros H. simpl. by rewrite H. Qed.

Lemma splitlines_LF b : Py.splitlines (LF ++ b) = [] :: Py.splitlines b.
Proof. unfold LF. simpl. by destruct b. Qed.

(** The lines of two texts joined by a line feed are the lines of the
    first, then perhaps an empty line, then the lines of the second. *)
Lemma splitlines_app_LF a b :
  exists extra, (extra = [] \/ extra = [[]])
    /\ Py.splitlines (a ++ LF ++ b)
       = Py.splitlines a ++ extra ++ Py.splitlines b.
Proof.
  remember (length a) as n eqn:Hn.
  revert a Hn. induction n as [n IH] using lt_wf_ind. intros a Hn.
  destruct a as [|c a].
  { exists [[]]. split; [by right|].
    change ([] ++ LF ++ b) with (LF ++ b). by rewrite splitlines_LF. }
  simpl in Hn. rewrite <- app_comm_cons.
  destruct (Py.islinebreak c) eqn:Hc.
  - rewrite !splitlines_break by done.
    destruct a as [|c' a].
    + simpl app. destruct (c =? 0x0D) eqn:Hcr; simpl andb; cbv iota.
      * exists []. split; [by left|done].
      * exists [[]]. split; [by right|].
        change (0x0A :: b) with (LF ++ b). by rewrite splitlines_LF.
    + rewrite <- app_comm_cons.
      destruct ((c =? 0x0D) && (c' =? 0x0A)).
      * destruct (IH (length a) ltac:(simpl in Hn; lia) a eq_refl)
          as (extra & He & ->).
        exists extra. by split.
      * rewrite app_comm_cons.
        destruct (IH (length (c' :: a)) ltac:(lia) (c' :: a) eq_refl)
          as (extra & He & ->).
        exists extra. by split.
  - rewrite !splitlines_char by done.
    destruct a as [|c' a].
    + exists []. split; [by left|].
      change ([] ++ LF ++ b) with (LF ++ b). by rewrite splitlines_LF.
    + destruct (IH (length (c' :: a)) ltac:(lia) (c' :: a) eq_refl)
        as (extra & He & ->).
      destruct (Py.splitlines (c' :: a)) as [|l ls] eqn:Hl.
      { by apply splitlines_nil in Hl. }
      exists extra. by split.
Qed.

Lemma no_price_in_empty_line : Re.search PRICE_LINE_RE [] = None.
Proof. by vm_compute. Qed.

(** A price line of two texts joined by a line feed is a price line of
    one of them. *)
Lemma any_price_line_app a b :
  any_price_line (a ++ LF ++ b) = any_price_line a || any_price_line b.
Proof.
  unfold any_price_line.
  destruct (splitlines_app_LF a b) as (extra & He & ->).
  rewrite !existsb_app.
  destruct He as [-> | ->]; simpl; by rewrite ?no_price_in_empty_line.
Qed.

(** The non-blank lines of two texts joined by a line feed. *)
Lemma cell_lines_app a b :
  cell_lines (a ++ LF ++ b) = cell_lines a ++ cell_lines b.
Proof.
  unfold cell_lines.
  destruct (splitlines_app_LF a b) as (extra & He & ->).
  rewrite !filter_app, !fmap_app.
  by destruct He as [-> | ->].
Qed.

Lemma elem_of_splitlines s c :
  c ∈ s -> Py.islinebreak c = false ->
  exists line, line ∈ Py.splitlines s /\ c ∈ line.
Proof.
  remember (length s) as n eqn:Hn.
  revert s Hn. induction n as [n IH] using lt_wf_ind. intros s Hn Hin Hc.
  destruct s as [|x s]; [by apply elem_of_nil in Hin|]. simpl in Hn.
  destruct (Py.islinebreak x) eqn:Hx.
  - apply elem_of_cons in Hin as [->|Hin]; [congruence|].
    rewrite splitlines_break by done.
    destruct s as [|c' s]; [by apply elem_of_nil in Hin|].
    destruct ((x =? 0x0D) && (c' =? 0x0A)) eqn:Hcr.
    + apply elem_of_cons in Hin as [->|Hin].
      { apply andb_true_iff in Hcr as [_ Hcr]. apply N.eqb_eq in Hcr.
        subst. by vm_compute in Hc. }
      destruct (IH (length s) ltac:(simpl in Hn; lia) s eq_refl Hin Hc)
        as (line & Hl & Hcl).
      exists line. split; [by right|done].
    + destruct (IH (length (c' :: s)) ltac:(lia) (c' :: s) eq_refl Hin Hc)
        as (line & Hl & Hcl).
      exists line. split; [by right|done].
  - rewrite splitlines_char by done.
    apply elem_of_cons in Hin as [->|Hin].
    + destruct (Py.splitlines s) as [|l ls]; eexists; (split; [left|left]).
    + destruct (IH (length s) ltac:(lia) s eq_refl Hin Hc)
        as (line & Hl & Hcl).
      destruct (Py.splitlines s) as [|l ls]; [by apply elem_of_nil in Hl|].
      apply elem_of_cons in Hl as [->|Hl].
      * exists (x :: l). split; [left|by right].
      * exists line. split; [by right|done].
Qed.

Lemma not_space_not_linebreak c :
  Py.isspace c = false -> Py.islinebreak c = false.
Proof.
  intros Hs. apply not_true_is_false. intros Hb.
  unfold Py.isspace in Hs. unfold Py.islinebreak in Hb. n_bool; lia.
Qed.

(** A text that is not blank has a line that is not blank. *)
Lemma cell_lines_not_nil t : Py.strip t <> [] -> cell_lines t <> [].
Proof.
  intros H. apply strip_not_nil in H as (c & Hc & Hs).
  destruct (elem_of_splitlines t c Hc (not_space_not_linebreak c Hs))
    as (line & Hline & Hcl).
  unfold cell_lines. intros Hnil. apply fmap_nil_inv in Hnil.
  assert (line ∈ filter (fun line => Py.strip line <> []) (Py.splitlines t))
    as Hin; [|rewrite Hnil in Hin; by apply elem_of_nil in Hin].
  apply list_elem_of_filter. split; [|done].
  apply strip_not_nil. eauto.
Qed.

End Lines.

(** ** The cells that the merger builds *)

Section Cells.

Lemma day_cell_not_blank col row t :
  day_cell col row = Some t -> Py.strip t <> [].
Proof.
  unfold day_cell. destruct (_ || _); [done|].
  destruct (row !! col) as [cell|]; [|done].
  destruct (blank cell) eqn:Hb; [done|]. intros ->.
  simpl in Hb. apply orb_false_iff in Hb as [_ Hb].
  by apply bool_decide_eq_false in Hb.
Qed.

Lemma column_texts_not_blank col table :
  Forall (fun t => Py.strip t <> []) (column_texts col table).
Proof.
  apply Forall_forall. intros t Hin. unfold column_texts in Hin.
  apply list_elem_of_omap in Hin as (row & _ & Hrow).
  by eapply day_cell_not_blank.
Qed.

Lemma strip_app_not_nil a b : Py.strip b <> [] -> Py.strip (a ++ b) <> [].
Proof.
  rewrite !strip_not_nil. intros (c & Hc & Hs). exists c. split; [|done].
  apply elem_of_app. by right.
Qed.

Lemma merge_into_ok cells t :
  Forall (fun c => Py.strip (text c) <> []
                   /\ has_price c = any_price_line (text c)) cells ->
  Py.strip t <> [] ->
  Forall (fun c => Py.strip (text c) <> []
                   /\ has_price c = any_price_line (text c))
         (merge_into cells t).
Proof.
  intros Hcells Ht. unfold merge_into.
  destruct (last cells) as [c|] eqn:Hlast.
  - apply last_Some in Hlast as [init ->]. rewrite removelast_last.
    apply Forall_app in Hcells as [Hinit Hc].
    apply Forall_inv in Hc as [Hs Hc].
    destruct (has_price c) eqn:Hp.
    + apply Forall_app. split; [|by repeat constructor].
      apply Forall_app. split; [done|]. repeat constructor; try done.
      by rewrite Hp.
    + apply Forall_app. split; [done|]. repeat constructor.
      * apply strip_app_not_nil. by apply (strip_app_not_nil LF t).
      * cbn [text has_price]. by rewrite any_price_line_app, <- Hc.
  - apply last_None in Hlast as ->. by repeat constructor.
Qed.

Lemma fold_merge_into_ok ts : forall cells,
  Forall (fun c => Py.strip (text c) <> []
                   /\ has_price c = any_price_line (text c)) cells ->
  Forall (fun t => Py.strip t <> []) ts ->
  Forall (fun c => Py.strip (text c) <> []
                   /\ has_price c = any_price_line (text c))
         (fold_left merge_into ts cells).
Proof.
  induction ts as [|t ts IH]; intros cells Hc Hts; simpl; [done|].
  apply Forall_cons in Hts as [Ht Hts]. apply IH; [|done].
  by apply merge_into_ok.
Qed.

End Cells.

Lemma merged_cell_facts (table : list (list (option str))) (day : str)
    (col : nat) (merged_cells : dict (list Cell)) (cells : list Cell)
    (c : Cell) :
  (day, col) ∈ day_columns ->
  _merge_table_cells table = Ok merged_cells ->
  dict_get merged_cells day = Ok cells -> c ∈ cells ->
  Py.strip (text c) <> [] /\ cell_lines (text c) <> []
  /\ has_price c = any_price_line (text c).
Proof.
  intros Hdc H Hget Hc.
  rewrite (merge_rows_get table _ _ day col [] Hdc H) in Hget.
  2:{ apply dict_get_empty_lists. by eapply day_columns_day. }
  simplify_eq.
  pose proof (fold_merge_into_ok (column_texts col table) []
                (Forall_nil_2 _) (column_texts_not_blank col table)) as Hall.
  rewrite Forall_forall in Hall. destruct (Hall c Hc) as [Hs Hp].
  split; [done|]. split; [by apply cell_lines_not_nil|done].
Qed.

(** X6. Every cell that the merger builds has a line that is not blank,
    and its flag tells whether one of its lines is a price line. *)
Theorem merged_cells_sound (table : list (list (option str))) (day : str)
    (col : nat) (merged_cells : dict (list Cell)) (cells : list Cell)
    (c : Cell) :
  (day, col) ∈ day_columns ->
  _merge_table_cells table = Ok merged_cells ->
  dict_get merged_cells day = Ok cells -> c ∈ cells ->
  Py.strip (text c) <> [] /\ cell_lines (text c) <> []
  /\ has_price c = any_price_line (text c).
Proof. apply merged_cell_facts. Qed.

(** The note that ends the Monday column. *)
Lemma merged_cells_sound_witness :
  let c := {| text := utf8 "Guten Appetit"; has_price := false |} in
  Py.strip (text c) <> [] /\ cell_lines (text c) <> []
  /\ has_price c = any_price_line (text c).
Proof.
  intros c.
  eapply (merged_cells_sound monday_table (utf8 "Montag") 4 _ _ c);
    [left|vm_compute; reflexivity|vm_compute; reflexivity|].
  vm_compute. do 2 right. left.
Defined.

(** ** Where a price is found *)

Section PriceSearch.

(** A pattern that does not look ahead matches the same characters
    whatever follows. *)
Lemma matches_frame r : forall w s' gs gs' t,
  context_free r = true ->
  matches r (w ++ s') gs s' gs' -> matches r (w ++ t) gs t gs'.
Proof.
  induction r as [|p|g lo hi p|r1 IH1 r2 IH2|r1 IH1 r2 IH2|n r IH|r IH|ml];
    intros w s' gs gs' t Hcf H; simpl in Hcf, H; simpl; try done.
  - destruct H as [Hs ->]. split; [|done].
    apply (app_inv_tail s' [] w) in Hs. by subst.
  - destruct H as (c & Hs & Hp & ->). exists c.
    apply (app_inv_tail s' w [c]) in Hs. by subst.
  - destruct H as (w0 & Hs & Hw & Hlo & Hhi & ->). exists w0.
    apply app_inv_tail in Hs. by subst.
  - apply andb_true_iff in Hcf as [Hcf1 Hcf2].
    destruct H as (s1 & gs1 & H1 & H2).
    destruct (matches_suffix _ _ _ _ _ H2) as [w2 ->].
    destruct (matches_suffix _ _ _ _ _ H1) as [w1 Hw].
    rewrite app_assoc in Hw. apply app_inv_tail in Hw. subst w.
    exists (w2 ++ t), gs1. split.
    + rewrite <- app_assoc. apply (IH1 w1 (w2 ++ s')); [done|].
      by rewrite app_assoc.
    + by apply (IH2 w2 s').
  - apply andb_true_iff in Hcf as [Hcf1 Hcf2].
    destruct H as [H|H]; [left; by eapply IH1|right; by eapply IH2].
  - destruct H as (gs1 & H & ->). exists gs1. split; [by eapply IH|].
    by rewrite !take_matched.
Qed.

Lemma search_from_unfold r pre_rev s :
  Re.search_from r pre_rev s
  = match Re.match_at r (rev pre_rev) s with
    | Some m => Some m
    | None =>
      match s with
      | [] => None
      | c :: s' => Re.search_from r (c :: pre_rev) s'
      end
    end.
Proof. by destruct s. Qed.

(** The search finds a match wherever one starts. *)
Lemma search_from_complete r b : forall pre_rev s0 s' gs',
  matches r s0 [] s' gs' -> is_Some (Re.search_from r pre_rev (b ++ s0)).
Proof.
  induction b as [|c b IH]; intros pre_rev s0 s' gs' H.
  - change ([] ++ s0) with s0. rewrite search_from_unfold.
    destruct (match_at_is_Some r (rev pre_rev) s0 s' gs' H) as [m ->]. eauto.
  - rewrite <- app_comm_cons, search_from_unfold.
    destruct (Re.match_at r (rev pre_rev) (c :: b ++ s0)); [eauto|].
    by eapply IH.
Qed.

Lemma decimal_digit_cases k :
  k < 10 -> k ∈ [0; 1; 2; 3; 4; 5; 6; 7; 8; 9].
Proof.
  intros H.
  assert (k = 0 \/ k = 1 \/ k = 2 \/ k = 3 \/ k = 4 \/ k = 5 \/ k = 6
          \/ k = 7 \/ k = 8 \/ k = 9) as Hk by lia.
  rewrite !elem_of_cons. tauto.
Qed.

(** No decimal digit is white space. *)
Lemma decimal_not_space c : Py.isdecimal c = true -> Py.isspace c = false.
Proof.
  intros H. unfold Py.isdecimal in H.
  apply existsb_exists in H as (z & Hz & Hb).
  assert (Hall : forallb (fun z =>
            forallb (fun k => negb (Py.isspace (z + k)))
                    [0; 1; 2; 3; 4; 5; 6; 7; 8; 9]) Py.decimal_zeros = true)
    by by vm_compute.
  rewrite forallb_forall in Hall. apply Hall in Hz.
  rewrite forallb_forall in Hz.
  unfold Py.in_block in Hb. apply andb_true_iff in Hb as [H1 H2].
  apply N.leb_le in H1. apply N.ltb_lt in H2.
  specialize (Hz (c - z)). replace (z + (c - z)) with c in Hz by lia.
  apply negb_true_iff, Hz, list_elem_of_In, decimal_digit_cases. lia.
Qed.

Lemma ends_with_here (e : N) (s' : str) : exists m, e :: s' = m ++ e :: s'.
Proof. by exists []. Qed.

Lemma ends_with_app (e : N) (s' x r : str) :
  (exists m, r = m ++ e :: s') -> exists m, x ++ r = m ++ e :: s'.
Proof. intros [m ->]. exists (x ++ m). by rewrite app_assoc. Qed.

Lemma ends_with_cons (e : N) (s' : str) (c : N) (r : str) :
  (exists m, r = m ++ e :: s') -> exists m, c :: r = m ++ e :: s'.
Proof. intros [m ->]. by exists (c :: m). Qed.

(** A match of the price pattern begins with a digit and ends with the
    last character of the currency marker. *)
Lemma price_match_ends s gs s' gs' :
  matches PRICE_LINE_RE s gs s' gs' ->
  exists d mid, s = d :: mid ++ 0xA8 :: s' /\ Py.isdecimal d = true.
Proof.
  unfold PRICE_LINE_RE, PRICE_RE, CURRENCY_RE, Re.star, Re.chr.
  cbn [matches].
  intros H.
  repeat match type of H with
         | ex _ => destruct H as [? H]
         | _ /\ _ => let H1 := fresh "H" in destruct H as [H1 H]
         end.
  repeat match goal with
         | H : ex _ |- _ => destruct H as [? H]
         | H : _ /\ _ |- _ => destruct H
         end.
  simplify_eq.
  repeat match goal with H : (_ =? ?c) = true |- _ =>
    apply N.eqb_eq in H; subst c end.
  match goal with
  | |- context [?w1 ++ 44 :: _] =>
    destruct w1 as [|d w1]; [simpl in *; lia|]; exists d
  end.
  match goal with H : Forall _ (d :: _) |- _ => apply Forall_inv in H end.
  rewrite <- app_comm_cons.
  match goal with
  | |- exists mid, d :: ?r = d :: mid ++ 0xA8 :: s' /\ _ =>
    assert (exists mid, r = mid ++ 0xA8 :: s') as [mid ->]
  end.
  { repeat first [ apply ends_with_here | apply ends_with_app
                 | apply ends_with_cons ]. }
  by exists mid.
Qed.

Lemma space_prefix pre : forall x b d y,
  pre ++ x = b ++ d :: y ->
  Forall (fun c => Py.isspace c = true) pre -> Py.isspace d = false ->
  exists b', b = pre ++ b'.
Proof.
  induction pre as [|p pre IH]; intros x b d y Heq Hpre Hd; [by exists b|].
  apply Forall_cons in Hpre as [Hp Hpre].
  destruct b as [|c b]; simpl in Heq; simplify_eq; [congruence|].
  destruct (IH _ _ _ _ H0 Hpre Hd) as [b' ->]. by exists b'.
Qed.

Lemma space_suffix post x y e s' :
  x ++ post = y ++ e :: s' ->
  Forall (fun c => Py.isspace c = true) post -> Py.isspace e = false ->
  exists s'', s' = s'' ++ post.
Proof.
  intros Heq Hpost He. apply (f_equal (@rev N)) in Heq.
  rewrite !rev_app_distr in Heq. simpl in Heq. rewrite <- app_assoc in Heq.
  simpl in Heq.
  destruct (space_prefix (rev post) (rev x) (rev s') e (rev y) Heq)
    as [b' Hb]; [by apply Forall_rev|done|].
  exists (rev b'). apply (f_equal (@rev N)) in Hb.
  by rewrite rev_involutive, rev_app_distr, rev_involutive in Hb.
Qed.

Lemma price_context_free : context_free PRICE_LINE_RE = true.
Proof. reflexivity. Qed.

(** A line has a price exactly when its strip has one. *)
Lemma price_search_strip line :
  is_Some (Re.search PRICE_LINE_RE (Py.strip line))
  <-> is_Some (Re.search PRICE_LINE_RE line).
Proof.
  destruct (strip_split line) as (pre & post & Hline & Hpre & Hpost).
  split; intros [m Hm]; apply search_from_Some in Hm as (s0 & H & Heq);
    simpl in Heq; destruct (matches_suffix _ _ _ _ _ H) as [w ->].
  - rewrite Hline, Heq. unfold Re.search.
    replace (pre ++ (Re.before m ++ w ++ Re.after m) ++ post)
      with ((pre ++ Re.before m) ++ (w ++ Re.after m ++ post))
      by (by rewrite <- !app_assoc).
    eapply search_from_complete.
    by apply (matches_frame _ w (Re.after m)).
  - destruct (price_match_ends _ _ _ _ H) as (d & mid & Hw & Hd).
    assert (w = d :: mid ++ [0xA8]) as ->.
    { apply (app_inv_tail (Re.after m)). rewrite Hw.
      by rewrite <- app_comm_cons, <- app_assoc. }
    rewrite Hline in Heq.
    destruct (space_prefix pre (Py.strip line ++ post) (Re.before m) d
                (mid ++ [0xA8] ++ Re.after m)) as [b' Hb'];
      [|done|by apply decimal_not_space|].
    { rewrite Heq. by rewrite <- app_comm_cons, <- app_assoc. }
    destruct (space_suffix post (pre ++ Py.strip line)
                (Re.before m ++ d :: mid) 0xA8 (Re.after m))
      as [s'' Hs'']; [|done|by vm_compute|].
    { rewrite <- app_assoc, Heq.
      by rewrite <- !app_assoc, <- !app_comm_cons, <- !app_assoc. }
    assert (Py.strip line = b' ++ (d :: mid ++ [0xA8]) ++ s'') as ->.
    { apply (app_inv_head pre), (app_inv_tail post).
      transitivity (pre ++ Py.strip line ++ post);
        [by rewrite <- app_assoc|].
      rewrite Heq, Hb', Hs''.
      by rewrite <- ?app_assoc, <- ?app_comm_cons, <- ?app_assoc. }
    unfold Re.search. eapply search_from_complete.
    by apply (matches_frame _ (d :: mid ++ [0xA8]) (Re.after m)).
Qed.

(** The merger and the extractor look for the price in the same way: a
    text has a price line exactly when the extractor finds a price line
    among its stripped lines. *)
Lemma any_price_line_price_line t :
  any_price_line t = true <-> price_line (cell_lines t) <> None.
Proof.
  rewrite price_line_None. unfold any_price_line, cell_lines.
  rewrite existsb_exists. split.
  - intros (line & Hin & Hs) Hall. rewrite Forall_fmap in Hall.
    rewrite Forall_forall in Hall.
    assert (is_Some (Re.search PRICE_LINE_RE line)) as Hsome.
    { destruct (Re.search _ line); [eauto|done]. }
    assert (Hne : Py.strip line <> []).
    { intros Hnil. apply (proj2 (price_search_strip line)) in Hsome.
      rewrite Hnil, no_price_in_empty_line in Hsome. by destruct Hsome. }
    apply (proj2 (price_search_strip line)) in Hsome.
    destruct Hsome as [m Hm].
    specialize (Hall line). simpl in Hall. rewrite Hall in Hm; [done|].
    apply list_elem_of_filter. split; [done|]. by apply list_elem_of_In.
  - intros Hall. apply not_Forall_Exists in Hall; [|apply _].
    apply Exists_exists in Hall as (x & Hx & Hs). simpl in Hs.
    apply list_elem_of_fmap in Hx as (line & -> & Hin).
    apply list_elem_of_filter in Hin as [_ Hin].
    exists line. split; [by apply list_elem_of_In|].
    assert (is_Some (Re.search PRICE_LINE_RE (Py.strip line))) as Hsome.
    { destruct (Re.search _ (Py.strip line)); [eauto|done]. }
    apply (proj1 (price_search_strip line)) in Hsome.
    by destruct Hsome as [m ->].
Qed.

End PriceSearch.

Lemma any_price_line_cell_price (cell_text : str) :
  any_price_line cell_text = true
  <-> exists q, cell_price (cell_lines cell_text) = Ok (Some q).
Proof.
  rewrite any_price_line_price_line.
  destruct (cell_price_ok (cell_lines cell_text)) as (p & Hp & Hnone).
  rewrite Hp, <- Hnone. split.
  - destruct p as [q|]; [eauto|done].
  - intros [q Hq] ->. done.
Qed.

(** X7. The merger and the extractor agree on prices: a text has a
    price line in the eyes of the merger exactly when the extractor reads
    a price from it. *)
Theorem price_seen_iff_price_read (cell_text : str) :
  any_price_line cell_text = true
  <-> exists q, cell_price (cell_lines cell_text) = Ok (Some q).
Proof. apply any_price_line_cell_price. Qed.

(** The goulash cell has a price line, and a price. *)
Lemma price_seen_iff_price_read_witness :
  exists q, cell_price (cell_lines gulasch_cell) = Ok (Some q).
Proof.
  apply (proj1 (price_seen_iff_price_read gulasch_cell)).
  vm_compute. reflexivity.
Defined.

(** X8. A cell that the merger leaves without price gives no dish, and
    a cell with its price flag set has a price for the extractor: every
    dish comes from a closed cell. *)
Theorem open_cell_gives_no_dish (table : list (list (option str)))
    (day : str) (col : nat) (merged_cells : dict (list Cell))
    (cells : list Cell) (c : Cell) :
  (day, col) ∈ day_columns ->
  _merge_table_cells table = Ok merged_cells ->
  dict_get merged_cells day = Ok cells -> c ∈ cells ->
  (has_price c = false ->
   forall self, _parse_dish_from_cell self (text c) = Ok None)
  /\ (has_price c = true ->
      exists q, cell_price (cell_lines (text c)) = Ok (Some q)).
Proof.
  intros Hdc H Hget Hc.
  destruct (merged_cell_facts _ _ _ _ _ _ Hdc H Hget Hc) as (_ & Hne & Hp).
  rewrite Hp. split.
  - intros Hno self.
    destruct (cell_price_ok (cell_lines (text c))) as (p & Hprice & _).
    rewrite (parse_dish_unfold self (text c) p Hne Hprice).
    destruct p as [q|]; [|done].
    assert (any_price_line (text c) = true); [|congruence].
    apply any_price_line_cell_price. eauto.
  - apply any_price_line_cell_price.
Qed.

(** The note that ends the Monday column gives no dish. *)
Lemma open_cell_gives_no_dish_witness :
  _parse_dish_from_cell (strict_parser None) (utf8 "Guten Appetit")
  = Ok None.
Proof.
  refine (proj1 (open_cell_gives_no_dish monday_table (utf8 "Montag") 4 _ _
                   {| text := utf8 "Guten Appetit"; has_price := false |}
                   _ _ _ _) eq_refl (strict_parser None)).
  - left.
  - vm_compute. reflexivity.
  - vm_compute. reflexivity.
  - vm_compute. do 2 right. left.
Defined.

(** ** Lines after the price *)

Section Trailing.

Lemma first_price_line_app a b :
  first_price_line (a ++ b)
  = match first_price_line a with
    | Some x => Some x
    | None => first_price_line b
    end.
Proof.
  induction a as [|[i line] a IH]; simpl; [done|].
  by destruct (Re.search PRICE_LINE_RE line).
Qed.

Lemma enumerate_app {A} (xs ys : list A) :
  enumerate (xs ++ ys)
  = enumerate xs ++ zip (seq (length xs) (length ys)) ys.
Proof.
  unfold enumerate. rewrite length_app, seq_app. simpl.
  apply zip_with_app. by rewrite length_seq.
Qed.

(** Lines without price after the others do not change the price line. *)
Lemma price_line_app l1 l2 :
  Forall (fun line => Re.search PRICE_LINE_RE line = None) l2 ->
  price_line (l1 ++ l2) = price_line l1.
Proof.
  intros H2. unfold price_line.
  rewrite enumerate_app, rev_app_distr, first_price_line_app.
  assert (first_price_line (rev (zip (seq (length l1) (length l2)) l2))
          = None) as ->; [|done].
  apply first_price_line_None, Forall_rev_iff, Forall_forall.
  intros [i line] Hin. simpl.
  apply (list_elem_of_fmap_2 snd) in Hin.
  rewrite snd_zip in Hin by (by rewrite length_seq).
  rewrite Forall_forall in H2. by apply H2.
Qed.

Lemma price_line_index lines m i :
  price_line lines = Some (m, i) -> (i < length lines)%nat.
Proof.
  unfold price_line. intros H.
  apply first_price_line_Some in H as (line & Hin & _).
  apply list_elem_of_In, in_rev, list_elem_of_In in Hin.
  apply (list_elem_of_fmap_2 fst) in Hin. unfold enumerate in Hin.
  rewrite fst_zip in Hin by (by rewrite length_seq).
  apply list_elem_of_In, in_seq in Hin. simpl in Hin. lia.
Qed.

Lemma title_lines_app l1 l2 :
  Forall (fun line => Re.search PRICE_LINE_RE line = None) l2 ->
  price_line l1 <> None -> title_lines (l1 ++ l2) = title_lines l1.
Proof.
  intros H2 Hp. unfold title_lines. rewrite price_line_app by done.
  destruct (price_line l1) as [[m i]|] eqn:H1; [|done].
  apply price_line_index in H1. by rewrite take_app_le by lia.
Qed.

End Trailing.

(** X9. What follows the last price line of a cell is never read: lines
    without price appended to a cell text, allergen codes among them,
    change neither whether the cell gives a dish nor the dish. *)
Theorem trailing_lines_ignored (self : MensaParser) (cell_text junk : str) :
  any_price_line junk = false ->
  _parse_dish_from_cell self (cell_text ++ LF ++ junk)
  = _parse_dish_from_cell self cell_text.
Proof.
  intros Hj.
  assert (H2 : Forall (fun line => Re.search PRICE_LINE_RE line = None)
                      (cell_lines junk)).
  { apply price_line_None. destruct (price_line (cell_lines junk)) eqn:Hp;
      [|done].
    assert (any_price_line junk = true); [|congruence].
    apply any_price_line_price_line. by rewrite Hp. }
  unfold _parse_dish_from_cell. rewrite cell_lines_app.
  unfold cell_price. rewrite price_line_app by done.
  destruct (price_line (cell_lines cell_text)) as [[m i]|] eqn:Hp.
  - assert (cell_lines cell_text <> []) as Hne.
    { intros Hnil. rewrite Hnil in Hp. by vm_compute in Hp. }
    rewrite !bool_decide_false; [|done|by destruct (cell_lines cell_text)].
    unfold full_title. rewrite title_lines_app; [done..|by rewrite Hp].
  - simpl.
    destruct (bool_decide (cell_lines cell_text ++ cell_lines junk = []));
      destruct (bool_decide (cell_lines cell_text = []));
      repeat destruct (title_and_allergens _); done.
Qed.

(** A note after the prices of the goulash. *)
Lemma trailing_lines_ignored_witness :
  _parse_dish_from_cell (strict_parser None)
    (gulasch_cell ++ LF ++ utf8 "Guten Appetit")
  = _parse_dish_from_cell (strict_parser None) gulasch_cell
  /\ _parse_dish_from_cell (strict_parser None) gulasch_cell
     = Ok (Some gulasch).
Proof.
  split.
  - apply (trailing_lines_ignored (strict_parser None) gulasch_cell
             (utf8 "Guten Appetit")).
    vm_compute. reflexivity.
  - vm_compute. reflexivity.
Defined.

(** ** The filter settings *)

Section FilterItems.

Lemma elem_of_strip s c : c ∈ Py.strip s -> c ∈ s.
Proof.
  intros H. destruct (strip_split s) as (pre & post & Hs & _).
  rewrite Hs. rewrite !elem_of_app. auto.
Qed.

Lemma split_on_not_nil sep s : Py.split_on sep s <> [].
Proof.
  destruct s as [|c s]; simpl; [done|].
  destruct (c =? sep); [done|]. by destruct (Py.split_on sep s).
Qed.

(** The pieces of a split hold characters of the text, the separator
    apart. *)
Lemma split_on_elem sep s : forall piece c,
  piece ∈ Py.split_on sep s -> c ∈ piece -> c ∈ s /\ c <> sep.
Proof.
  induction s as [|x s IH]; intros piece c Hp Hc; simpl in Hp.
  - apply list_elem_of_singleton in Hp as ->. by apply elem_of_nil in Hc.
  - destruct (N.eqb_spec x sep) as [->|Hne].
    + apply elem_of_cons in Hp as [->|Hp]; [by apply elem_of_nil in Hc|].
      destruct (IH _ _ Hp Hc). split; [by right|done].
    + pose proof (split_on_not_nil sep s) as Hnn.
      destruct (Py.split_on sep s) as [|l ls]; [done|].
      apply elem_of_cons in Hp as [->|Hp].
      * apply elem_of_cons in Hc as [->|Hc]; [split; [left|done]|].
        destruct (IH l c ltac:(left) Hc). split; [by right|done].
      * destruct (IH piece c ltac:(by right) Hc). split; [by right|done].
Qed.

(** Every character but the separator is in a piece. *)
Lemma split_on_cover sep s : forall c,
  c ∈ s -> c <> sep -> exists piece, piece ∈ Py.split_on sep s /\ c ∈ piece.
Proof.
  induction s as [|x s IH]; intros c Hc Hne; [by apply elem_of_nil in Hc|].
  simpl. destruct (N.eqb_spec x sep) as [->|Hx].
  - apply elem_of_cons in Hc as [->|Hc]; [done|].
    destruct (IH c Hc Hne) as (piece & Hp & Hcp).
    exists piece. split; [by right|done].
  - pose proof (split_on_not_nil sep s) as Hnn.
    apply elem_of_cons in Hc as [->|Hc].
    + destruct (Py.split_on sep s) as [|l ls]; [done|].
      exists (x :: l). split; left.
    + destruct (IH c Hc Hne) as (piece & Hp & Hcp).
      destruct (Py.split_on sep s) as [|l ls]; [done|].
      apply elem_of_cons in Hp as [->|Hp].
      * exists (x :: l). split; [left|by right].
      * exists piece. split; [by right|done].
Qed.

Lemma elem_of_lowered_items raw w :
  w ∈ lowered_items raw <->
  exists piece, piece ∈ Py.split_on 0x2C raw /\ Py.strip piece <> []
                /\ w = Py.lower (Py.strip piece).
Proof.
  unfold lowered_items. rewrite elem_of_list_to_set, list_elem_of_fmap.
  split.
  - intros (piece & -> & Hin). apply list_elem_of_filter in Hin as [? ?].
    eauto.
  - intros (piece & Hin & Hne & ->). exists piece. split; [done|].
    by apply list_elem_of_filter.
Qed.

Lemma lowered_items_normalised raw w :
  w ∈ lowered_items raw ->
  w <> [] /\ Py.strip w = w /\ Py.lower w = w /\ 0x2C ∉ w.
Proof.
  rewrite elem_of_lowered_items. intros (piece & Hin & Hne & ->).
  split; [|split; [|split]].
  - intros Hnil. by apply lower_from_nil in Hnil.
  - apply lower_stripped, strip_strip.
  - apply lower_idem.
  - intros Hc. apply lower_from_comma, elem_of_strip in Hc.
    by destruct (split_on_elem _ _ _ _ Hin Hc).
Qed.

Lemma lowered_items_empty raw :
  lowered_items raw = ∅ <->
  Forall (fun c => Py.isspace c = true \/ c = 0x2C) raw.
Proof.
  split.
  - intros Hempty. apply Forall_forall. intros c Hc.
    destruct (Py.isspace c) eqn:Hs; [by left|right].
    destruct (decide (c = 0x2C)) as [|Hne]; [done|exfalso].
    destruct (split_on_cover 0x2C raw c Hc Hne) as (piece & Hp & Hcp).
    assert (Py.lower (Py.strip piece) ∈ lowered_items raw) as Hin.
    { apply elem_of_lowered_items. exists piece. split; [done|].
      split; [|done]. apply strip_not_nil. eauto. }
    rewrite Hempty in Hin. set_solver.
  - intros Hall. apply set_eq. intros w. split; [|set_solver].
    rewrite elem_of_lowered_items. intros (piece & Hp & Hne & _).
    exfalso. apply strip_not_nil in Hne as (c & Hc & Hs).
    destruct (split_on_elem _ _ _ _ Hp Hc) as [Hin Hsep].
    rewrite Forall_forall in Hall. destruct (Hall c Hin); congruence.
Qed.

End FilterItems.

(** X10. The filter words and the filter allergen names of a
    configuration are non-empty, stripped, lowered and free of commas;
    there are none exactly when the setting holds nothing but commas and
    white space. *)
Theorem filter_items_normalised (c : Config) :
  (forall w, w ∈ filter_words c \/ w ∈ filter_allergen_names c ->
             w <> [] /\ Py.strip w = w /\ Py.lower w = w /\ 0x2C ∉ w)
  /\ (filter_words c = ∅ <->
      Forall (fun x => Py.isspace x = true \/ x = 0x2C) (filter_words_raw c))
  /\ (filter_allergen_names c = ∅ <->
      Forall (fun x => Py.isspace x = true \/ x = 0x2C)
             (filter_allergens_raw c)).
Proof.
  split; [|split; apply lowered_items_empty].
  intros w [H|H]; by eapply lowered_items_normalised.
Qed.

(** The filter word of the setting "Fisch, Leber". *)
Lemma filter_items_normalised_witness :
  utf8 "leber" <> [] /\ Py.strip (utf8 "leber") = utf8 "leber"
  /\ Py.lower (utf8 "leber") = utf8 "leber" /\ 0x2C ∉ utf8 "leber".
Proof.
  apply (proj1 (filter_items_normalised strict_config)).
  left. vm_compute. set_solver.
Defined.

(** ** More on the legend *)

Section LegendShape.

Lemma finditer_from_unfold r skip pre_rev s :
  Re.finditer_from r skip pre_rev s
  = match skip with
    | S n =>
      match s with
      | c :: s' => Re.finditer_from r n (c :: pre_rev) s'
      | [] => []
      end
    | O =>
      match Re.match_at r (rev pre_rev) s with
      | Some m =>
        m :: match s with
             | c :: s' =>
               Re.finditer_from r (Nat.pred (length (Re.matched m)))
                 (c :: pre_rev) s'
             | [] => []
             end
      | None =>
        match s with
        | c :: s' => Re.finditer_from r O (c :: pre_rev) s'
        | [] => []
        end
      end
    end.
Proof. by destruct s. Qed.

(** Every match of [finditer] is a match of the pattern somewhere in
    the text. *)
Lemma finditer_from_matches r s : forall skip pre_rev m,
  m ∈ Re.finditer_from r skip pre_rev s ->
  exists s0, matches r s0 [] (Re.after m) (Re.m_groups m).
Proof.
  induction s as [|c s IH]; intros skip pre_rev m;
    rewrite finditer_from_unfold.
  - destruct skip; [|by intros H; apply elem_of_nil in H].
    destruct (Re.match_at r (rev pre_rev) []) as [m'|] eqn:Hm;
      [|by intros H; apply elem_of_nil in H].
    intros H. apply list_elem_of_singleton in H as ->.
    apply match_at_Some in Hm as [Hm _]. eauto.
  - destruct skip; [|apply IH].
    destruct (Re.match_at r (rev pre_rev) (c :: s)) as [m'|] eqn:Hm;
      [|apply IH].
    intros H. apply elem_of_cons in H as [->|H]; [|by eapply IH].
    apply match_at_Some in Hm as [Hm _]. eauto.
Qed.

(** The first group of a match of the legend pattern is a code. *)
Lemma legend_group_code s gs s' gs' :
  matches ALLERGEN_MAP_RE s gs s' gs' -> is_code (Re.group 1 gs').
Proof.
  unfold ALLERGEN_MAP_RE, CODE_RE, Re.star, Re.plus, Re.opt, Re.chr.
  cbn [matches]. intros H.
  repeat match goal with
         | H : ex _ |- _ => destruct H as [? H]
         | H : _ /\ _ |- _ => destruct H
         | H : _ \/ _ |- _ => destruct H
         end;
    simplify_eq; cbn [Re.group Nat.eqb];
    match goal with
    | |- is_code (take _ (?ds ++ ?l ++ ?rest)) =>
      replace (ds ++ l ++ rest) with ((ds ++ l) ++ rest)
        by (by rewrite <- app_assoc);
      rewrite take_matched; exists ds, l
    end.
  all: split; [done|]; split;
    [by intros ->; simpl in *; lia|]; split; [done|]; split; [done|];
    by simpl in *.
Qed.

Lemma record_entries_lookup ms : forall amap0 amap key code,
  for_each record_legend_entry ms amap0 = Ok amap ->
  amap !! key = Some code ->
  amap0 !! key = Some code
  \/ exists m, m ∈ ms /\ legend_key m key /\ code = legend_code m.
Proof.
  induction ms as [|m ms IH]; intros amap0 amap key code H Hk; simpl in H.
  { simplify_eq. by left. }
  destruct (record_legend_entry_ok amap0 m) as (a1 & H1 & Hlook).
  rewrite H1 in H. simpl in H.
  destruct (IH _ _ _ _ H Hk) as [Ha1|(m' & Hin & Hkey & ->)].
  - rewrite Hlook in Ha1. destruct (bool_decide (legend_key m key)) eqn:Hd.
    + apply bool_decide_eq_true in Hd. simplify_eq. right. exists m.
      split; [left|done].
    + by left.
  - right. exists m'. split; [by right|done].
Qed.

(** The words of a split are non-empty runs of characters of the text
    that are not white space. *)
Lemma split_from_words s : forall word w,
  Forall (fun c => Py.isspace c = false) word ->
  w ∈ Py.split_from word s ->
  w <> [] /\ Forall (fun c => Py.isspace c = false
                              /\ (c ∈ word \/ c ∈ s)) w.
Proof.
  induction s as [|c s IH]; intros word w Hword Hw; simpl in Hw.
  - destruct word as [|x word]; [by apply elem_of_nil in Hw|].
    apply list_elem_of_singleton in Hw as ->. split.
    + intros Hnil. apply (f_equal (@rev N)) in Hnil.
      by rewrite rev_involutive in Hnil.
    + apply Forall_rev. apply Forall_forall. intros y Hy. split.
      * rewrite Forall_forall in Hword. by apply Hword.
      * by left.
  - destruct (Py.isspace c) eqn:Hc.
    + assert (w ∈ Py.split_from [] s ->
              w <> [] /\ Forall (fun c0 => Py.isspace c0 = false
                                  /\ (c0 ∈ word \/ c0 ∈ c :: s)) w) as Hrec.
      { intros Hin. destruct (IH [] w ltac:(constructor) Hin) as [Hne Hall].
        split; [done|]. eapply Forall_impl; [exact Hall|].
        intros y [Hy [Hin'|Hin']]; [by apply elem_of_nil in Hin'|].
        split; [done|]. right. by right. }
      destruct word as [|x word]; [by apply Hrec|].
      apply elem_of_cons in Hw as [->|Hw]; [|by apply Hrec].
      split.
      * intros Hnil. apply (f_equal (@rev N)) in Hnil.
        by rewrite rev_involutive in Hnil.
      * apply Forall_rev. apply Forall_forall. intros y Hy. split.
        -- rewrite Forall_forall in Hword. by apply Hword.
        -- by left.
    + destruct (IH (c :: word) w ltac:(by constructor) Hw) as [Hne Hall].
      split; [done|]. eapply Forall_impl; [exact Hall|].
      intros y [Hy [Hin|Hin]]; (split; [done|]).
      * apply elem_of_cons in Hin as [->|Hin]; [right; left|by left].
      * right. by right.
Qed.

Lemma legend_name_normalised m :
  Py.strip (legend_name m) = legend_name m
  /\ Py.lower (legend_name m) = legend_name m.
Proof.
  unfold legend_name. split; [|apply lower_idem].
  apply lower_stripped, strip_strip.
Qed.

(** A key of a legend entry is non-empty, stripped and lowered. *)
Lemma legend_key_normalised m key :
  legend_key m key ->
  key <> [] /\ Py.strip key = key /\ Py.lower key = key.
Proof.
  intros [Hlen [->|Hw]].
  - split; [|apply legend_name_normalised].
    intros Hnil. rewrite Hnil in Hlen. simpl in Hlen. lia.
  - apply list_elem_of_lookup_2 in Hw. unfold Py.split in Hw.
    apply split_from_words in Hw as [Hne Hall]; [|constructor].
    split; [done|]. split.
    + apply strip_no_space. eapply Forall_impl; [exact Hall|]. by intros c [].
    + apply lower_from_fixed. eapply Forall_impl; [exact Hall|].
      intros c [_ [Hin|Hin]]; [by apply elem_of_nil in Hin|].
      pose proof (lower_from_lowered
                    (Py.strip (Re.sub NAME_NOISE_RE []
                                 (Py.strip (Re.group_of m 2)))) false)
        as Hl.
      rewrite Forall_forall in Hl. by apply Hl.
Qed.

(** The parser is built unless the document has no page. *)
Lemma init_cases pdf config :
  match pages pdf with
  | [] => MensaParser_init pdf config = Raise IndexError
  | _ :: _ =>
    exists amap,
      _extract_allergen_mapping pdf = Ok amap
      /\ MensaParser_init pdf config
         = Ok {| pdf_content := pdf;
                 config := config;
                 allergen_map := amap;
                 filter_allergen_numbers :=
                   _resolve_filter_allergens config amap |}
  end.
Proof.
  destruct (pages pdf) as [|p ps] eqn:Hp.
  - unfold MensaParser_init, _extract_allergen_mapping. by rewrite Hp.
  - destruct (last (p :: ps)) as [page|] eqn:Hlast.
    2:{ by apply last_None in Hlast. }
    rewrite <- Hp in Hlast.
    unfold MensaParser_init.
    rewrite (extract_allergen_mapping_eq pdf page Hlast).
    destruct (record_entries_ok
                (Re.finditer ALLERGEN_MAP_RE (extract_text page)) ∅)
      as [amap ->].
    exists amap. by split.
Qed.

End LegendShape.

(** X11. Building the parser raises [IndexError] when the document has
    no page and succeeds otherwise, whatever the text of the legend: the
    parser holds the document, the configuration, the legend of the last
    page and the filter codes that the legend gives to the filter
    names. *)
Theorem parser_built_iff_pages (pdf : PDF) (config : Config) :
  (pages pdf = [] -> MensaParser_init pdf config = Raise IndexError)
  /\ (pages pdf <> [] ->
      exists amap,
        _extract_allergen_mapping pdf = Ok amap
        /\ MensaParser_init pdf config
           = Ok {| pdf_content := pdf;
                   config := config;
                   allergen_map := amap;
                   filter_allergen_numbers :=
                     _resolve_filter_allergens config amap |}).
Proof.
  pose proof (init_cases pdf config) as H.
  destruct (pages pdf); split; intros; done.
Qed.

(** A document of two pages. *)
Lemma parser_built_iff_pages_witness :
  exists amap,
    _extract_allergen_mapping (menu_pdf None (utf8 "28 Soja")) = Ok amap
    /\ MensaParser_init (menu_pdf None (utf8 "28 Soja")) strict_config
       = Ok {| pdf_content := menu_pdf None (utf8 "28 Soja");
               config := strict_config;
               allergen_map := amap;
               filter_allergen_numbers :=
                 _resolve_filter_allergens strict_config amap |}.
Proof.
  apply (proj2 (parser_built_iff_pages (menu_pdf None (utf8 "28 Soja"))
                  strict_config)).
  discriminate.
Defined.

(** X12. In every legend that the parser extracts, a code is made of
    digits followed by at most one lowercase letter, and a name is
    non-empty, stripped and lowered, as a filter name is. *)
Theorem legend_well_formed (pdf : PDF) (amap : gmap str str)
    (key code : str) :
  _extract_allergen_mapping pdf = Ok amap -> amap !! key = Some code ->
  is_code code /\ key <> [] /\ Py.strip key = key /\ Py.lower key = key.
Proof.
  unfold _extract_allergen_mapping. intros H Hk.
  destruct (last (pages pdf)) as [page|]; [|done]. simpl in H.
  destruct (record_entries_lookup _ _ _ _ _ H Hk)
    as [Hempty|(m & Hin & Hkey & ->)]; [by rewrite lookup_empty in Hempty|].
  split; [|by eapply legend_key_normalised].
  apply finditer_from_matches in Hin as (s0 & Hm).
  by eapply legend_group_code.
Qed.

(** The entry of "soja" in the legend "28 Soja 29 Sellerie". *)
Lemma legend_well_formed_witness :
  is_code (utf8 "28") /\ utf8 "soja" <> []
  /\ Py.strip (utf8 "soja") = utf8 "soja"
  /\ Py.lower (utf8 "soja") = utf8 "soja".
Proof.
  apply (legend_well_formed (menu_pdf None (utf8 "28 Soja 29 Sellerie"))
           {[ utf8 "soja" := utf8 "28"; utf8 "sellerie" := utf8 "29" ]}).
  - vm_compute. reflexivity.
  - vm_compute. reflexivity.
Defined.

(** ** The menu day by day *)

Section DayDishes.

Lemma add_dish_get self day st cell st' dishes :
  add_dish self day st cell = Ok st' -> dict_get st day = Ok dishes ->
  dict_get st' day = Ok (dishes ++ accepted_dishes self [cell])
  /\ forall k, k <> day -> dict_get st' k = dict_get st k.
Proof.
  unfold add_dish, accepted_dishes. simpl. unfold cell_dish. intros H Hget.
  destruct (_parse_dish_from_cell self (text cell)) as [[d|]|]; simpl in H.
  - rewrite Hget in H. simpl in H. simplify_eq. split.
    + by rewrite dict_get_set.
    + intros k Hk. by rewrite dict_get_set_ne.
  - simplify_eq. by rewrite app_nil_r.
  - done.
Qed.

Lemma add_dishes_get self day cells : forall st st' dishes,
  for_each (add_dish self day) cells st = Ok st' ->
  dict_get st day = Ok dishes ->
  dict_get st' day = Ok (dishes ++ accepted_dishes self cells)
  /\ forall k, k <> day -> dict_get st' k = dict_get st k.
Proof.
  induction cells as [|cell cells IH]; intros st st' dishes H Hget;
    simpl in H.
  { simplify_eq. unfold accepted_dishes. simpl. by rewrite app_nil_r. }
  destruct (add_dish self day st cell) as [st1|] eqn:H1; [|done].
  simpl in H.
  destruct (add_dish_get self day st cell st1 dishes H1 Hget) as [Hd Hk].
  destruct (IH st1 st' _ H Hd) as [Hd' Hk']. split.
  - rewrite Hd', <- app_assoc. unfold accepted_dishes.
    by rewrite <- omap_app.
  - intros k Hne. by rewrite Hk', Hk.
Qed.

Lemma add_days_get self items : forall st st' day dishes,
  NoDup items.*1 -> items.*1 ⊆ st.*1 ->
  for_each (add_day self) items st = Ok st' ->
  dict_get st day = Ok dishes ->
  st'.*1 = st.*1
  /\ (forall cells, (day, cells) ∈ items ->
        dict_get st' day = Ok (dishes ++ accepted_dishes self cells))
  /\ (day ∉ items.*1 -> dict_get st' day = Ok dishes).
Proof.
  induction items as [|[d0 cells0] items IH];
    intros st st' day dishes Hnd Hsub H Hget.
  { simpl in H. simplify_eq. split; [done|]. split; [|done].
    intros cells Hin. by apply elem_of_nil in Hin. }
  rewrite fmap_cons in Hnd, Hsub. simpl in Hnd, Hsub.
  apply NoDup_cons in Hnd as [Hd0 Hnd].
  simpl in H.
  destruct (add_day self st (d0, cells0)) as [st1|] eqn:H1; [|done].
  unfold add_day in H1. simpl in H, H1.
  destruct (dict_get_key st d0) as [dishes0 Hget0].
  { apply Hsub. left. }
  destruct (add_dishes_get self d0 cells0 st st1 dishes0 H1 Hget0)
    as [Hd Hk].
  assert (Hkeys1 : st1.*1 = st.*1).
  { revert H1. clear. revert st.
    induction cells0 as [|c cs IHc]; intros st H; simpl in H.
    - by simplify_eq.
    - destruct (add_dish self d0 st c) as [st2|] eqn:H2; [|done].
      simpl in H. rewrite (IHc st2 H). unfold add_dish in H2.
      destruct (_parse_dish_from_cell self (text c)) as [[d|]|];
        simpl in H2; [|by simplify_eq|done].
      destruct (dict_get st d0) as [ds|] eqn:Hg; [|done].
      simpl in H2. simplify_eq. apply dict_set_keys.
      apply dict_get_elem_of in Hg.
      by apply (list_elem_of_fmap_2 fst) in Hg. }
  assert (Hst1 : dict_get st1 day
                 = Ok (if decide (day = d0)
                       then dishes ++ accepted_dishes self cells0
                       else dishes)).
  { destruct (decide (day = d0)) as [->|Hne]; [|by rewrite Hk].
    rewrite Hd. congruence. }
  assert (Hsub1 : items.*1 ⊆ st1.*1).
  { rewrite Hkeys1. intros x Hx. apply Hsub. by right. }
  destruct (IH st1 st' day _ Hnd Hsub1 H Hst1) as (Hkeys & IH1 & IH2).
  split; [congruence|]. split.
  - intros cells Hin. apply elem_of_cons in Hin as [Heq|Hin].
    + simplify_eq. rewrite decide_True in IH2 by done. by apply IH2.
    + assert (day <> d0) as Hne.
      { intros ->. apply Hd0. by apply (list_elem_of_fmap_2 fst) in Hin. }
      rewrite decide_False in IH1 by done. by apply IH1.
  - intros Hnin. rewrite fmap_cons in Hnin.
    apply not_elem_of_cons in Hnin as [Hne Hnin]. simpl in Hne.
    rewrite decide_False in IH2 by done. by apply IH2.
Qed.

Lemma cell_dish_Some self cell d :
  cell_dish self cell = Some d <->
  _parse_dish_from_cell self (text cell) = Ok (Some d).
Proof.
  unfold cell_dish.
  destruct (_parse_dish_from_cell self (text cell)) as [[d'|]|];
    split; intros H; by simplify_eq.
Qed.

(** Every dish of the menu is the dish of some cell text. *)
Lemma menu_dish_source self d :
  get_all_dishes self = Ok d ->
  forall day dishes dish,
    (day, dishes) ∈ d -> dish ∈ dishes ->
    exists cell_text, _parse_dish_from_cell self cell_text = Ok (Some dish).
Proof.
  set (I := fun d : dict (list Dish) =>
              forall day dishes dish,
                (day, dishes) ∈ d -> dish ∈ dishes ->
                exists cell_text,
                  _parse_dish_from_cell self cell_text = Ok (Some dish)).
  assert (I (empty_lists WEEKDAYS_DE)) as Hempty.
  { intros day dishes dish Hin Hd. apply elem_of_empty_lists in Hin as ->.
    by apply elem_of_nil in Hd. }
  unfold get_all_dishes. intros H. fold (I d).
  destruct (_ <=? _)%nat; [by simplify_eq|].
  destruct (index _ _) as [page|]; [|done]. simpl in H.
  destruct (extract_table page) as [[|row table]|]; try by simplify_eq.
  destruct (_merge_table_cells (row :: table)) as [merged|]; [|done].
  simpl in H.
  apply (for_each_inv I (add_day self) merged _ _ H Hempty).
  intros st [day0 cells] st' _ Hst Hday. unfold add_day in Hday.
  simpl in Hday.
  apply (for_each_inv I (add_dish self day0) cells _ _ Hday Hst).
  clear. intros st cell st' _ Hst Hadd. unfold add_dish in Hadd.
  destruct (_parse_dish_from_cell self (text cell)) as [[d|]|] eqn:Hp;
    simpl in Hadd; [|by simplify_eq|done].
  destruct (dict_get st day0) as [ds|] eqn:Hg; [|done]. simpl in Hadd.
  simplify_eq. intros day dishes dish Hin Hd.
  apply elem_of_dict_set in Hin as [Hin|[-> ->]]; [by eapply Hst|].
  apply elem_of_app in Hd as [Hd|Hd].
  - eapply Hst; [|done]. by apply dict_get_elem_of.
  - apply list_elem_of_singleton in Hd as ->. eauto.
Qed.

End DayDishes.

(** X13. The dishes of a working day are the dishes that the extractor
    accepts among the merged cells of the column of the day, in the order
    of the cells from the top of the table. *)
Theorem menu_by_column (self : MensaParser)
    (table : list (list (option str))) (day : str) (col : nat) :
  menu_table self = Some table -> (day, col) ∈ day_columns ->
  exists d,
    get_all_dishes self = Ok d
    /\ dict_get d day
       = Ok (accepted_dishes self
               (fold_left merge_into (column_texts col table) [])).
Proof.
  intros Htable Hdc.
  destruct (decide (table = [])) as [->|Hne].
  { rewrite (get_all_dishes_empty_table self Htable). eexists.
    split; [done|]. apply dict_get_empty_lists.
    apply day_columns_day in Hdc. by apply working_day in Hdc as [? _]. }
  rewrite (get_all_dishes_table self table Htable Hne).
  destruct (merge_table_cells_ok table) as (merged & Hm & Hkeys).
  destruct (merged_column table day col Hdc) as (merged' & Hm' & Hget).
  rewrite Hm in Hm'. simplify_eq. rewrite Hm. simpl.
  destruct (get_all_dishes_ok self) as (d & Hd & _).
  rewrite (get_all_dishes_table self table Htable Hne), Hm in Hd.
  simpl in Hd. exists d. split; [done|].
  destruct (add_days_get self merged' (empty_lists WEEKDAYS_DE) d day [])
    as (_ & Hin & _); try done.
  - rewrite Hkeys. apply (bool_decide_unpack _). by vm_compute.
  - rewrite Hkeys, empty_lists_keys. apply (subseteq_take 5 WEEKDAYS_DE).
  - apply dict_get_empty_lists.
    apply day_columns_day in Hdc. by apply working_day in Hdc as [? _].
  - apply Hin. by apply dict_get_elem_of.
Qed.

(** The Monday of the sample table. *)
Lemma menu_by_column_witness :
  (exists d,
     get_all_dishes (strict_parser (Some monday_table)) = Ok d
     /\ dict_get d (utf8 "Montag")
        = Ok (accepted_dishes (strict_parser (Some monday_table))
                (fold_left merge_into (column_texts 4 monday_table) [])))
  /\ accepted_dishes (strict_parser (Some monday_table))
       (fold_left merge_into (column_texts 4 monday_table) [])
     = [gulasch; broetchen].
Proof.
  split.
  - apply (menu_by_column (strict_parser (Some monday_table)) monday_table
             (utf8 "Montag") 4).
    + reflexivity.
    + left.
  - vm_compute. reflexivity.
Defined.



(** ** From the filter names to the menu *)

Section NamesToMenu.

Lemma init_fields pdf conf self :
  MensaParser_init pdf conf = Ok self ->
  pdf_content self = pdf /\ config self = conf
  /\ _extract_allergen_mapping pdf = Ok (allergen_map self)
  /\ filter_allergen_numbers self
     = _resolve_filter_allergens conf (allergen_map self).
Proof.
  unfold MensaParser_init. intros H.
  destruct (_extract_allergen_mapping pdf) as [amap|]; [|done].
  simpl in H. by simplify_eq.
Qed.

Lemma elem_of_resolved config amap code :
  code ∈ _resolve_filter_allergens config amap <->
  exists name, name ∈ filter_allergen_names config
               /\ amap !! name = Some code.
Proof. unfold _resolve_filter_allergens. by rewrite elem_of_set_omap. Qed.

End NamesToMenu.

(** X15. For a parser built by the constructor, a filter name that the
    legend knows keeps every dish with its code out of the menu, and
    filter names that the legend does not know filter nothing at all:
    no cell is then rejected for its allergens. *)
Theorem allergen_names_filter (pdf : PDF) (config : Config)
    (self : MensaParser) :
  MensaParser_init pdf config = Ok self ->
  (forall name code d day dishes dish,
     name ∈ filter_allergen_names config ->
     allergen_map self !! name = Some code ->
     get_all_dishes self = Ok d -> dict_get d day = Ok dishes ->
     dish ∈ dishes ->
     code ∉ allergens dish)
  /\ ((forall name, name ∈ filter_allergen_names config ->
                    allergen_map self !! name = None) ->
      forall allergens, has_filter_allergen self allergens = false).
Proof.
  intros Hinit. apply init_fields in Hinit as (_ & _ & _ & Hcodes). split.
  - intros name code d day dishes dish Hname Hcode Hd Hget Hin Hdish.
    apply dict_get_elem_of in Hget.
    destruct (menu_dish_source self d Hd day dishes dish Hget Hin)
      as [cell_text Hp].
    apply parse_dish_Some in Hp as (_ & _ & _ & Ha & _ & _ & _ & Hf).
    assert (has_filter_allergen self
              (title_and_allergens (full_title (cell_lines cell_text))).2
            = true); [|congruence].
    apply has_filter_allergen_true. exists code. rewrite <- Ha.
    split; [done|]. rewrite Hcodes. apply elem_of_resolved. eauto.
  - intros Hunknown allergens. apply not_true_is_false. intros H.
    apply has_filter_allergen_true in H as (code & _ & H).
    rewrite Hcodes in H. apply elem_of_resolved in H as (name & Hn & Hc).
    rewrite (Hunknown name Hn) in Hc. done.
Qed.

(** The filter name "Soja" on the legend "28 Soja 29 Sellerie". *)
Lemma allergen_names_filter_witness :
  let pdf := menu_pdf (Some monday_table) (utf8 "28 Soja 29 Sellerie") in
  let self :=
    {| pdf_content := pdf;
       config := strict_config;
       allergen_map :=
         {[ utf8 "soja" := utf8 "28"; utf8 "sellerie" := utf8 "29" ]};
       filter_allergen_numbers := {[ utf8 "28" ]} |} in
  exists d,
    get_all_dishes self = Ok d
    /\ dict_get d (utf8 "Montag") = Ok [gulasch; broetchen]
    /\ utf8 "28" ∉ allergens gulasch.
Proof.
  intros pdf self. eexists. split; [vm_compute; reflexivity|].
  split; [vm_compute; reflexivity|].
  eapply (proj1 (allergen_names_filter pdf strict_config self
                   ltac:(vm_compute; reflexivity))
            (utf8 "soja") (utf8 "28") _ (utf8 "Montag")
            [gulasch; broetchen] gulasch).
  - vm_compute. set_solver.
  - vm_compute. reflexivity.
  - vm_compute. reflexivity.
  - vm_compute. reflexivity.
  - left.
Defined.

(** ** The mail settings *)

Section MailSettings.

Lemma elem_of_stripped_items raw r :
  r ∈ stripped_items raw <->
  exists piece, piece ∈ Py.split_on 0x2C raw /\ Py.strip piece <> []
                /\ r = Py.strip piece.
Proof.
  unfold stripped_items. rewrite list_elem_of_fmap. split.
  - intros (piece & -> & Hin). apply list_elem_of_filter in Hin as [? ?].
    eauto.
  - intros (piece & Hin & Hne & ->). exists piece. split; [done|].
    by apply list_elem_of_filter.
Qed.

Lemma stripped_items_normalised raw r :
  r ∈ stripped_items raw ->
  r <> [] /\ Py.strip r = r /\ (0x2C ∉ r) /\ forall c, c ∈ r -> c ∈ raw.
Proof.
  rewrite elem_of_stripped_items. intros (piece & Hin & Hne & ->).
  split; [done|]. split; [apply strip_strip|]. split.
  - intros Hc. apply elem_of_strip in Hc.
    by destruct (split_on_elem _ _ _ _ Hin Hc).
  - intros c Hc. apply elem_of_strip in Hc.
    by destruct (split_on_elem _ _ _ _ Hin Hc).
Qed.

Lemma stripped_items_nil raw :
  stripped_items raw = [] <->
  Forall (fun c => Py.isspace c = true \/ c = 0x2C) raw.
Proof.
  split.
  - intros Hempty. apply Forall_forall. intros c Hc.
    destruct (Py.isspace c) eqn:Hs; [by left|right].
    destruct (decide (c = 0x2C)) as [|Hne]; [done|exfalso].
    destruct (split_on_cover 0x2C raw c Hc Hne) as (piece & Hp & Hcp).
    assert (Py.strip piece ∈ stripped_items raw) as Hin.
    { apply elem_of_stripped_items. exists piece. split; [done|].
      split; [|done]. apply strip_not_nil. eauto. }
    rewrite Hempty in Hin. by apply elem_of_nil in Hin.
  - intros Hall. destruct (stripped_items raw) as [|r rs] eqn:Hr; [done|].
    assert (r ∈ stripped_items raw) as Hin by (rewrite Hr; left).
    apply elem_of_stripped_items in Hin as (piece & Hp & Hne & _).
    exfalso. apply strip_not_nil in Hne as (c & Hc & Hs).
    destruct (split_on_elem _ _ _ _ Hp Hc) as [Hin Hsep].
    rewrite Forall_forall in Hall. destruct (Hall c Hin); congruence.
Qed.

(** The filter settings are read as the recipients are, and lowered. *)
Lemma lowered_items_stripped raw :
  lowered_items raw = list_to_set (Py.lower <$> stripped_items raw).
Proof.
  unfold lowered_items, stripped_items. by rewrite <- list_fmap_compose.
Qed.

End MailSettings.

(** X16. The mail settings are accepted exactly when the sender and the
    password are set and non-empty and RECIPIENTS holds something else
    than commas and white space; otherwise [ValueError] is raised. The
    recipients of accepted settings are non-empty, stripped and free of
    commas, and an unset RECIPIENTS counts as an empty one. *)
Theorem mail_config_accepted (email password recipients_raw : option str) :
  let rejected :=
    falsy email = true \/ falsy password = true
    \/ Forall (fun c => Py.isspace c = true \/ c = 0x2C)
              (getenv recipients_raw []) in
  (rejected -> mail_config email password recipients_raw = Raise ValueError)
  /\ (~ rejected ->
      exists self,
        mail_config email password recipients_raw = Ok self
        /\ smtp_email self = email /\ smtp_password self = password
        /\ recipients self = stripped_items (getenv recipients_raw [])
        /\ recipients self <> []
        /\ forall r, r ∈ recipients self ->
                     r <> [] /\ Py.strip r = r /\ 0x2C ∉ r).
Proof.
  intros rejected. unfold mail_config, __post_init__. simpl.
  destruct (falsy email) eqn:He.
  { split; [done|]. intros H. destruct H. by left. }
  destruct (falsy password) eqn:Hp.
  { split; [done|]. intros H. destruct H. right. by left. }
  simpl. destruct (decide (stripped_items (getenv recipients_raw []) = []))
    as [Hnil|Hne].
  - rewrite bool_decide_true by done. split; [done|]. intros H.
    destruct H. right. right. by apply stripped_items_nil.
  - rewrite bool_decide_false by done. split.
    + intros [?|[?|H]]; [done..|]. by apply stripped_items_nil in H.
    + intros _. eexists. split; [done|]. simpl. repeat split; try done;
        by apply stripped_items_normalised in H as (? & ? & ? & _).
Qed.

(** Two recipients around an empty item. *)
Lemma mail_config_accepted_witness :
  exists self,
    mail_config (Some (utf8 "bot@hwr.de")) (Some (utf8 "secret"))
      (Some (utf8 " a@hwr.de, ,b@hwr.de "))
    = Ok self
    /\ smtp_email self = Some (utf8 "bot@hwr.de")
    /\ smtp_password self = Some (utf8 "secret")
    /\ recipients self
       = stripped_items (getenv (Some (utf8 " a@hwr.de, ,b@hwr.de ")) [])
    /\ recipients self <> []
    /\ forall r, r ∈ recipients self ->
                 r <> [] /\ Py.strip r = r /\ 0x2C ∉ r.
Proof.
  apply (proj2 (mail_config_accepted (Some (utf8 "bot@hwr.de"))
                  (Some (utf8 "secret"))
                  (Some (utf8 " a@hwr.de, ,b@hwr.de ")))).
  intros [H|[H|H]]; [done|done|].
  apply stripped_items_nil in H. by vm_compute in H.
Defined.

(** ** The mail body *)

Section MailBody.

Variable format_2f : Q -> str.

Lemma startswith_app w s : Py.startswith w (w ++ s) = true.
Proof.
  induction w as [|c w IH]; simpl; [by destruct s|].
  by rewrite N.eqb_refl.
Qed.

Lemma contains_here w s : Py.contains w (w ++ s) = true.
Proof.
  destruct (w ++ s) eqn:E; simpl; rewrite <- E, startswith_app; done.
Qed.

Lemma contains_app_r w a b :
  Py.contains w b = true -> Py.contains w (a ++ b) = true.
Proof.
  intros H. induction a as [|c a IH]; [done|].
  simpl. rewrite IH. apply orb_true_r.
Qed.

Lemma startswith_app_l w a b :
  Py.startswith w a = true -> Py.startswith w (a ++ b) = true.
Proof.
  revert a. induction w as [|c w IH]; intros a H; [done|].
  destruct a as [|x a]; [done|]. simpl in *.
  apply andb_true_iff in H as [-> H]. simpl. by apply IH.
Qed.

Lemma contains_app_l w a b :
  Py.contains w a = true -> Py.contains w (a ++ b) = true.
Proof.
  induction a as [|c a IH]; intros H.
  - simpl in H. rewrite orb_false_r in H. destruct w; [|done].
    by destruct b.
  - simpl in H. apply orb_true_iff in H as [H|H].
    + change ((c :: a) ++ b) with (c :: (a ++ b)).
      apply (startswith_app_l _ (c :: a) b) in H.
      simpl in *. by rewrite H.
    + simpl. rewrite (IH H). apply orb_true_r.
Qed.

Lemma contains_concat w parts part :
  part ∈ parts -> Py.contains w part = true ->
  Py.contains w (concat parts) = true.
Proof.
  intros Hin H. induction Hin as [part parts|part x parts Hin IH]; simpl.
  - by apply contains_app_l.
  - by apply contains_app_r, IH.
Qed.

Lemma fold_paragraphs l : forall html,
  fold_left (fun html dish => html ++ dish_paragraph format_2f dish) l html
  = html ++ concat (dish_paragraph format_2f <$> l).
Proof.
  induction l as [|d l IH]; intros html; simpl.
  - by rewrite app_nil_r.
  - by rewrite IH, <- app_assoc.
Qed.

Lemma insert_by_price_perm d l : insert_by_price d l ≡ₚ d :: l.
Proof.
  induction l as [|x l IH]; simpl; [done|].
  destruct (Qle_bool _ _); [done|]. rewrite IH. apply Permutation_swap.
Qed.

Lemma sorted_by_price_perm dishes : sorted_by_price dishes ≡ₚ dishes.
Proof.
  induction dishes as [|d l IH]; simpl; [done|].
  by rewrite insert_by_price_perm, IH.
Qed.

Lemma insert_by_price_sorted d l :
  ascending l -> ascending (insert_by_price d l).
Proof.
  induction l as [|x l IH]; simpl; intros H.
  { by repeat constructor. }
  destruct H as [Hx Hl].
  destruct (Qle_bool (price d) (price x)) eqn:E.
  - apply Qle_bool_iff in E. simpl. split; [|done].
    constructor; [done|]. eapply Forall_impl; [exact Hx|].
    intros y Hy. simpl in Hy. by eapply Qle_trans.
  - assert (price x <= price d)%Q as Hle.
    { apply Qlt_le_weak, Qnot_le_lt. intros H.
      apply Qle_bool_iff in H. congruence. }
    simpl. split; [|by apply IH].
    rewrite insert_by_price_perm. by constructor.
Qed.

Lemma sorted_by_price_sorted dishes : ascending (sorted_by_price dishes).
Proof.
  induction dishes as [|d l IH]; simpl; [done|].
  by apply insert_by_price_sorted.
Qed.

(** The sort is stable: the dishes of one price keep their order. *)
Lemma insert_by_price_stable (p : Q) d l :
  filter (fun x => Qeq_bool (price x) p = true) (insert_by_price d l)
  = filter (fun x => Qeq_bool (price x) p = true) (d :: l).
Proof.
  induction l as [|x l IH]; simpl; [done|].
  destruct (Qle_bool (price d) (price x)) eqn:E; [done|].
  rewrite (filter_cons _ x), IH, !filter_cons.
  destruct (decide (Qeq_bool (price x) p = true)) as [Hx|Hx]; [|done].
  destruct (decide (Qeq_bool (price d) p = true)) as [Hd|Hd]; [|done].
  apply Qeq_bool_iff in Hx, Hd.
  assert (Qle_bool (price d) (price x) = true); [|congruence].
  apply Qle_bool_iff. rewrite Hx, Hd. apply Qle_refl.
Qed.

Lemma sorted_by_price_stable (p : Q) dishes :
  filter (fun x => Qeq_bool (price x) p = true) (sorted_by_price dishes)
  = filter (fun x => Qeq_bool (price x) p = true) dishes.
Proof.
  induction dishes as [|d l IH]; simpl; [done|].
  by rewrite insert_by_price_stable, !filter_cons, IH.
Qed.

Lemma section_eq dishes section_title :
  dishes <> [] ->
  _format_dish_section format_2f dishes section_title
  = utf8 "<h3>" ++ section_title ++ utf8 "</h3>"
    ++ concat (dish_paragraph format_2f <$> sorted_by_price dishes).
Proof.
  intros Hne. unfold _format_dish_section.
  rewrite bool_decide_false by done. cbv zeta.
  by rewrite fold_paragraphs, <- !app_assoc.
Qed.

Lemma section_contains dishes section_title dish :
  dish ∈ dishes ->
  Py.contains (dish_paragraph format_2f dish)
    (_format_dish_section format_2f dishes section_title) = true.
Proof.
  intros Hin. rewrite section_eq by (by intros ->; apply elem_of_nil in Hin).
  apply contains_app_r, contains_app_r, contains_app_r.
  apply (contains_concat _ _ (dish_paragraph format_2f dish)).
  - apply list_elem_of_fmap_2. by rewrite sorted_by_price_perm.
  - rewrite <- (app_nil_r (dish_paragraph format_2f dish)) at 2.
    apply contains_here.
Qed.

Lemma show_day_app d html item :
  show_day format_2f d html item = html ++ show_day format_2f d [] item.
Proof.
  destruct item as [label day_name]. unfold show_day. cbv zeta.
  destruct (bool_decide _); rewrite <- !app_assoc, app_nil_l;
    reflexivity.
Qed.

Lemma show_days_app d days : forall html,
  fold_left (show_day format_2f d) days html
  = html ++ concat (show_day format_2f d [] <$> days).
Proof.
  induction days as [|item days IH]; intros html; simpl.
  - by rewrite app_nil_r.
  - by rewrite IH, show_day_app, <- app_assoc.
Qed.


Lemma show_day_contains d label day_name dish :
  dish ∈ get_or d day_name [] ->
  category dish = utf8 "main" \/ category dish = utf8 "side" ->
  Py.contains (dish_paragraph format_2f dish)
    (show_day format_2f d [] (label, day_name)) = true.
Proof.
  intros Hin Hcat. unfold show_day.
  rewrite bool_decide_false by (by intros H; rewrite H in Hin;
                                  apply elem_of_nil in Hin).
  apply contains_app_l. destruct Hcat as [Hc|Hc].
  - apply contains_app_l, contains_app_r. apply section_contains.
    by apply list_elem_of_filter.
  - apply contains_app_r. apply section_contains.
    by apply list_elem_of_filter.
Qed.

(** The days shown on each day of the week. *)
Lemma days_to_show_eq today_idx :
  days_to_show today_idx
  = Ok ((if (today_idx <? 5)%nat
         then match WEEKDAYS_DE !! today_idx with
              | Some day => [(utf8 "Heute", day)]
              | None => []
              end
         else [])
        ++ (if (today_idx <? 4)%nat
            then match WEEKDAYS_DE !! S today_idx with
                 | Some day => [(utf8 "Morgen", day)]
                 | None => []
                 end
            else [])).
Proof.
  do 5 (destruct today_idx as [|today_idx]; [reflexivity|]).
  reflexivity.
Qed.

Lemma days_to_show_cases today_idx :
  exists days,
    days_to_show today_idx = Ok days
    /\ (forall label day,
          (label, day) ∈ days <->
          (label = utf8 "Heute" /\ (today_idx < 5)%nat
           /\ WEEKDAYS_DE !! today_idx = Some day)
          \/ (label = utf8 "Morgen" /\ (today_idx < 4)%nat
              /\ WEEKDAYS_DE !! S today_idx = Some day)).
Proof.
  eexists. split; [apply days_to_show_eq|]. intros label day.
  rewrite elem_of_app.
  assert (Hlt5 : forall n, (n < 5)%nat -> is_Some (WEEKDAYS_DE !! n)).
  { intros n Hn. apply lookup_lt_is_Some. simpl. lia. }
  split.
  - intros [H|H].
    + left. destruct (Nat.ltb_spec today_idx 5) as [Hlt|Hge];
        [|by apply elem_of_nil in H].
      destruct (WEEKDAYS_DE !! today_idx) as [day'|];
        [|by apply elem_of_nil in H].
      apply list_elem_of_singleton in H. by injection H as -> ->.
    + right. destruct (Nat.ltb_spec today_idx 4) as [Hlt|Hge];
        [|by apply elem_of_nil in H].
      destruct (WEEKDAYS_DE !! S today_idx) as [day'|];
        [|by apply elem_of_nil in H].
      apply list_elem_of_singleton in H. by injection H as -> ->.
  - intros [(-> & Hlt & H)|(-> & Hlt & H)].
    + left. apply Nat.ltb_lt in Hlt. rewrite Hlt, H. left.
    + right. apply Nat.ltb_lt in Hlt. rewrite Hlt, H. left.
Qed.

Lemma body_eq today_idx d days :
  days_to_show today_idx = Ok days ->
  _format_html_body format_2f today_idx d
  = Ok (HTML_HEAD
        ++ (if bool_decide (days = []) then HTML_WEEKEND
            else concat (show_day format_2f d [] <$> days))
        ++ HTML_FOOT).
Proof.
  intros H. unfold _format_html_body. rewrite H.
  cbn -[HTML_HEAD HTML_WEEKEND HTML_FOOT fold_left].
  destruct (bool_decide (days = []));
    [rewrite <- app_assoc; reflexivity|].
  rewrite show_days_app, <- app_assoc. reflexivity.
Qed.


Lemma body_contains today_idx d label day dish :
  (label = utf8 "Heute" /\ (today_idx < 5)%nat
   /\ WEEKDAYS_DE !! today_idx = Some day)
  \/ (label = utf8 "Morgen" /\ (today_idx < 4)%nat
      /\ WEEKDAYS_DE !! S today_idx = Some day) ->
  dish ∈ get_or d day [] ->
  category dish = utf8 "main" \/ category dish = utf8 "side" ->
  exists html,
    _format_html_body format_2f today_idx d = Ok html
    /\ Py.contains (dish_paragraph format_2f dish) html = true.
Proof.
  intros Hday Hin Hcat.
  destruct (days_to_show_cases today_idx) as (days & H & Hd).
  rewrite (body_eq today_idx _ days H). eexists. split; [done|].
  apply Hd in Hday.
  rewrite bool_decide_false
    by (by intros Hnil; rewrite Hnil in Hday; apply elem_of_nil in Hday).
  apply contains_app_r, contains_app_l.
  apply (contains_concat _ _ (show_day format_2f d [] (label, day))).
  - by apply list_elem_of_fmap_2.
  - by apply show_day_contains.
Qed.

End MailBody.



(** X18. A section of the mail lists every dish it is given once, in the
    order of the prices, the cheapest first, and dishes of the same price
    in the order in which the menu has them. *)
Theorem section_in_price_order (format_2f : Q -> str)
    (dishes : list Dish) (section_title : str) :
  dishes <> [] ->
  exists listed,
    _format_dish_section format_2f dishes section_title
    = utf8 "<h3>" ++ section_title ++ utf8 "</h3>"
      ++ concat (dish_paragraph format_2f <$> listed)
    /\ listed ≡ₚ dishes /\ ascending listed
    /\ forall p : Q,
         filter (fun x => Qeq_bool (price x) p = true) listed
         = filter (fun x => Qeq_bool (price x) p = true) dishes.
Proof.
  intros Hne. exists (sorted_by_price dishes).
  split; [by apply section_eq|].
  split; [apply sorted_by_price_perm|].
  split; [apply sorted_by_price_sorted|].
  intros p. apply sorted_by_price_stable.
Qed.

(** A section of two dishes. *)
Lemma section_in_price_order_witness :
  exists listed,
    _format_dish_section cents_2f [gulasch; broetchen] (utf8 "Gerichte")
    = utf8 "<h3>" ++ utf8 "Gerichte" ++ utf8 "</h3>"
      ++ concat (dish_paragraph cents_2f <$> listed)
    /\ listed ≡ₚ [gulasch; broetchen] /\ ascending listed
    /\ forall p : Q,
         filter (fun x => Qeq_bool (price x) p = true) listed
         = filter (fun x => Qeq_bool (price x) p = true)
                  [gulasch; broetchen].
Proof.
  apply (section_in_price_order cents_2f [gulasch; broetchen]
           (utf8 "Gerichte")).
  discriminate.
Defined.

(** X19. From the table to the mail: every dish that the menu has for
    today, and from Monday to Thursday for tomorrow, has its paragraph,
    with its title and its price, in the mail body. *)
Theorem menu_dish_in_mail (format_2f : Q -> str) (self : MensaParser)
    (d : dict (list Dish)) (today_idx : nat) (day : str)
    (dishes : list Dish) (dish : Dish) :
  get_all_dishes self = Ok d ->
  ((today_idx < 5)%nat /\ WEEKDAYS_DE !! today_idx = Some day)
  \/ ((today_idx < 4)%nat /\ WEEKDAYS_DE !! S today_idx = Some day) ->
  dict_get d day = Ok dishes -> dish ∈ dishes ->
  exists html,
    _format_html_body format_2f today_idx d = Ok html
    /\ Py.contains (dish_paragraph format_2f dish) html = true.
Proof.
  intros Hd Hday Hget Hin.
  assert (category dish = utf8 "main" \/ category dish = utf8 "side")
    as Hcat.
  { destruct (menu_dish_source self d Hd day dishes dish
                (dict_get_elem_of _ _ _ Hget) Hin) as [cell_text Hp].
    apply parse_dish_Some in Hp as (_ & _ & _ & _ & Hc & _).
    rewrite Hc. destruct (Qle_bool _ _); auto. }
  assert (dish ∈ get_or d day []) as Hin'.
  { unfold get_or. by rewrite Hget. }
  destruct Hday as [[Hlt Hday]|[Hlt Hday]].
  - apply (body_contains format_2f today_idx d (utf8 "Heute") day dish);
      auto.
  - apply (body_contains format_2f today_idx d (utf8 "Morgen") day dish);
      auto.
Qed.

(** The goulash of the sample table in the mail of a Monday. *)
Lemma menu_dish_in_mail_witness :
  exists d,
    get_all_dishes (strict_parser (Some monday_table)) = Ok d
    /\ exists html,
         _format_html_body cents_2f 0 d = Ok html
         /\ Py.contains (dish_paragraph cents_2f gulasch) html = true.
Proof.
  eexists. split; [vm_compute; reflexivity|].
  eapply (menu_dish_in_mail cents_2f (strict_parser (Some monday_table)) _
            0 (utf8 "Montag") [gulasch; broetchen] gulasch).
  - vm_compute. reflexivity.
  - left. split; [lia|reflexivity].
  - vm_compute. reflexivity.
  - left.
Defined.

(** ** The white space of a title *)

Section TitleSpace.

Lemma break_match_not_empty pre s m :
  Re.match_at BREAK_RE pre s = Some m -> Re.matched m <> [].
Proof.
  intros H. apply match_at_Some in H as (H & _ & Hs).
  unfold BREAK_RE, Re.plus, Re.chr in H. cbn [matches] in H.
  intros Hnil. rewrite Hnil in Hs. simpl in Hs. subst s.
  destruct H as [(s1 & gs1 & (c & Hc & _) & (w & Hw & _))
                |(w & Hw & _ & Hlen & _)].
  - rewrite Hw in Hc. apply (f_equal (@length N)) in Hc.
    simpl in Hc. rewrite length_app in Hc. lia.
  - apply (f_equal (@length N)) in Hw. rewrite length_app in Hw. lia.
Qed.

Lemma break_matches_space pre c s :
  Py.isspace c = true -> is_Some (Re.match_at BREAK_RE pre (c :: s)).
Proof.
  intros Hc. apply (match_at_is_Some _ _ _ s []).
  unfold BREAK_RE, Re.plus. cbn [matches]. right.
  exists [c]. repeat split; try done. by repeat constructor.
Qed.

(** After the substitution the only white space left is the space. *)
Lemma sub_break_spaces s : forall skip,
  Forall (fun c => Py.isspace c = true -> c = 0x20)
         (Re.sub_from BREAK_RE (utf8 " ") skip s).
Proof.
  induction s as [|c s IH]; intros skip.
  - destruct skip; simpl; [|done].
    destruct (Re.match_at BREAK_RE [] []); constructor.
  - destruct skip as [|n]; [|apply IH].
    cbn [Re.sub_from].
    destruct (Re.match_at BREAK_RE [] (c :: s)) as [m|] eqn:Hm.
    + apply Forall_app. split; [by repeat constructor|].
      pose proof (break_match_not_empty _ _ _ Hm) as Hne.
      destruct (Re.matched m) as [|x w]; [done|]. apply IH.
    + constructor; [|apply IH]. intros Hc.
      destruct (break_matches_space [] c s Hc) as [m Hm'].
      congruence.
Qed.

Lemma Forall_strip (P : N -> Prop) s : Forall P s -> Forall P (Py.strip s).
Proof.
  intros H. apply Forall_forall. intros c Hc.
  apply elem_of_strip in Hc. rewrite Forall_forall in H. auto.
Qed.

Lemma full_title_spaces lines :
  Forall (fun c => Py.isspace c = true -> c = 0x20) (full_title lines).
Proof. apply Forall_strip, sub_break_spaces. Qed.

(** The first group of the tail pattern is the head of the text. *)
Lemma tail_group_prefix t m :
  Re.match_ ALLERGEN_TAIL_RE t = Some m ->
  exists n, Re.group_of m 1 = take n t.
Proof.
  intros H. apply match_at_Some in H as (H & _).
  unfold Re.group_of. revert H.
  generalize (Re.after m) (Re.m_groups m). intros s' gs'.
  unfold ALLERGEN_TAIL_RE, Re.star, Re.plus, Re.chr. cbn [matches].
  intros H.
  repeat match goal with
         | H : ex _ |- _ => destruct H as [? H]
         | H : _ /\ _ |- _ => destruct H
         end.
  simplify_eq. cbn [Re.group Nat.eqb]. eauto.
Qed.

Lemma title_spaces t :
  Forall (fun c => Py.isspace c = true -> c = 0x20) t ->
  Forall (fun c => Py.isspace c = true -> c = 0x20)
         (title_and_allergens t).1.
Proof.
  intros Ht. unfold title_and_allergens.
  destruct (Re.match_ ALLERGEN_TAIL_RE t) as [m|] eqn:Hm; [|done].
  simpl. apply Forall_strip.
  destruct (tail_group_prefix t m Hm) as [n ->]. by apply Forall_take.
Qed.

End TitleSpace.

(** X20. The title of a dish is on one line: every run of white space of
    the cell, line breaks included, has become a space, so that the only
    white space in a title is the space. *)
Theorem title_on_one_line (self : MensaParser) (cell_text : str)
    (d : Dish) :
  _parse_dish_from_cell self cell_text = Ok (Some d) ->
  Forall (fun c => Py.isspace c = true -> c = 0x20) (title d).
Proof.
  intros H. apply parse_dish_Some in H as (_ & _ & Ht & _).
  rewrite Ht. apply title_spaces, full_title_spaces.
Qed.

(** The title of the goulash, which the cell breaks in two. *)
Lemma title_on_one_line_witness :
  Forall (fun c => Py.isspace c = true -> c = 0x20) (title gulasch).
Proof.
  apply (title_on_one_line (strict_parser None) gulasch_cell gulasch).
  vm_compute. reflexivity.
Defined.
